(** * Conversational sales backend: orders, comparator, orchestrator, script continuation

    A shallow embedding of the Python backend:
    - [database/models/product_stock.py], [order.py], [order_detail.py]
    - [services/order_service.py] ([OrderService.create_order])
    - [services/product_comparison_service.py]
    - [agents/orchestrator.py]
    - [api/graphql/mutations.py] ([continuar_conversacion])

    Conventions.
    - A Python [str] is the byte string of its UTF-8 encoding.  The test
      [kw in text] on code points coincides with the test on UTF-8 bytes.
    - [Decimal] values are exact rationals ([Q]); equality of decimals is
      [Qeq].  The columns are [Numeric(12,2)] and [Numeric(5,2)], on which
      Python's default 28-digit context computes exactly.
    - Python [int] is [Z].
    - A call that may raise returns an [outcome]. *)

From Stdlib Require Import ZArith QArith Qminmax Lia Lqa Ascii String Sorted.
From stdpp Require Import base option list gmap strings.

Local Open Scope Z_scope.

(** ** Python values and exceptions *)

Module Py.

Inductive outcome (E A : Type) : Type :=
| Ret (a : A)
| Raise (e : E).
Arguments Ret {E A} a.
Arguments Raise {E A} e.

Definition bind {E A B} (c : outcome E A) (k : A -> outcome E B) : outcome E B :=
  match c with
  | Ret a => k a
  | Raise e => Raise e
  end.

(** [needle in haystack] for Python strings. *)
Fixpoint starts_with (needle hay : string) : bool :=
  match needle, hay with
  | EmptyString, _ => true
  | String _ _, EmptyString => false
  | String a n', String b h' => if Ascii.eqb a b then starts_with n' h' else false
  end.

Fixpoint contains (needle hay : string) : bool :=
  if starts_with needle hay then true
  else match hay with
       | EmptyString => false
       | String _ h' => contains needle h'
       end.

(** [any(w in text for w in words)] *)
Definition any_in (words : list string) (text : string) : bool :=
  existsb (fun w => contains w text) words.

(** [sum(1 for kw in words if kw in text)] *)
Definition count_in (words : list string) (text : string) : Z :=
  Z.of_nat (length (filter (fun w => contains w text = true) words)).

(** Decimals. *)
Definition Qltb (x y : Q) : bool := negb (Qle_bool y x).

(** [d or Decimal("0")]: [None] and a zero decimal are falsy. *)
Definition or_zero (d : option Q) : Q :=
  match d with
  | Some q => if Qeq_bool q 0 then 0%Q else q
  | None => 0%Q
  end.

(** [str.lower] and [str.strip] on ASCII text: [A-Z] go to [a-z] and
    every other byte stays; leading and trailing ASCII whitespace goes.
    On text made of ASCII characters they are Python's own. *)
Definition ascii_lower_char (a : ascii) : ascii :=
  let n := N_of_ascii a in
  if (65 <=? n)%N && (n <=? 90)%N then ascii_of_N (n + 32) else a.

Fixpoint ascii_lower (s : string) : string :=
  match s with
  | EmptyString => EmptyString
  | String a s' => String (ascii_lower_char a) (ascii_lower s')
  end.

Definition is_space (a : ascii) : bool :=
  let n := N_of_ascii a in
  (n =? 32)%N || ((9 <=? n)%N && (n <=? 13)%N).

Fixpoint lstrip (s : string) : string :=
  match s with
  | String a s' => if is_space a then lstrip s' else s
  | EmptyString => EmptyString
  end.

Fixpoint rstrip (s : string) : string :=
  match s with
  | EmptyString => EmptyString
  | String a s' =>
      match rstrip s' with
      | EmptyString => if is_space a then EmptyString else String a EmptyString
      | t => String a t
      end
  end.

Definition ascii_strip (s : string) : string := rstrip (lstrip s).

Definition ascii_upper_char (a : ascii) : ascii :=
  let n := N_of_ascii a in
  if (97 <=? n)%N && (n <=? 122)%N then ascii_of_N (n - 32) else a.

Fixpoint ascii_upper (s : string) : string :=
  match s with
  | EmptyString => EmptyString
  | String a s' => String (ascii_upper_char a) (ascii_upper s')
  end.

(** [len(s)] counts code points: the bytes that are not UTF-8
    continuation bytes (10xxxxxx). *)
Definition is_continuation (a : ascii) : bool :=
  let n := N_of_ascii a in (128 <=? n)%N && (n <? 192)%N.

Fixpoint len (s : string) : Z :=
  match s with
  | EmptyString => 0
  | String a s' => (if is_continuation a then 0 else 1) + len s'
  end.

End Py.

Notation "'let*' x ':=' c 'in' k" := (Py.bind c (fun x => k))
  (at level 10, x pattern, c at level 100, k at level 200).

(** ** Database models *)

Module Models.
Import Py.

(** A UUID in its canonical text form. *)
Definition uuid := string.
(** A calendar date as its proleptic ordinal. *)
Definition date := Z.

(** [ProductStock]: the columns the services read. *)
Record ProductStock := {
  ps_id : uuid;
  product_name : string;
  product_sku : option string;
  barcode : option string;
  category : option string;
  brand : option string;
  quantity_available : Z;
  unit_cost : Q;
  discount_percent : option Q;
  ps_discount_amount : option Q;
  promotion_description : option string;
  promotion_valid_until : option date;
  is_on_sale : bool;
  is_active : bool
}.

Definition set_quantity_available (p : ProductStock) (q : Z) : ProductStock :=
  {| ps_id := ps_id p; product_name := product_name p;
     product_sku := product_sku p; barcode := barcode p;
     category := category p; brand := brand p;
     quantity_available := q;
     unit_cost := unit_cost p; discount_percent := discount_percent p;
     ps_discount_amount := ps_discount_amount p;
     promotion_description := promotion_description p;
     promotion_valid_until := promotion_valid_until p;
     is_on_sale := is_on_sale p; is_active := is_active p |}.

(** [ProductStock.final_price] *)
Definition final_price (p : ProductStock) : Q :=
  if negb (is_on_sale p) then unit_cost p
  else
    let price := unit_cost p in
    let price :=
      match discount_percent p with
      | Some d => if Qltb 0 d then (price - price * (d / 100))%Q else price
      | None => price
      end in
    let price :=
      match ps_discount_amount p with
      | Some a => if Qltb 0 a then (price - a)%Q else price
      | None => price
      end in
    Qmax price 0.

(** [ProductStock.savings_amount] *)
Definition savings_amount (p : ProductStock) : Q :=
  if negb (is_on_sale p) then 0%Q else (unit_cost p - final_price p)%Q.

(** [ProductStock.has_active_promotion]; [today] is [date.today()]. *)
Definition has_active_promotion (today : date) (p : ProductStock) : bool :=
  if negb (is_on_sale p) then false
  else match promotion_valid_until p with
       | Some d => today <=? d
       | None => true
       end.

(** [OrderDetail]: a line of an order. *)
Record OrderDetail := {
  od_product_id : uuid;
  od_product_name : string;
  od_product_sku : option string;
  quantity : Z;
  unit_price : Q;
  od_discount_amount : option Q
}.

(** [OrderDetail.subtotal] *)
Definition od_subtotal (d : OrderDetail) : Q :=
  let discount := or_zero (od_discount_amount d) in
  (unit_price d * inject_Z (quantity d) - discount)%Q.

Inductive OrderStatus :=
| DRAFT | CONFIRMED | PAID | PROCESSING | SHIPPED | DELIVERED | CANCELLED | REFUNDED.

(** [Order]: the header.  Columns with a server default are [None] on a
    freshly constructed object. *)
Record Order := {
  o_id : option uuid;
  user_id : uuid;
  status : OrderStatus;
  payment_status : string;
  subtotal : option Q;
  tax_amount : option Q;
  shipping_cost : option Q;
  discount_amount : option Q;
  total_amount : option Q;
  shipping_address : string;
  notes : option string;
  session_id : option string;
  internal_notes : option string;
  details : list OrderDetail
}.

(** [sum(detail.subtotal for detail in self.details)] *)
Definition sum_subtotals (ds : list OrderDetail) : Q :=
  fold_left (fun acc d => (acc + od_subtotal d)%Q) ds 0%Q.

(** [Order.calculate_totals] *)
Definition calculate_totals (o : Order) : Order :=
  let sub := match details o with
             | [] => 0%Q
             | _ => sum_subtotals (details o)
             end in
  let tax := or_zero (tax_amount o) in
  let shipping := or_zero (shipping_cost o) in
  let discount := or_zero (discount_amount o) in
  let total := (sub + tax + shipping - discount)%Q in
  let total := if Qltb total 0 then 0%Q else total in
  {| o_id := o_id o; user_id := user_id o; status := status o;
     payment_status := payment_status o;
     subtotal := Some sub;
     tax_amount := tax_amount o; shipping_cost := shipping_cost o;
     discount_amount := discount_amount o;
     total_amount := Some total;
     shipping_address := shipping_address o; notes := notes o;
     session_id := session_id o; internal_notes := internal_notes o;
     details := details o |}.

End Models.

(** ** [services/order_service.py] *)

Module OrderService.
Import Py Models.

(** [OrderDetailCreate] and [OrderCreate] (pydantic schemas). *)
Record OrderDetailCreate := {
  product_id : uuid;
  odc_quantity : Z
}.

Record OrderCreate := {
  oc_user_id : uuid;
  oc_details : list OrderDetailCreate;
  oc_shipping_address : string;
  oc_notes : option string;
  oc_session_id : option string
}.

(** The field constraints checked when an [OrderCreate] is built:
    [shipping_address] has [min_length=10], [details] has
    [min_length=1], every [quantity] has [ge=1]. *)
Definition valid_order_create (d : OrderCreate) : bool :=
  (10 <=? len (oc_shipping_address d))
  && (1 <=? Z.of_nat (length (oc_details d)))
  && forallb (fun it => 1 <=? odc_quantity it) (oc_details d).

(** What the storage layer can raise under a database call. *)
Inductive DbFault :=
| TimeoutError
| OperationalError
| OtherSQLAlchemyError
| UnexpectedError.

(** The exceptions [create_order] lets out. *)
Inductive OrderError :=
| ProductNotFoundError (pid : uuid)
| InsufficientStockError (name : string) (available requested : Z)
| OrderServiceError (msg : string).

(** What is raised inside the [try] block. *)
Inductive raised :=
| RNotFound (pid : uuid)
| RInsufficient (name : string) (available requested : Z)
| RFault (f : DbFault).

(** The [except] clauses of [create_order], in order. *)
Definition translate (r : raised) : OrderError :=
  match r with
  | RNotFound pid => ProductNotFoundError pid
  | RInsufficient n a q => InsufficientStockError n a q
  | RFault TimeoutError =>
      OrderServiceError "La base de datos no responde. Por favor intenta nuevamente."
  | RFault OperationalError =>
      OrderServiceError "Error de base de datos. Intenta más tarde."
  | RFault OtherSQLAlchemyError =>
      OrderServiceError "No se pudo crear el pedido. Contacta a soporte."
  | RFault UnexpectedError =>
      OrderServiceError "Error inesperado. Nuestro equipo ha sido notificado."
  end.

(** The behaviour of the storage layer during one call: which database
    call raises, and the id the database gives the new order. *)
Record DbEnv := {
  begin_fault : option DbFault;
  execute_fault : nat -> option DbFault;
  flush_fault : option DbFault;
  refresh_fault : option DbFault;
  commit_fault : option DbFault;
  new_order_id : uuid
}.

Definition db_call (f : option DbFault) : outcome raised unit :=
  match f with
  | Some e => Raise (RFault e)
  | None => Ret tt
  end.

(** The persisted state: the [product_stocks] table by primary key and
    the [orders] table. *)
Record DB := {
  product_stocks : gmap uuid ProductStock;
  orders : list Order
}.

(** [select(ProductStock).where(id == pid, is_active == True)],
    [scalar_one_or_none()]. *)
Definition select_active (tbl : gmap uuid ProductStock) (pid : uuid)
  : option ProductStock :=
  match tbl !! pid with
  | Some p => if is_active p then Some p else None
  | None => None
  end.

(** The body of [for item in order_data.details], on the rows held by
    the open transaction; [i] numbers the [session.execute] calls. *)
Fixpoint reserve (env : DbEnv) (i : nat) (items : list OrderDetailCreate)
    (tbl : gmap uuid ProductStock) (order_details : list OrderDetail)
  : outcome raised (gmap uuid ProductStock * list OrderDetail) :=
  match items with
  | [] => Ret (tbl, order_details)
  | item :: rest =>
      let* _ := db_call (execute_fault env i) in
      match select_active tbl (product_id item) with
      | None => Raise (RNotFound (product_id item))
      | Some product =>
          if quantity_available product <? odc_quantity item then
            Raise (RInsufficient (product_name product)
                     (quantity_available product) (odc_quantity item))
          else
            let product' :=
              set_quantity_available product
                (quantity_available product - odc_quantity item) in
            let detail :=
              {| od_product_id := ps_id product;
                 od_product_name := product_name product;
                 od_product_sku := product_sku product;
                 quantity := odc_quantity item;
                 unit_price := final_price product;
                 od_discount_amount := None |} in
            reserve env (S i) rest (<[product_id item := product']> tbl)
              (order_details ++ [detail])
      end
  end.

Definition set_id (o : Order) (i : uuid) : Order :=
  {| o_id := Some i; user_id := user_id o; status := status o;
     payment_status := payment_status o; subtotal := subtotal o;
     tax_amount := tax_amount o; shipping_cost := shipping_cost o;
     discount_amount := discount_amount o; total_amount := total_amount o;
     shipping_address := shipping_address o; notes := notes o;
     session_id := session_id o; internal_notes := internal_notes o;
     details := details o |}.

(** The block [async with session.begin(): ...]: it returns the rows as
    changed and the order when the commit succeeds. *)
Definition transaction (env : DbEnv) (order_data : OrderCreate)
    (tbl : gmap uuid ProductStock)
  : outcome raised (gmap uuid ProductStock * Order) :=
  let* _ := db_call (begin_fault env) in
  let* (tbl', order_details) := reserve env 0 (oc_details order_data) tbl [] in
  let order :=
    {| o_id := None;
       user_id := oc_user_id order_data;
       status := CONFIRMED;
       payment_status := "PENDING";
       subtotal := None; tax_amount := None; shipping_cost := None;
       discount_amount := None; total_amount := None;
       shipping_address := oc_shipping_address order_data;
       notes := oc_notes order_data;
       session_id := oc_session_id order_data;
       internal_notes := Some "Creado desde chatbot";
       details := order_details |} in
  let order := calculate_totals order in
  let* _ := db_call (flush_fault env) in
  let order := set_id order (new_order_id env) in
  let* _ := db_call (refresh_fault env) in
  let* _ := db_call (commit_fault env) in
  Ret (tbl', order).

(** The message returned with the order:
    "Pedido #<first 8 of id> creado exitosamente. Total: $<total>". *)
Inductive OrderMessage := PedidoCreado (id : option uuid) (total : option Q).

(** [OrderService.create_order]: the result and the persisted state
    after the call.  An exception inside [session.begin()] rolls the
    transaction back.  The statements after the commit only log the
    order and format the message. *)
Definition create_order (env : DbEnv) (order_data : OrderCreate) (db : DB)
  : outcome OrderError (Order * OrderMessage) * DB :=
  match transaction env order_data (product_stocks db) with
  | Ret (tbl', order) =>
      (Ret (order, PedidoCreado (o_id order) (total_amount order)),
       {| product_stocks := tbl'; orders := orders db ++ [order] |})
  | Raise r => (Raise (translate r), db)
  end.

(** A storage layer that never fails. *)
Definition healthy (oid : uuid) : DbEnv :=
  {| begin_fault := None; execute_fault := fun _ => None;
     flush_fault := None; refresh_fault := None; commit_fault := None;
     new_order_id := oid |}.

Definition no_fault (env : DbEnv) : Prop :=
  begin_fault env = None /\ (forall i, execute_fault env i = None)
  /\ flush_fault env = None /\ refresh_fault env = None
  /\ commit_fault env = None.

End OrderService.

(** ** [services/product_comparison_service.py] *)

Module Comparison.
Import Py Models.

(** [ProductoEnGuion] and [PreferenciasUsuario]: the fields the scoring
    reads. *)
Record ProductoEnGuion := {
  codigo_barras : string;
  nombre_detectado : string;
  prioridad : string
}.

Record PreferenciasUsuario := {
  uso_previsto : option string;
  talla_preferida : option string;
  color_preferido : option string;
  presupuesto_maximo : option Q
}.

Record GuionEntrada := {
  productos : list ProductoEnGuion;
  preferencias : PreferenciasUsuario
}.

(** The reasons appended to [reasons], by the text they render. *)
Inductive Reason :=
| AltaPrioridad
| DentroDePresupuesto (price : Q)
| PrecioLigeramenteSuperior
| PrecioSuperior
| EnOferta (ahorro : Q)
| Promocion (description : string)
| DescuentoDisponible
| StockLimitado
| SoloQuedan (n : Z)
| SinStock
| IdealPara (uso : string)
| PerfectoGimnasio
| UsoCasual
| ColorPreferido (color : string).

(** [ProductScore] *)
Record ProductScore := {
  product : ProductStock;
  total_score : Z;
  reasons : list Reason;
  matching_preferences : list string
}.

(** One scoring rule: the points it adds, the reasons and the matched
    preferences it appends. *)
Definition rule := (Z * list Reason * list string)%type.

(** A non-empty string is truthy. *)
Definition truthy (o : option string) : option string :=
  match o with
  | Some EmptyString | None => None
  | Some s => Some s
  end.

(** 1. [prioridad_scores.get(producto_guion.prioridad, 10)] *)
Definition prioridad_rule (pg : ProductoEnGuion) : rule :=
  let pts := if String.eqb (prioridad pg) "alta" then 25
             else if String.eqb (prioridad pg) "media" then 15
             else if String.eqb (prioridad pg) "baja" then 5
             else 10 in
  if String.eqb (prioridad pg) "alta"
  then (pts, [AltaPrioridad], ["producto_preferido"])
  else (pts, [], []).

(** 2. Price against [presupuesto_maximo]. *)
Definition presupuesto_rule (p : ProductStock) (prefs : PreferenciasUsuario) : rule :=
  match presupuesto_maximo prefs with
  | Some b =>
      if Qeq_bool b 0 then (15, [], [])
      else if Qle_bool (final_price p) b
           then (25, [DentroDePresupuesto (final_price p)], ["precio"])
      else if Qle_bool (final_price p) (b * (11 # 10))
           then (15, [PrecioLigeramenteSuperior], [])
      else (5, [PrecioSuperior], [])
  | None => (15, [], [])
  end.

(** 3. Discounts and promotions. *)
Definition promocion_rule (today : date) (p : ProductStock) : rule :=
  if is_on_sale p && has_active_promotion today p then
    (20,
     EnOferta (savings_amount p)
       :: match truthy (promotion_description p) with
          | Some d => [Promocion d]
          | None => []
          end,
     ["descuento"])
  else if is_on_sale p then (15, [DescuentoDisponible], [])
  else (0, [], []).

(** 4. Stock. *)
Definition stock_rule (p : ProductStock) : rule :=
  if 10 <? quantity_available p then (15, [], [])
  else if 5 <? quantity_available p then (10, [StockLimitado], [])
  else if 0 <? quantity_available p then (5, [SoloQuedan (quantity_available p)], [])
  else (-20, [SinStock], []).

Section Lowercase.
(** [str.lower] *)
Variable lower : string -> string.

(** 5. Intended use against the category. *)
Definition uso_rule (p : ProductStock) (prefs : PreferenciasUsuario) : rule :=
  match truthy (uso_previsto prefs), truthy (category p) with
  | Some uso, Some cat =>
      let uso_lower := lower uso in
      let categoria_lower := lower cat in
      if contains "correr" uso_lower || contains "maratón" uso_lower
         || contains "running" uso_lower then
        if contains "run" categoria_lower
        then (15, [IdealPara uso], ["uso_previsto"])
        else if contains "training" categoria_lower then (8, [], [])
        else (0, [], [])
      else if contains "gym" uso_lower || contains "gimnasio" uso_lower then
        if contains "train" categoria_lower || contains "gym" categoria_lower
        then (15, [PerfectoGimnasio], ["uso_previsto"])
        else (0, [], [])
      else if contains "casual" uso_lower || contains "caminar" uso_lower then
        if contains "life" categoria_lower || contains "casual" categoria_lower
        then (15, [UsoCasual], ["uso_previsto"])
        else (0, [], [])
      else (0, [], [])
  | _, _ => (0, [], [])
  end.

(** 6. Preferred color, looked up in the product name. *)
Definition color_rule (p : ProductStock) (prefs : PreferenciasUsuario) : rule :=
  match truthy (color_preferido prefs) with
  | Some color =>
      if contains (lower color) (lower (product_name p))
      then (5, [ColorPreferido color], ["color"])
      else (0, [], [])
  | None => (0, [], [])
  end.

(** 7. Preferred size. *)
Definition talla_rule (prefs : PreferenciasUsuario) : rule :=
  match truthy (talla_preferida prefs) with
  | Some _ => (5, [], [])
  | None => (0, [], [])
  end.

Definition rules (today : date) (p : ProductStock) (pg : ProductoEnGuion)
    (prefs : PreferenciasUsuario) : list rule :=
  [ prioridad_rule pg; presupuesto_rule p prefs; promocion_rule today p;
    stock_rule p; uso_rule p prefs; color_rule p prefs; talla_rule prefs ].

Definition points (r : rule) : Z := r.1.1.

(** [max(0.0, min(100.0, score))] *)
Definition clamp (score : Z) : Z := Z.max 0 (Z.min 100 score).

(** [_calculate_product_score].  The score is a float that only ever
    holds a sum of integers, so it is exact and [round(score, 1)]
    leaves it as it is. *)
Definition _calculate_product_score (today : date) (p : ProductStock)
    (pg : ProductoEnGuion) (prefs : PreferenciasUsuario) : ProductScore :=
  let rs := rules today p pg prefs in
  let score := fold_left (fun acc r => acc + points r) rs 0 in
  {| product := p;
     total_score := clamp score;
     reasons := concat (map (fun r => r.1.2) rs);
     matching_preferences := concat (map (fun r => r.2) rs) |}.

(** [{p.barcode: p for p in products if p.barcode}] *)
Definition products_by_barcode (products : list ProductStock)
  : gmap string ProductStock :=
  fold_left
    (fun m p => match truthy (barcode p) with
                | Some b => <[b := p]> m
                | None => m
                end)
    products ∅.

(** The loop [for producto_guion in guion.productos] that fills
    [scored_products]. *)
Definition scored_products (today : date) (products : list ProductStock)
    (guion : GuionEntrada) : list ProductScore :=
  let by_barcode := products_by_barcode products in
  omap (fun pg =>
          match by_barcode !! codigo_barras pg with
          | Some p => Some (_calculate_product_score today p pg (preferencias guion))
          | None => None
          end)
       (productos guion).

End Lowercase.

(** [scored_products.sort(key=lambda x: x.total_score, reverse=True)].
    [list.sort] is stable, also with [reverse=True]: elements with
    equal keys keep their order.  [insert_desc x l] puts [x] in front
    of the first element whose score is not above its own. *)
Fixpoint insert_desc (x : ProductScore) (l : list ProductScore) : list ProductScore :=
  match l with
  | [] => [x]
  | y :: l' =>
      if total_score y <=? total_score x then x :: y :: l'
      else y :: insert_desc x l'
  end.

Definition sort_desc (l : list ProductScore) : list ProductScore :=
  foldr insert_desc [] l.

(** [ProductRecommendationResult]: the ranked products (one
    [ProductComparisonSchema] per [ProductScore], in the same order),
    the best option and its matched preferences.  The [reasoning] text
    is rendered from [best] and the runner-up and is left out. *)
Record ProductRecommendationResult := {
  rr_products : list ProductScore;
  best_option_id : uuid;
  user_preferences_matched : list string
}.

Inductive ValueError :=
| NoHayProductos
| NingunProductoEncontrado.

(** [compare_and_recommend] *)
Definition compare_and_recommend (lower : string -> string) (today : date)
    (products : list ProductStock) (guion : GuionEntrada)
  : outcome ValueError ProductRecommendationResult :=
  match products with
  | [] => Raise NoHayProductos
  | _ =>
      match sort_desc (scored_products lower today products guion) with
      | [] => Raise NingunProductoEncontrado
      | best :: others =>
          Ret {| rr_products := best :: others;
                 best_option_id := ps_id (product best);
                 user_preferences_matched := matching_preferences best |}
      end
  end.

End Comparison.

(** ** [agents/orchestrator.py] *)

Module Orchestrator.
Import Py.

(** Python exceptions that can travel through [process_query]. *)
Inductive exn :=
| UnboundLocalError (variable : string)
| AttributeError (attribute : string)
| OtherError (msg : string).

(** [str(e)] *)
Definition exn_text (e : exn) : string :=
  match e with
  | UnboundLocalError v =>
      "cannot access local variable '" +:+ v
      +:+ "' where it is not associated with a value"
  | AttributeError a =>
      "'AgentOrchestrator' object has no attribute '" +:+ a +:+ "'"
  | OtherError msg => msg
  end.

(** [AgentState]: the fields the orchestrator reads or writes; the
    remaining fields travel with the state untouched. *)
Record AgentState := {
  user_query : string;
  user_style : option string;
  detected_intent : option string;
  search_results : option (list string);
  checkout_stage : option string;
  user_id : option string;
  session_id : option string;
  current_agent : option string
}.

(** [AgentState(user_query=query)] *)
Definition new_state (query : string) : AgentState :=
  {| user_query := query; user_style := Some "neutral";
     detected_intent := None; search_results := None;
     checkout_stage := None; user_id := None; session_id := None;
     current_agent := None |}.

Definition set_user_query (st : AgentState) (q : string) : AgentState :=
  {| user_query := q; user_style := user_style st;
     detected_intent := detected_intent st; search_results := search_results st;
     checkout_stage := checkout_stage st; user_id := user_id st;
     session_id := session_id st; current_agent := current_agent st |}.

Definition set_user_id (st : AgentState) (u : string) : AgentState :=
  {| user_query := user_query st; user_style := user_style st;
     detected_intent := detected_intent st; search_results := search_results st;
     checkout_stage := checkout_stage st; user_id := Some u;
     session_id := session_id st; current_agent := current_agent st |}.

Definition set_user_style (st : AgentState) (s : string) : AgentState :=
  {| user_query := user_query st; user_style := Some s;
     detected_intent := detected_intent st; search_results := search_results st;
     checkout_stage := checkout_stage st; user_id := user_id st;
     session_id := session_id st; current_agent := current_agent st |}.

Definition set_detected_intent (st : AgentState) (i : string) : AgentState :=
  {| user_query := user_query st; user_style := user_style st;
     detected_intent := Some i; search_results := search_results st;
     checkout_stage := checkout_stage st; user_id := user_id st;
     session_id := session_id st; current_agent := current_agent st |}.

(** [AgentResponse] *)
Record AgentResponse := {
  agent_name : string;
  message : string;
  state : AgentState;
  should_transfer : bool;
  transfer_to : option string;
  metadata : list (string * string)
}.

(** The [reasoning] of a classification: the keyword path renders
    "Keyword matches: <intent>=<score>", the LLM path passes its text. *)
Inductive Reasoning :=
| KeywordMatches (intent : string) (score : Z)
| LLMText (text : string).

(** [IntentClassification] *)
Record IntentClassification := {
  intent : string;
  confidence : Q;
  suggested_agent : string;
  reasoning : Reasoning
}.

(** [intent_to_agent] *)
Definition intent_to_agent (i : string) : string :=
  if String.eqb i "search" then "retriever"
  else if String.eqb i "persuasion" then "sales"
  else if String.eqb i "checkout" then "checkout"
  else "retriever".

Definition search_keywords : list string :=
  ["buscar"; "busco"; "mostrar"; "muéstrame"; "quiero ver"; "tienes"; "hay";
   "talla"; "color"; "marca"; "modelo"; "catálogo"].

Definition checkout_keywords : list string :=
  ["comprar"; "cómprame"; "dámelos"; "dámelo"; "envíame"; "envía"; "quiero";
   "lo quiero"; "los quiero"; "confirma"; "procede"].

Definition info_keywords : list string :=
  ["horario"; "hora"; "ubicación"; "dirección"; "garantía"; "devolución";
   "envío"; "delivery"; "pago"; "tarjeta"].

Definition persuasion_keywords : list string :=
  ["caro"; "precio"; "barato"; "descuento"; "oferta"; "recomienda"; "mejor";
   "diferencia"; "vale la pena"; "duda"; "por qué"].

(** [max(scores, key=scores.get)]: the first key, in the order the dict
    was written, whose value is the largest. *)
Fixpoint max_key (best : string * Z) (rest : list (string * Z)) : string * Z :=
  match rest with
  | [] => best
  | kv :: rest' => max_key (if best.2 <? kv.2 then kv else best) rest'
  end.

(** [state.search_results and len(state.search_results) > 0] *)
Definition has_search_results (st : AgentState) : bool :=
  match search_results st with
  | Some (_ :: _) => true
  | _ => false
  end.

Definition stop_patterns : list string :=
  ["mejor no"; "mejor no gracias"; "luego veo"; "después veo"; "chao";
   "adiós"; "adios"; "nos vemos"; "hasta luego"; "bye"; "gracias igual";
   "gracias igualmente"; "ya no"; "no importa"; "déjalo"; "dejalo";
   "olvídalo"; "olvidalo"; "no gracias"; "está muy caro gracias";
   "esta muy caro gracias"; "muy caro gracias"].

(** [farewell_messages.get(style, farewell_messages["neutral"])] *)
Definition farewell (style : string) : string :=
  if String.eqb style "cuencano"
  then "Entendido ve. Aquí estaré si cambias de opinión. ¡Buen día!"
  else if String.eqb style "juvenil"
  then "Ok bro, acá estoy por si cambias de idea. ¡Saludos!"
  else if String.eqb style "formal"
  then "Entendido. Quedo a su disposición. ¡Que tenga un buen día!"
  else "Entendido. Aquí estaré si cambias de opinión. ¡Buen día!".

(** The agents registered in [self.agents]. *)
Definition agents : list string := ["retriever"; "sales"].

Definition in_agents (name : string) : bool :=
  existsb (String.eqb name) agents.

(** What [agent.process(state)] does: it returns a response, or raises
    after having changed the state object it was given. *)
Inductive agent_result :=
| Done (r : AgentResponse)
| Failed (e : exn) (st : AgentState).

(** The local variables of the transfer loop.  [followed] is not in the
    source: it records the edges whose target agent was run. *)
Record loop_state := {
  response : AgentResponse;
  current_agent_name : string;
  transfer_count : Z;
  transfer_history : list string;
  followed : list (string * string)
}.

Definition max_transfers : Z := 3.

(** [f"{current_agent_name}->{response.transfer_to}"] *)
Definition transfer_key (from : string) (to : option string) : string :=
  from +:+ "->" +:+ match to with Some t => t | None => "None" end.

(** [transfer_history.count(transfer_key)] *)
Definition count_key (key : string) (history : list string) : Z :=
  Z.of_nat (length (filter (fun k => k = key) history)).

Definition with_state (r : AgentResponse) (st : AgentState) : AgentResponse :=
  {| agent_name := agent_name r; message := message r; state := st;
     should_transfer := should_transfer r; transfer_to := transfer_to r;
     metadata := metadata r |}.

Section Turn.
(** [str.lower], [str.strip] *)
Variables lower strip : string -> string.
(** [self.use_llm_detection] *)
Variable use_llm_detection : bool.
(** The parsed LLM reply [(intent, confidence, reasoning)] of
    [_classify_intent_llm], [None] on a timeout, a parse error or any
    other exception. *)
Variable llm_intent_reply : AgentState -> option (string * Q * string).
(** [_detect_user_style_llm] or [_detect_user_style_keywords], as
    configured: the detected style, or an exception. *)
Variable detect_user_style : AgentState -> outcome exn string.
(** [self.agents[name].process(state)] at the [n]-th agent call of the
    turn. *)
Variable agent_process : string -> nat -> AgentState -> agent_result.

(** [_detect_stop_intent] *)
Definition _detect_stop_intent (st : AgentState) : bool * string :=
  let query_lower := strip (lower (user_query st)) in
  if any_in stop_patterns query_lower
  then (true, farewell (default "neutral" (user_style st)))
  else (false, "").

(** [_classify_intent_keywords] *)
Definition _classify_intent_keywords (st : AgentState) : IntentClassification :=
  let query_lower := lower (user_query st) in
  let search_score := count_in search_keywords query_lower in
  let checkout_score := count_in checkout_keywords query_lower in
  let info_score := count_in info_keywords query_lower in
  let persuasion_score := count_in persuasion_keywords query_lower in
  let m := max_key ("search", search_score)
             [("checkout", checkout_score); ("info", info_score);
              ("persuasion", persuasion_score)] in
  let m :=
    if has_search_results st then
      if (0 <? checkout_score)
         || any_in ["sí"; "si"; "ok"; "dale"; "bueno"] query_lower
      then ("checkout", 3)
      else if (0 <? persuasion_score) || (m.2 =? 0)
      then ("persuasion", 2)
      else m
    else m in
  let m := if m.2 =? 0 then ("persuasion", 1) else m in
  let max_intent := m.1 in
  let max_score := m.2 in
  {| intent := max_intent;
     confidence := Qmin (inject_Z max_score / 3) 1;
     suggested_agent := intent_to_agent max_intent;
     reasoning := KeywordMatches max_intent max_score |}.

(** [_classify_intent_llm]: every exception falls back to the
    keyword path. *)
Definition _classify_intent_llm (st : AgentState) : IntentClassification :=
  match llm_intent_reply st with
  | Some (i, c, r) =>
      let i := if existsb (String.eqb i) ["search"; "persuasion"; "checkout"; "info"]
               then i else "persuasion" in
      {| intent := i; confidence := c;
         suggested_agent := intent_to_agent i; reasoning := LLMText r |}
  | None => _classify_intent_keywords st
  end.

(** One pass through the body of
    [while response.should_transfer and transfer_count < max_transfers];
    the boolean tells whether the loop goes on ([false] is [break]). *)
Definition transfer_step (ls : loop_state) : loop_state * bool :=
  let count := transfer_count ls + 1 in
  let from := current_agent_name ls in
  let key := transfer_key from (transfer_to (response ls)) in
  if 2 <=? count_key key (transfer_history ls) then
    ({| response := response ls; current_agent_name := from;
        transfer_count := count; transfer_history := transfer_history ls;
        followed := followed ls |}, false)
  else
    let history := transfer_history ls ++ [key] in
    match transfer_to (response ls) with
    | Some next =>
        if in_agents next then
          let edges := followed ls ++ [(from, next)] in
          match agent_process next (S (length (followed ls)))
                  (state (response ls)) with
          | Done r =>
              ({| response := r; current_agent_name := next;
                  transfer_count := count; transfer_history := history;
                  followed := edges |}, true)
          | Failed _ st' =>
              ({| response := with_state (response ls) st';
                  current_agent_name := next;
                  transfer_count := count; transfer_history := history;
                  followed := edges |}, false)
          end
        else
          ({| response := response ls; current_agent_name := from;
              transfer_count := count; transfer_history := history;
              followed := followed ls |}, false)
    | None =>
        ({| response := response ls; current_agent_name := from;
            transfer_count := count; transfer_history := history;
            followed := followed ls |}, false)
    end.

(** The [while] loop; [None] when [fuel] passes do not finish it. *)
Fixpoint transfer_loop (fuel : nat) (ls : loop_state) : option loop_state :=
  if should_transfer (response ls) && (transfer_count ls <? max_transfers) then
    match fuel with
    | O => None
    | S fuel' =>
        let (ls', continue) := transfer_step ls in
        if continue then transfer_loop fuel' ls' else Some ls'
    end
  else Some ls.

(** The state of the loop at its entry. *)
Definition loop_entry (r : AgentResponse) (name : string) : loop_state :=
  {| response := r; current_agent_name := name; transfer_count := 0;
     transfer_history := []; followed := [] |}.

(** [state = session_state or AgentState(user_query=query)], then
    [state.user_query = query] and [if user_id: state.user_id = user_id]. *)
Definition initial_state (query : string) (session_state : option AgentState)
    (uid : option string) : AgentState :=
  let st := default (new_state query) session_state in
  let st := set_user_query st query in
  match uid with
  | Some (String a u) => set_user_id st (String a u)
  | _ => st
  end.

(** [if not state.user_style or state.user_style == "neutral":] detect
    the style, falling back to neutral when the detector raises. *)
Definition with_detected_style (st : AgentState) : AgentState :=
  let undefined :=
    match user_style st with
    | Some style => String.eqb style "" || String.eqb style "neutral"
    | None => true
    end in
  if undefined then
    match detect_user_style st with
    | Ret s => set_user_style st s
    | Raise _ => set_user_style st "neutral"
    end
  else st.

(** The [try] block of [process_query], up to the first agent's
    response: the response and the name of the agent that gave it, or
    no name when the response is returned at once (stop intent).
    [current_agent_name] is assigned only when [checkout_stage] is
    [None]; reading it unassigned raises [UnboundLocalError].  The
    classifiers do not raise, so the [except] around them never runs. *)
Definition first_response (query : string) (session_state : option AgentState)
    (uid : option string)
  : outcome exn (AgentResponse * option string) :=
  let st := initial_state query session_state uid in
  let (stop_intent_detected, stop_message) := _detect_stop_intent st in
  if stop_intent_detected then
    Ret ({| agent_name := "orchestrator"; message := stop_message;
            state := st; should_transfer := false; transfer_to := None;
            metadata := [("stop_intent", "True")] |}, None)
  else
    let st := with_detected_style st in
    let (st, current) :=
      match checkout_stage st with
      | None =>
          let c := if use_llm_detection then _classify_intent_llm st
                   else _classify_intent_keywords st in
          (set_detected_intent st (intent c), Some (suggested_agent c))
      | Some _ => (st, None)
      end in
    let* name :=
      match current with
      | Some n => Ret n
      | None => Raise (UnboundLocalError "current_agent_name")
      end in
    let name := if in_agents name then name else "sales" in
    match agent_process name 0 st with
    | Done r => Ret (r, Some name)
    | Failed e st' =>
        Ret ({| agent_name := name;
                message := "Disculpa, tuve un problema técnico. ¿Puedes reformular tu pregunta?";
                state := st'; should_transfer := false; transfer_to := None;
                metadata := [("error", exn_text e)] |}, Some name)
    end.

(** The whole [try] block. *)
Definition process_query_try (fuel : nat) (query : string)
    (session_state : option AgentState) (uid : option string)
  : option (outcome exn AgentResponse) :=
  match first_response query session_state uid with
  | Raise e => Some (Raise e)
  | Ret (r, None) => Some (Ret r)
  | Ret (r, Some name) =>
      match transfer_loop fuel (loop_entry r name) with
      | Some ls => Some (Ret (response ls))
      | None => None
      end
  end.

(** The [except Exception as e] clause: its first statement evaluates
    [self.self], an attribute the orchestrator does not have. *)
Definition emergency (e : exn) (query : string)
    (session_state : option AgentState) : outcome exn AgentResponse :=
  let* _ := (Raise (AttributeError "self") : outcome exn unit) in
  let emergency_state := default (new_state query) session_state in
  let emergency_state := set_user_query emergency_state query in
  Ret {| agent_name := "orchestrator";
         message := "Disculpa, tuve un problema técnico. ¿Puedes intentar de nuevo con una pregunta diferente?";
         state := emergency_state; should_transfer := false;
         transfer_to := None;
         metadata := [("error", "orchestrator_failure");
                      ("error_message", exn_text e)] |}.

(** [AgentOrchestrator.process_query]; [None] only when [fuel] is too
    small for the transfer loop. *)
Definition process_query (fuel : nat) (query : string)
    (session_state : option AgentState) (uid : option string)
  : option (outcome exn AgentResponse) :=
  match process_query_try fuel query session_state uid with
  | Some (Raise e) => Some (emergency e query session_state)
  | r => r
  end.

End Turn.

End Orchestrator.

(** ** [api/graphql/mutations.py]: [continuar_conversacion] *)

Module Mutations.
Import Py Models OrderService.

(** The authenticated user of the request (the JWT payload). *)
Record Usuario := {
  usuario_id : string;
  username : string
}.

(** A product as stored in the session by [procesar_guion_agente2]. *)
Record ProductoSesion := {
  sp_id : option string;
  sp_product_name : option string;
  sp_final_price : option Q;
  sp_discount_percent : option Q
}.

(** The session dictionary under [guion_session:<session_id>].
    [current_index] is written as 0 by [procesar_guion_agente2] and
    only ever incremented here. *)
Record SessionData := {
  mejor_opcion_id : option string;
  sd_productos : option (list ProductoSesion);
  current_index : option nat;
  approved : bool;
  shipping_info : option (string * string * string);
  order_created : option (string * string)
}.

Definition set_approved (sd : SessionData) : SessionData :=
  {| mejor_opcion_id := mejor_opcion_id sd; sd_productos := sd_productos sd;
     current_index := current_index sd; approved := true;
     shipping_info := shipping_info sd; order_created := order_created sd |}.

Definition set_alternativa (sd : SessionData) (i : nat) (id : option string)
  : SessionData :=
  {| mejor_opcion_id := id; sd_productos := sd_productos sd;
     current_index := Some i; approved := approved sd;
     shipping_info := shipping_info sd; order_created := order_created sd |}.

Definition set_shipping_info (sd : SessionData) (info : string * string * string)
  : SessionData :=
  {| mejor_opcion_id := mejor_opcion_id sd; sd_productos := sd_productos sd;
     current_index := current_index sd; approved := approved sd;
     shipping_info := Some info; order_created := order_created sd |}.

Definition set_order_created (sd : SessionData) (id number : string)
  : SessionData :=
  {| mejor_opcion_id := mejor_opcion_id sd; sd_productos := sd_productos sd;
     current_index := current_index sd; approved := approved sd;
     shipping_info := shipping_info sd; order_created := Some (id, number) |}.

(** The reply texts, by template. *)
Inductive Mensaje :=
| DebesIniciarSesion
| SesionExpirada
| PedirTallaYDireccion
| Alternativa (nombre : string) (precio : Q) (en_oferta : bool)
| SinAlternativas
| ProductoNoSeleccionado
| ProductoNoEncontrado
| OrdenCreada (order_number nombre talla direccion : string)
    (total : option Q) (estado : OrderStatus)
| StockInsuficiente (e : OrderError)
| ProductoNoEncontradoAlCrear
| ProblemaAlCrearOrden (e : OrderError)
| ProblemaAlProcesarOrden
| ProblemaProcesandoRespuesta.

(** [ContinuarConversacionResponse] *)
Record ContinuarConversacionResponse := {
  success : bool;
  mensaje : Mensaje;
  r_mejor_opcion_id : option string;
  siguiente_paso : string;
  order_id : option uuid;
  order_number : option string;
  order_total : option Q;
  order_status : option OrderStatus;
  audio_url : option string
}.

Definition respuesta_simple (ok : bool) (m : Mensaje) (mejor : option string)
    (paso : string) (audio : option string) : ContinuarConversacionResponse :=
  {| success := ok; mensaje := m; r_mejor_opcion_id := mejor;
     siguiente_paso := paso; order_id := None; order_number := None;
     order_total := None; order_status := None; audio_url := audio |}.

(** What the request meets outside the function: the token, Redis, the
    text-to-speech service and the storage layer.  The chat-history
    writes sit in their own [try] blocks and touch neither the reply
    nor the orders; they are not modelled. *)
Record Entorno := {
  current_user : option Usuario;
  redis_get : outcome unit (option SessionData);
  redis_setex_ok : bool;
  tts_audio : option string;
  product_query_ok : bool;
  db_env : DbEnv
}.

(** The reply, the session written back to Redis (if any) and the
    persisted state after the request. *)
Record Resultado := {
  respuesta : ContinuarConversacionResponse;
  guardada : option SessionData;
  base : DB
}.

Definition palabras_aprobacion : list string :=
  ["si"; "sí"; "yes"; "ok"; "dale"; "va"; "claro"; "perfecto"; "bueno"].

Definition palabras_rechazo : list string :=
  ["no"; "nop"; "nope"; "nah"; "otra"; "diferente"; "siguiente"].

(** The three arms of [if es_aprobacion: ... elif es_rechazo: ... else: ...]. *)
Inductive Rama := Aprobacion | Rechazo | DatosEnvio.

Definition rama (respuesta_lower : string) : Rama :=
  let es_aprobacion := any_in palabras_aprobacion respuesta_lower in
  let es_rechazo := any_in palabras_rechazo respuesta_lower in
  if es_aprobacion then Aprobacion
  else if es_rechazo then Rechazo
  else DatosEnvio.

(** [re.search(r'\b(3[5-9]|4[0-9]|50)\b', text)] on ASCII text: a word
    character is a letter, a digit or the underscore. *)
Definition is_digit (a : ascii) : bool :=
  let n := N_of_ascii a in (48 <=? n)%N && (n <=? 57)%N.

Definition is_word (a : ascii) : bool :=
  let n := N_of_ascii a in
  is_digit a || ((65 <=? n)%N && (n <=? 90)%N)
  || ((97 <=? n)%N && (n <=? 122)%N) || (n =? 95)%N.

Definition talla_digits (a b : ascii) : bool :=
  let x := N_of_ascii a in
  let y := N_of_ascii b in
  ((x =? 51)%N && (53 <=? y)%N && (y <=? 57)%N)
  || ((x =? 52)%N && is_digit b)
  || ((x =? 53)%N && (y =? 48)%N).

Fixpoint search_talla_from (prev_is_word : bool) (s : string) : option string :=
  match s with
  | String a s1 =>
      match s1 with
      | String b rest =>
          let boundary_after :=
            match rest with
            | EmptyString => true
            | String c _ => negb (is_word c)
            end in
          if negb prev_is_word && talla_digits a b && boundary_after
          then Some (String a (String b EmptyString))
          else search_talla_from (is_word a) s1
      | EmptyString => None
      end
  | EmptyString => None
  end.

Definition ascii_search_talla (s : string) : option string :=
  search_talla_from false s.

(** [UUID(text)] on a text in canonical form, 8-4-4-4-12 hexadecimal
    digits; any other text is refused ([ValueError]). *)
Definition is_hex (a : ascii) : bool :=
  let n := N_of_ascii a in
  is_digit a || ((65 <=? n)%N && (n <=? 70)%N) || ((97 <=? n)%N && (n <=? 102)%N).

Fixpoint canonical_from (i : nat) (s : string) : bool :=
  match s with
  | EmptyString => Nat.eqb i 36
  | String a s' =>
      (if existsb (Nat.eqb i) [8; 13; 18; 23]%nat
       then Ascii.eqb a "-" else is_hex a)
      && canonical_from (S i) s'
  end.

Definition canonical_uuid (s : string) : option uuid :=
  if canonical_from 0 s then Some (ascii_lower s) else None.

Section ContinuarConversacion.
(** [str.lower], [str.strip] *)
Variables lower strip : string -> string.
(** Group 1 of [re.search(r'\b(3[5-9]|4[0-9]|50)\b', text)] *)
Variable search_talla : string -> option string.
(** [UUID(text)], [None] when it raises [ValueError] *)
Variable UUID : string -> option uuid.

Definition audio (env : Entorno) : option string := tts_audio env.

(** [if es_aprobacion:]; [Raise] when [setex] fails. *)
Definition rama_aprobacion (env : Entorno) (sd : SessionData) (db : DB)
  : outcome unit Resultado :=
  let sd := set_approved sd in
  if redis_setex_ok env then
    Ret {| respuesta :=
             respuesta_simple true PedirTallaYDireccion (mejor_opcion_id sd)
               "solicitar_datos_envio" (audio env);
           guardada := Some sd; base := db |}
  else Raise tt.

(** [elif es_rechazo:] *)
Definition rama_rechazo (env : Entorno) (sd : SessionData) (db : DB)
  : outcome unit Resultado :=
  let productos := default [] (sd_productos sd) in
  let producto_actual_index := default 0%nat (current_index sd) in
  match productos !! (producto_actual_index + 1)%nat with
  | Some siguiente_producto =>
      let sd := set_alternativa sd (producto_actual_index + 1)
                  (sp_id siguiente_producto) in
      if redis_setex_ok env then
        let precio := default 0%Q (sp_final_price siguiente_producto) in
        let nombre := default "producto" (sp_product_name siguiente_producto) in
        let en_oferta :=
          match sp_discount_percent siguiente_producto with
          | Some d => negb (Qeq_bool d 0)
          | None => false
          end in
        Ret {| respuesta :=
                 respuesta_simple true (Alternativa nombre precio en_oferta)
                   (sp_id siguiente_producto) "confirmar_compra" (audio env);
               guardada := Some sd; base := db |}
      else Raise tt
  | None =>
      Ret {| respuesta :=
               respuesta_simple true SinAlternativas None
                 "nueva_conversacion" (audio env);
             guardada := None; base := db |}
  end.

Definition fallo (m : Mensaje) (paso : string) (db : DB) : Resultado :=
  {| respuesta := respuesta_simple false m None paso None;
     guardada := None; base := db |}.

(** The [OrderCreate] built from the reply; [None] when [UUID] or the
    schema validation raises. *)
Definition order_data_de (user : Usuario) (mejor : string)
    (direccion talla session_id : string) : option OrderCreate :=
  match UUID (usuario_id user), UUID mejor with
  | Some uid, Some pid =>
      let data :=
        {| oc_user_id := uid;
           oc_details := [ {| product_id := pid; odc_quantity := 1 |} ];
           oc_shipping_address := direccion;
           oc_notes := Some ("Talla solicitada: " +:+ talla);
           oc_session_id := Some session_id |} in
      if valid_order_create data then Some data else None
  | _, _ => None
  end.

(** [else:] shipping data, where the order is created. *)
Definition rama_envio (env : Entorno) (user : Usuario) (session_id : string)
    (respuesta_usuario : string) (sd : SessionData) (db : DB) : Resultado :=
  let respuesta_texto := strip respuesta_usuario in
  let talla := default "Sin especificar" (search_talla respuesta_texto) in
  let direccion := respuesta_texto in
  let sd := set_shipping_info sd (talla, direccion, respuesta_usuario) in
  match mejor_opcion_id sd with
  | None | Some EmptyString => fallo ProductoNoSeleccionado "nueva_conversacion" db
  | Some mejor =>
      if negb (product_query_ok env)
      then fallo ProblemaAlProcesarOrden "reintentar" db
      else
      match UUID mejor with
      | None => fallo ProblemaAlProcesarOrden "reintentar" db
      | Some pid =>
      match product_stocks db !! pid with
      | None => fallo ProductoNoEncontrado "nueva_conversacion" db
      | Some product_obj =>
      match order_data_de user mejor direccion talla session_id with
      | None => fallo ProblemaAlProcesarOrden "reintentar" db
      | Some order_data =>
      match create_order (db_env env) order_data db with
      | (Ret (order, _), db') =>
          let id_text := default "None" (o_id order) in
          let number := "ORD-" +:+ ascii_upper (substring 0 8 id_text) in
          let sd := set_order_created sd id_text number in
          if redis_setex_ok env then
            {| respuesta :=
                 {| success := true;
                    mensaje := OrdenCreada number (product_name product_obj)
                                 talla direccion (total_amount order)
                                 (status order);
                    r_mejor_opcion_id := Some pid;
                    siguiente_paso := "orden_completada";
                    order_id := o_id order;
                    order_number := Some number;
                    order_total := total_amount order;
                    order_status := Some (status order);
                    audio_url := audio env |};
               guardada := Some sd; base := db' |}
          else fallo ProblemaAlProcesarOrden "reintentar" db'
      | (Raise (InsufficientStockError n a q), db') =>
          fallo (StockInsuficiente (InsufficientStockError n a q))
            "nueva_conversacion" db'
      | (Raise (ProductNotFoundError _), db') =>
          fallo ProductoNoEncontradoAlCrear "nueva_conversacion" db'
      | (Raise (OrderServiceError msg), db') =>
          fallo (ProblemaAlCrearOrden (OrderServiceError msg)) "reintentar" db'
      end end end end
  end.

(** [continuar_conversacion] *)
Definition continuar_conversacion (env : Entorno) (session_id : string)
    (respuesta_usuario : string) (db : DB) : Resultado :=
  match current_user env with
  | None =>
      {| respuesta := respuesta_simple false DebesIniciarSesion None "login" None;
         guardada := None; base := db |}
  | Some user =>
      let intento :=
        let* session_json := redis_get env in
        match session_json with
        | None => Ret (fallo SesionExpirada "nueva_conversacion" db)
        | Some session_data =>
            let respuesta_lower := strip (lower respuesta_usuario) in
            match rama respuesta_lower with
            | Aprobacion => rama_aprobacion env session_data db
            | Rechazo => rama_rechazo env session_data db
            | DatosEnvio =>
                Ret (rama_envio env user session_id respuesta_usuario
                       session_data db)
            end
        end in
      match intento with
      | Ret r => r
      | Raise _ => fallo ProblemaProcesandoRespuesta "reintentar" db
      end
  end.

End ContinuarConversacion.

End Mutations.

(** The sum [sum(line.quantity * line.unit_price for line in O)] of the
    order invariant. *)
Module OrderSpec.
Import Models OrderService.

(** A requested line whose product is active and short of stock. *)
Definition short_line (tbl : gmap uuid ProductStock) (item : OrderDetailCreate) : Prop :=
  exists p, select_active tbl (product_id item) = Some p
            /\ quantity_available p < odc_quantity item.

(** Every requested quantity is at least 1, as the schema demands. *)
Definition quantities_valid (items : list OrderDetailCreate) : Prop :=
  Forall (fun it => 1 <= odc_quantity it) items.


End OrderSpec.

(** The order of the ranked list: scores do not increase, and the
    candidates of one score, taken in the order of the list. *)
Module RankingSpec.
Import Comparison.

Definition score_ge (a b : ProductScore) : Prop :=
  total_score b <= total_score a.

Definition with_score (s : Z) (l : list ProductScore) : list ProductScore :=
  filter (fun x => total_score x = s) l.

End RankingSpec.

(** What the transfer loop keeps true, in terms of its local variables. *)
Module TransferSpec.
Import Orchestrator.

Definition count_edge (e : string * string) (l : list (string * string)) : nat :=
  length (filter (fun x => x = e) l).

(** The key under which an edge is entered in [transfer_history]. *)
Definition edge_key (e : string * string) : string :=
  transfer_key e.1 (Some e.2).

Record loop_inv (ls : loop_state) : Prop := {
  inv_count : 0 <= transfer_count ls <= max_transfers;
  inv_history : Z.of_nat (length (transfer_history ls)) <= transfer_count ls;
  inv_followed : Z.of_nat (length (followed ls)) <= transfer_count ls;
  inv_keys : forall k, count_key k (transfer_history ls) <= 2;
  inv_edges : forall e, Z.of_nat (count_edge e (followed ls))
                        <= count_key (edge_key e) (transfer_history ls)
}.

End TransferSpec.

(** ** Sample data *)

Module Samples.
Import Py Models OrderService.

Definition producto (id name : string) (code : option string) (cat : option string)
    (qty : Z) (cost : Q) (sale : bool) (pct : option Q) (until : option date)
  : ProductStock :=
  {| ps_id := id; product_name := name; product_sku := None;
     barcode := code; category := cat; brand := None;
     quantity_available := qty; unit_cost := cost;
     discount_percent := pct; ps_discount_amount := None;
     promotion_description := None; promotion_valid_until := until;
     is_on_sale := sale; is_active := true |}.

Definition id_a : uuid := "0000000a-0000-0000-0000-000000000000".
Definition id_b : uuid := "0000000b-0000-0000-0000-000000000000".
Definition id_missing : uuid := "000000ff-0000-0000-0000-000000000000".
Definition id_user : uuid := "00000001-0000-0000-0000-000000000000".
Definition id_order : uuid := "0000c0de-0000-0000-0000-000000000000".

Definition nike_a : ProductStock :=
  producto id_a "Nike Air Zoom" (Some "7501234567890") (Some "running")
    1 (120 # 1) false None None.
Definition adidas_b : ProductStock :=
  producto id_b "Adidas Ultraboost" (Some "8806098934474") (Some "running")
    8 (100 # 1) false None None.

Definition tienda : DB :=
  {| product_stocks := <[id_a := nike_a]> (<[id_b := adidas_b]> ∅);
     orders := [] |}.

Definition pedido (lines : list OrderDetailCreate) : OrderCreate :=
  {| oc_user_id := id_user; oc_details := lines;
     oc_shipping_address := "Av Loja 456 Cuenca";
     oc_notes := None; oc_session_id := None |}.

Definition linea (pid : uuid) (q : Z) : OrderDetailCreate :=
  {| product_id := pid; odc_quantity := q |}.

(** Script-continuation samples: a logged-in user, a session that offers
    [adidas_b], a session that offers a product out of stock. *)
Definition id_c : uuid := "0000000c-0000-0000-0000-000000000000".

Definition agotado : ProductStock :=
  producto id_c "Puma Velocity" (Some "4065449000000") (Some "running")
    0 (90 # 1) false None None.

Definition tienda_agotada : DB :=
  {| product_stocks := <[id_c := agotado]> (product_stocks tienda);
     orders := [] |}.

Definition cliente : Mutations.Usuario :=
  {| Mutations.usuario_id := id_user; Mutations.username := "ana" |}.

Definition sesion (mejor : uuid) : Mutations.SessionData :=
  {| Mutations.mejor_opcion_id := Some mejor;
     Mutations.sd_productos := Some [];
     Mutations.current_index := Some 0%nat;
     Mutations.approved := false;
     Mutations.shipping_info := None;
     Mutations.order_created := None |}.

Definition entorno (mejor : uuid) : Mutations.Entorno :=
  {| Mutations.current_user := Some cliente;
     Mutations.redis_get := Py.Ret (Some (sesion mejor));
     Mutations.redis_setex_ok := true;
     Mutations.tts_audio := None;
     Mutations.product_query_ok := true;
     Mutations.db_env := healthy id_order |}.

Definition continuar (mejor : uuid) (texto : string) (db : DB) : Mutations.Resultado :=
  Mutations.continuar_conversacion Py.ascii_lower Py.ascii_strip
    Mutations.ascii_search_talla Mutations.canonical_uuid
    (entorno mejor) "s-1" texto db.

(** The order request built from the reply "cuanto cuesta el flete". *)
Definition pedido_flete : OrderCreate :=
  {| oc_user_id := id_user;
     oc_details := [linea id_b 1];
     oc_shipping_address := "cuanto cuesta el flete";
     oc_notes := Some "Talla solicitada: Sin especificar";
     oc_session_id := Some "s-1" |}.

(** The order request built from the reply "Av Loja 456 Cuenca talla 42"
    for the product out of stock. *)
Definition pedido_agotado : OrderCreate :=
  {| oc_user_id := id_user;
     oc_details := [linea id_c 1];
     oc_shipping_address := "Av Loja 456 Cuenca talla 42";
     oc_notes := Some "Talla solicitada: 42";
     oc_session_id := Some "s-1" |}.

(** Orchestrator samples: a session in the middle of a checkout, and
    agents that always hand over to each other. *)
Definition en_checkout : Orchestrator.AgentState :=
  {| Orchestrator.user_query := ""; Orchestrator.user_style := Some "formal";
     Orchestrator.detected_intent := Some "checkout";
     Orchestrator.search_results := None;
     Orchestrator.checkout_stage := Some "confirm";
     Orchestrator.user_id := None; Orchestrator.session_id := Some "s-1";
     Orchestrator.current_agent := Some "sales" |}.

Definition ping_pong (name : string) (n : nat) (st : Orchestrator.AgentState)
  : Orchestrator.agent_result :=
  Orchestrator.Done
    {| Orchestrator.agent_name := name; Orchestrator.message := "";
       Orchestrator.state := st; Orchestrator.should_transfer := true;
       Orchestrator.transfer_to :=
         Some (if String.eqb name "sales" then "retriever" else "sales");
       Orchestrator.metadata := [] |}.

Definition sin_llm (st : Orchestrator.AgentState) : option (string * Q * string) :=
  None.

Definition estilo_neutral (st : Orchestrator.AgentState)
  : Py.outcome Orchestrator.exn string :=
  Py.Ret "neutral".

(** Comparator samples: two candidates that differ in name and price
    only, and a product on sale whose promotion has no end date. *)
Definition hoy : date := 739000.

Definition zeta : ProductStock :=
  producto id_a "Zeta Runner" (Some "7501234567890") (Some "running")
    20 (120 # 1) false None None.
Definition alfa : ProductStock :=
  producto id_b "Alfa Runner" (Some "8806098934474") (Some "running")
    20 (100 # 1) false None None.

Definition oferta_sin_fecha : ProductStock :=
  producto id_a "Nike Pegasus" (Some "7501234567890") (Some "running")
    20 (120 # 1) true (Some (15 # 1)) None.

Definition en_guion (code name : string) : Comparison.ProductoEnGuion :=
  {| Comparison.codigo_barras := code; Comparison.nombre_detectado := name;
     Comparison.prioridad := "media" |}.

Definition sin_preferencias : Comparison.PreferenciasUsuario :=
  {| Comparison.uso_previsto := None; Comparison.talla_preferida := None;
     Comparison.color_preferido := None; Comparison.presupuesto_maximo := None |}.

Definition guion_zeta_alfa : Comparison.GuionEntrada :=
  {| Comparison.productos :=
       [en_guion "7501234567890" "Zeta Runner"; en_guion "8806098934474" "Alfa Runner"];
     Comparison.preferencias := sin_preferencias |}.

End Samples.

(** ** [database/models/order.py], [order_detail.py]: status graph and
    computed properties *)

Module OrderLifecycle.
Import Py Models.

(** The constants of [OrderStatus]. *)
Definition status_name (s : OrderStatus) : string :=
  match s with
  | DRAFT => "DRAFT" | CONFIRMED => "CONFIRMED" | PAID => "PAID"
  | PROCESSING => "PROCESSING" | SHIPPED => "SHIPPED"
  | DELIVERED => "DELIVERED" | CANCELLED => "CANCELLED"
  | REFUNDED => "REFUNDED"
  end.

(** The dictionary [valid_transitions] of [Order.can_transition_to]. *)
Definition valid_transitions (s : OrderStatus) : list OrderStatus :=
  match s with
  | DRAFT => [CONFIRMED; CANCELLED]
  | CONFIRMED => [PAID; CANCELLED]
  | PAID => [PROCESSING; REFUNDED]
  | PROCESSING => [SHIPPED; CANCELLED]
  | SHIPPED => [DELIVERED]
  | DELIVERED => [REFUNDED]
  | CANCELLED => []
  | REFUNDED => []
  end.

(** [Order.can_transition_to]: [new_status] is any string. *)
Definition can_transition_to (o : Order) (new_status : string) : bool :=
  existsb (fun t => String.eqb new_status (status_name t))
    (valid_transitions (status o)).

(** [Order.is_editable] *)
Definition is_editable (o : Order) : bool :=
  match status o with
  | DRAFT | CONFIRMED => true
  | _ => false
  end.

(** [Order.is_finalized] *)
Definition is_finalized (o : Order) : bool :=
  match status o with
  | DELIVERED | CANCELLED | REFUNDED => true
  | _ => false
  end.

(** [Order.item_count] *)
Definition item_count (o : Order) : Z :=
  match details o with
  | [] => 0
  | ds => fold_left (fun acc d => acc + quantity d) ds 0
  end.

(** [OrderDetail.total_without_discount] *)
Definition total_without_discount (d : OrderDetail) : Q :=
  (unit_price d * inject_Z (quantity d))%Q.

(** The two messages of [OrderDetail.validate_quantity]; the empty
    message of a valid quantity is [None]. *)
Inductive QuantityError :=
| CantidadNoPositiva
| StockInsuficienteLinea (solicitado disponible : Z).

(** [OrderDetail.validate_quantity] *)
Definition validate_quantity (d : OrderDetail) (available_stock : Z)
  : bool * option QuantityError :=
  if quantity d <=? 0 then (false, Some CantidadNoPositiva)
  else if available_stock <? quantity d
  then (false, Some (StockInsuficienteLinea (quantity d) available_stock))
  else (true, None).

Definition set_status (o : Order) (s : OrderStatus) : Order :=
  {| o_id := o_id o; user_id := user_id o; status := s;
     payment_status := payment_status o; subtotal := subtotal o;
     tax_amount := tax_amount o; shipping_cost := shipping_cost o;
     discount_amount := discount_amount o; total_amount := total_amount o;
     shipping_address := shipping_address o; notes := notes o;
     session_id := session_id o; internal_notes := internal_notes o;
     details := details o |}.

End OrderLifecycle.

(** ** [services/order_service.py]: [cancel_order], [get_order_by_id] *)

Module OrderCancel.
Import Py Models OrderService OrderLifecycle.

(** The behaviour of the storage layer during one cancellation. *)
Record CancelEnv := {
  cancel_begin_fault : option DbFault;
  get_order_fault : option DbFault;
  get_product_fault : nat -> option DbFault;
  cancel_commit_fault : option DbFault
}.

Definition storage_call (f : option DbFault) : outcome DbFault unit :=
  match f with
  | Some e => Raise e
  | None => Ret tt
  end.

(** [session.get(Order, order_id)]: the row with that primary key. *)
Fixpoint get_order (order_id : uuid) (os : list Order) : option Order :=
  match os with
  | [] => None
  | o :: rest =>
      if bool_decide (o_id o = Some order_id) then Some o
      else get_order order_id rest
  end.

(** Writing back the changed row with that primary key. *)
Fixpoint put_order (order_id : uuid) (o' : Order) (os : list Order) : list Order :=
  match os with
  | [] => []
  | o :: rest =>
      if bool_decide (o_id o = Some order_id) then o' :: rest
      else o :: put_order order_id o' rest
  end.

(** The loop [for detail in order.details] that gives the stock back;
    [i] numbers the [session.get(ProductStock, ...)] calls. *)
Fixpoint restore (env : CancelEnv) (i : nat) (ds : list OrderDetail)
    (tbl : gmap uuid ProductStock) : outcome DbFault (gmap uuid ProductStock) :=
  match ds with
  | [] => Ret tbl
  | detail :: rest =>
      let* _ := storage_call (get_product_fault env i) in
      let tbl :=
        match tbl !! od_product_id detail with
        | Some product =>
            <[od_product_id detail :=
                set_quantity_available product
                  (quantity_available product + quantity detail)]> tbl
        | None => tbl
        end in
      restore env (S i) rest tbl
  end.

Definition newline : string := String (ascii_of_N 10) EmptyString.

(** The order once cancelled: status, payment status and, when a reason
    is given, the note appended to [internal_notes]. *)
Definition cancelled (o : Order) (reason : option string) : Order :=
  let notes' :=
    match reason with
    | Some (String a r) =>
        Some (match internal_notes o with
              | Some n => n
              | None => ""
              end +:+ newline +:+ "[CANCELLED]: " +:+ String a r)
    | _ => internal_notes o
    end in
  {| o_id := o_id o; user_id := user_id o; status := CANCELLED;
     payment_status := "REFUNDED"; subtotal := subtotal o;
     tax_amount := tax_amount o; shipping_cost := shipping_cost o;
     discount_amount := discount_amount o; total_amount := total_amount o;
     shipping_address := shipping_address o; notes := notes o;
     session_id := session_id o; internal_notes := notes';
     details := details o |}.

(** The block [async with session.begin(): ...] of [cancel_order]: the
    answer and the state to commit. *)
Definition cancel_transaction (env : CancelEnv) (order_id : uuid)
    (reason : option string) (db : DB) : outcome DbFault ((bool * string) * DB) :=
  let* _ := storage_call (cancel_begin_fault env) in
  let* _ := storage_call (get_order_fault env) in
  match get_order order_id (orders db) with
  | None =>
      let* _ := storage_call (cancel_commit_fault env) in
      Ret ((false, "Pedido no encontrado"), db)
  | Some order =>
      match status order with
      | DELIVERED | CANCELLED =>
          let* _ := storage_call (cancel_commit_fault env) in
          Ret ((false, "No se puede cancelar un pedido "
                       +:+ status_name (status order)), db)
      | _ =>
          let* tbl := restore env 0 (details order) (product_stocks db) in
          let order' := cancelled order reason in
          let* _ := storage_call (cancel_commit_fault env) in
          Ret ((true, "Pedido cancelado exitosamente"),
               {| product_stocks := tbl;
                  orders := put_order order_id order' (orders db) |})
      end
  end.

(** [OrderService.cancel_order]: every exception is answered
    [(False, "Error cancelando el pedido")] and rolls back. *)
Definition cancel_order (env : CancelEnv) (order_id : uuid)
    (reason : option string) (db : DB) : (bool * string) * DB :=
  match cancel_transaction env order_id reason db with
  | Ret r => r
  | Raise _ => ((false, "Error cancelando el pedido"), db)
  end.

(** [OrderService.get_order_by_id]: [None] also when the query raises. *)
Definition get_order_by_id (fault : option DbFault) (order_id : uuid) (db : DB)
  : option Order :=
  match fault with
  | Some _ => None
  | None => get_order order_id (orders db)
  end.

Definition cancel_healthy : CancelEnv :=
  {| cancel_begin_fault := None; get_order_fault := None;
     get_product_fault := fun _ => None; cancel_commit_fault := None |}.

End OrderCancel.

(** ** [api/graphql/mutations.py]: [create_order], [cancel_order] *)

Module OrderMutations.
Import Py Models OrderService OrderCancel Mutations.

(** [OrderDetailInput], [CreateOrderInput] *)
Record OrderDetailInput := {
  di_product_id : uuid;
  di_quantity : Z
}.

Record CreateOrderInput := {
  in_details : list OrderDetailInput;
  in_shipping_address : string;
  in_notes : option string;
  in_session_id : option string
}.

(** The [message] of a [CreateOrderResponse]. *)
Inductive ResponseMessage :=
| DebesIniciarSesionParaPedido
| NoAutenticado
| DelServicio (m : OrderMessage)
| DelError (e : OrderError)
| DeCancelacion (text : string)
| ErrorInterno.

(** [CreateOrderResponse] *)
Record CreateOrderResponse := {
  cr_success : bool;
  cr_order : option Order;
  cr_message : ResponseMessage;
  cr_error : option string
}.

Definition rechazada (m : ResponseMessage) (code : string) : CreateOrderResponse :=
  {| cr_success := false; cr_order := None; cr_message := m;
     cr_error := Some code |}.

Inductive ValueError := BadlyFormedUUID.

Section Resolvers.
(** [UUID(text)], [None] when it raises [ValueError] *)
Variable UUID : string -> option uuid.

(** The mutation [create_order].  [UUID(current_user["id"])] is evaluated
    before the [try] block. *)
Definition create_order_mutation (user : option Usuario) (env : DbEnv)
    (input : CreateOrderInput) (db : DB)
  : outcome ValueError CreateOrderResponse * DB :=
  match user with
  | None => (Ret (rechazada DebesIniciarSesionParaPedido "unauthorized"), db)
  | Some current_user =>
      match UUID (usuario_id current_user) with
      | None => (Raise BadlyFormedUUID, db)
      | Some uid =>
          let order_data :=
            {| oc_user_id := uid;
               oc_details :=
                 map (fun d => {| product_id := di_product_id d;
                                  odc_quantity := di_quantity d |})
                     (in_details input);
               oc_shipping_address := in_shipping_address input;
               oc_notes := in_notes input;
               oc_session_id := in_session_id input |} in
          if negb (valid_order_create order_data)
          then (Ret (rechazada ErrorInterno "internal_error"), db)
          else
            match create_order env order_data db with
            | (Ret (order, message), db') =>
                (Ret {| cr_success := true; cr_order := Some order;
                        cr_message := DelServicio message; cr_error := None |},
                 db')
            | (Raise (ProductNotFoundError pid), db') =>
                (Ret (rechazada (DelError (ProductNotFoundError pid))
                        "product_not_found"), db')
            | (Raise (InsufficientStockError n a q), db') =>
                (Ret (rechazada (DelError (InsufficientStockError n a q))
                        "insufficient_stock"), db')
            | (Raise (OrderServiceError msg), db') =>
                (Ret (rechazada (DelError (OrderServiceError msg))
                        "order_error"), db')
            end
      end
  end.

End Resolvers.

(** The mutation [cancel_order]; [get_fault] is what the query of
    [get_order_by_id] meets. *)
Definition cancel_order_mutation (user : option Usuario) (env : CancelEnv)
    (get_fault : option DbFault) (order_id : uuid) (reason : option string)
    (db : DB) : CreateOrderResponse * DB :=
  match user with
  | None => (rechazada NoAutenticado "unauthorized", db)
  | Some _ =>
      let '((success, message), db') := cancel_order env order_id reason db in
      if success then
        match get_order_by_id get_fault order_id db' with
        | Some order =>
            ({| cr_success := true; cr_order := Some order;
                cr_message := DeCancelacion message; cr_error := None |}, db')
        | None => (rechazada (DeCancelacion message) "cancel_failed", db')
        end
      else (rechazada (DeCancelacion message) "cancel_failed", db')
  end.

End OrderMutations.

(** ** [database/controllers/orders_controller.py]: status changes *)

Module OrderController.
Import Py Models OrderService OrderLifecycle OrderCancel.

(** What the session of the controller meets: the query of [get_by_id]
    and [session.flush()] may raise.  The controller catches nothing: an
    exception leaves the method. *)
Record ControllerEnv := {
  ctl_execute_fault : option DbFault;
  ctl_flush_fault : option DbFault
}.

(** The answers, by template. *)
Inductive Message :=
| PedidoNoEncontrado
| TransicionInvalida (actual : OrderStatus) (new_status : string)
| EstadoCambiado (new_status : string)
| SoloBorrador
| PedidoEliminado.

(** [get_by_id] *)
Definition get_by_id (env : ControllerEnv) (order_id : uuid) (db : DB)
  : outcome DbFault (option Order) :=
  let* _ := storage_call (ctl_execute_fault env) in
  Ret (get_order order_id (orders db)).

(** The status a string names; [order.status = new_status] stores the
    string, which names a status once [can_transition_to] has let it
    through. *)
Definition status_of_name (s : string) : option OrderStatus :=
  find (fun t => String.eqb s (status_name t))
    [DRAFT; CONFIRMED; PAID; PROCESSING; SHIPPED; DELIVERED; CANCELLED; REFUNDED].

Definition set_internal_notes (o : Order) (n : option string) : Order :=
  {| o_id := o_id o; user_id := user_id o; status := status o;
     payment_status := payment_status o; subtotal := subtotal o;
     tax_amount := tax_amount o; shipping_cost := shipping_cost o;
     discount_amount := discount_amount o; total_amount := total_amount o;
     shipping_address := shipping_address o; notes := notes o;
     session_id := session_id o; internal_notes := n;
     details := details o |}.

(** [session.delete(order)] *)
Fixpoint delete_row (order_id : uuid) (os : list Order) : list Order :=
  match os with
  | [] => []
  | o :: rest =>
      if bool_decide (o_id o = Some order_id) then rest
      else o :: delete_row order_id rest
  end.

Section Controller.
(** [str.strip] *)
Variable strip : string -> string.
(** [datetime.now().strftime("%Y-%m-%d %H:%M:%S")] *)
Variable timestamp : string.

(** [change_status] *)
Definition change_status (env : ControllerEnv) (order_id : uuid)
    (new_status : string) (internal_notes : option string) (db : DB)
  : outcome DbFault ((bool * Message) * DB) :=
  let* found := get_by_id env order_id db in
  match found with
  | None => Ret ((false, PedidoNoEncontrado), db)
  | Some order =>
      if negb (can_transition_to order new_status)
      then Ret ((false, TransicionInvalida (status order) new_status), db)
      else
        let changed :=
          set_status order (default (status order) (status_of_name new_status)) in
        let changed :=
          match internal_notes with
          | Some (String a n) =>
              let current_notes := default "" (Models.internal_notes changed) in
              set_internal_notes changed
                (Some (strip (current_notes +:+ newline +:+ "[" +:+ timestamp
                              +:+ "] " +:+ new_status +:+ ": " +:+ String a n)))
          | _ => changed
          end in
        let* _ := storage_call (ctl_flush_fault env) in
        Ret ((true, EstadoCambiado new_status),
             {| product_stocks := product_stocks db;
                orders := put_order order_id changed (orders db) |})
  end.

(** [OrderController.cancel_order] *)
Definition cancel_order (env : ControllerEnv) (order_id : uuid)
    (reason : option string) (db : DB)
  : outcome DbFault ((bool * Message) * DB) :=
  change_status env order_id (status_name CANCELLED)
    (Some (match reason with
           | Some (String a r) => "Cancelado. Razón: " +:+ String a r
           | _ => "Cancelado"
           end))
    db.

(** [delete_order] *)
Definition delete_order (env : ControllerEnv) (order_id : uuid) (db : DB)
  : outcome DbFault ((bool * Message) * DB) :=
  let* found := get_by_id env order_id db in
  match found with
  | None => Ret ((false, PedidoNoEncontrado), db)
  | Some order =>
      match status order with
      | DRAFT =>
          let* _ := storage_call (ctl_flush_fault env) in
          Ret ((true, PedidoEliminado),
               {| product_stocks := product_stocks db;
                  orders := delete_row order_id (orders db) |})
      | _ => Ret ((false, SoloBorrador), db)
      end
  end.

End Controller.

Definition ctl_healthy : ControllerEnv :=
  {| ctl_execute_fault := None; ctl_flush_fault := None |}.

End OrderController.

(** ** [api/graphql/mutations.py]: the session [procesar_guion_agente2] stores *)

Module GuionSession.
Import Py Models Comparison Mutations.

(** One entry of [session_data['productos']].  The price is written
    with [float(...)]; it is kept exact here. *)
Definition producto_de_sesion (p : ProductScore) : ProductoSesion :=
  {| sp_id := Some (ps_id (product p));
     sp_product_name := Some (product_name (product p));
     sp_final_price := Some (final_price (product p));
     sp_discount_percent :=
       match discount_percent (product p) with
       | Some d => if Qeq_bool d 0 then None else Some d
       | None => None
       end |}.

(** The dictionary written under [guion_session:<session_id>] once the
    recommendation is there. *)
Definition guion_session (recommendation : ProductRecommendationResult)
  : SessionData :=
  {| mejor_opcion_id := Some (best_option_id recommendation);
     sd_productos := Some (map producto_de_sesion (rr_products recommendation));
     current_index := Some 0%nat;
     approved := false;
     shipping_info := None;
     order_created := None |}.

End GuionSession.

(** What the added properties speak of. *)
Module ExtraSpec.
Import Py Models OrderService OrderLifecycle Mutations.


(** Every row of the table sits under its own id. *)
Definition well_keyed (tbl : gmap uuid ProductStock) : Prop :=
  forall k p, tbl !! k = Some p -> ps_id p = k.

(** The units the lines of a request ask of product [k]. *)
Definition requested (k : uuid) (items : list OrderDetailCreate) : Z :=
  fold_right
    (fun it acc => (if bool_decide (product_id it = k) then odc_quantity it else 0) + acc)
    0 items.

(** The units the lines of an order hold of product [k]. *)
Definition returned (k : uuid) (ds : list OrderDetail) : Z :=
  fold_right
    (fun d acc => (if bool_decide (od_product_id d = k) then quantity d else 0) + acc)
    0 ds.

(** The storage layer raises nothing during a cancellation. *)
Definition cancel_no_fault (env : OrderCancel.CancelEnv) : Prop :=
  OrderCancel.cancel_begin_fault env = None
  /\ OrderCancel.get_order_fault env = None
  /\ (forall i, OrderCancel.get_product_fault env i = None)
  /\ OrderCancel.cancel_commit_fault env = None.

(** The place of a status on the way from draft to the end states. *)
Definition rank (s : OrderStatus) : Z :=
  match s with
  | DRAFT => 0 | CONFIRMED => 1 | PAID => 2 | PROCESSING => 3
  | SHIPPED => 4 | DELIVERED => 5 | CANCELLED => 6 | REFUNDED => 6
  end.

(** A history of statuses in which every change is a permitted one. *)
Fixpoint valid_history (o : Order) (l : list OrderStatus) : Prop :=
  match l with
  | [] => True
  | s :: rest =>
      can_transition_to o (status_name s) = true
      /\ valid_history (set_status o s) rest
  end.

(** [^ORD-[0-9A-F]{8}$] *)
Definition is_upper_hex (a : ascii) : bool :=
  let n := N_of_ascii a in
  ((48 <=? n)%N && (n <=? 57)%N) || ((65 <=? n)%N && (n <=? 70)%N).

Definition order_number_ok (s : string) : bool :=
  match s with
  | String o (String r (String d (String h
      (String a1 (String a2 (String a3 (String a4
      (String a5 (String a6 (String a7 (String a8 EmptyString))))))))))) =>
      String.eqb (String o (String r (String d (String h EmptyString)))) "ORD-"
      && forallb is_upper_hex [a1; a2; a3; a4; a5; a6; a7; a8]
  | _ => false
  end.

(** The product the session names is the one at [current_index] of its
    list. *)
Definition session_consistent (sd : SessionData) : Prop :=
  exists p,
    default [] (sd_productos sd) !! default 0%nat (current_index sd) = Some p
    /\ mejor_opcion_id sd = sp_id p.

(** The [error] code the mutation [create_order] gives each exception
    of the service. *)
Definition error_code (e : OrderError) : string :=
  match e with
  | ProductNotFoundError _ => "product_not_found"
  | InsufficientStockError _ _ _ => "insufficient_stock"
  | OrderServiceError _ => "order_error"
  end.

(** How many of a run of [change_status] requests on one order went
    through, and the state after them; [None] when one of them raised. *)
Fixpoint changes (strip : string -> string) (timestamp : string)
    (env : OrderController.ControllerEnv) (order_id : uuid)
    (requests : list (string * option string)) (db : DB) : option (nat * DB) :=
  match requests with
  | [] => Some (0%nat, db)
  | (new_status, internal_notes) :: rest =>
      match OrderController.change_status strip timestamp env order_id
              new_status internal_notes db with
      | Ret ((ok, _), db1) =>
          match changes strip timestamp env order_id rest db1 with
          | Some (k, db2) => Some (((if ok then 1 else 0) + k)%nat, db2)
          | None => None
          end
      | Raise _ => None
      end
  end.

(** The number a two-digit text stands for. *)
Definition two_digit_value (t : string) : option Z :=
  match t with
  | String a (String b EmptyString) =>
      if is_digit a && is_digit b
      then Some (10 * (Z.of_N (N_of_ascii a) - 48) + (Z.of_N (N_of_ascii b) - 48))
      else None
  | _ => None
  end.

End ExtraSpec.

(** ** More sample data *)

Module ExtraSamples.
Import Py Models OrderService OrderLifecycle OrderCancel Samples.

Definition rebajado : ProductStock :=
  {| ps_id := id_c; product_name := "Puma Velocity"; product_sku := None;
     barcode := None; category := None; brand := None;
     quantity_available := 4; unit_cost := 100 # 1;
     discount_percent := Some (15 # 1); ps_discount_amount := Some (5 # 1);
     promotion_description := None; promotion_valid_until := Some 739010;
     is_on_sale := true; is_active := true |}.

Definition orden_en (s : OrderStatus) : Order :=
  {| o_id := Some id_order; user_id := id_user; status := s;
     payment_status := "PENDING"; subtotal := None; tax_amount := None;
     shipping_cost := None; discount_amount := None; total_amount := None;
     shipping_address := "Av Loja 456 Cuenca"; notes := None;
     session_id := None; internal_notes := None; details := [] |}.

(** A session that offers [adidas_b] first and [nike_a] next. *)
Definition sesion_dos : Mutations.SessionData :=
  {| Mutations.mejor_opcion_id := Some id_b;
     Mutations.sd_productos :=
       Some [ {| Mutations.sp_id := Some id_b;
                 Mutations.sp_product_name := Some "Adidas Ultraboost";
                 Mutations.sp_final_price := Some (100 # 1);
                 Mutations.sp_discount_percent := None |};
              {| Mutations.sp_id := Some id_a;
                 Mutations.sp_product_name := Some "Nike Air Zoom";
                 Mutations.sp_final_price := Some (120 # 1);
                 Mutations.sp_discount_percent := None |} ];
     Mutations.current_index := Some 0%nat;
     Mutations.approved := false;
     Mutations.shipping_info := None;
     Mutations.order_created := None |}.

Definition entorno_de (sd : Mutations.SessionData) (setex_ok : bool)
  : Mutations.Entorno :=
  {| Mutations.current_user := Some cliente;
     Mutations.redis_get := Py.Ret (Some sd);
     Mutations.redis_setex_ok := setex_ok;
     Mutations.tts_audio := None;
     Mutations.product_query_ok := true;
     Mutations.db_env := healthy id_order |}.

Definition continuar_en (env : Mutations.Entorno) (texto : string) (db : DB)
  : Mutations.Resultado :=
  Mutations.continuar_conversacion Py.ascii_lower Py.ascii_strip
    Mutations.ascii_search_talla Mutations.canonical_uuid env "s-1" texto db.

(** A user who placed none of the sample orders. *)
Definition otro_usuario : Mutations.Usuario :=
  {| Mutations.usuario_id := "00000002-0000-0000-0000-000000000000";
     Mutations.username := "luis" |}.

Definition entrada (lines : list OrderMutations.OrderDetailInput)
    (address : string) : OrderMutations.CreateOrderInput :=
  {| OrderMutations.in_details := lines;
     OrderMutations.in_shipping_address := address;
     OrderMutations.in_notes := None;
     OrderMutations.in_session_id := None |}.

End ExtraSamples.

(** ** Proof steps used more than once *)

(** Case analysis on membership in a list written out. *)
Ltac each_member H :=
  repeat (apply elem_of_cons in H as [->|H]);
  try (apply elem_of_nil in H; contradiction).

(** Membership in a list written out. *)
Ltac in_written_list := apply list_elem_of_In; simpl; tauto.

(** * Verified properties *)

(** ** Orders: stock reservation and totals *)

Section OrderFacts.
Import Py Models OrderService OrderSpec.

Lemma select_active_insert_eq (tbl : gmap uuid ProductStock) pid p q :
  select_active tbl pid = Some p ->
  select_active (<[pid := set_quantity_available p q]> tbl) pid
  = Some (set_quantity_available p q).
Proof.
  unfold select_active. intros H. rewrite lookup_insert_eq. simpl.
  destruct (tbl !! pid) as [p0|]; [|discriminate].
  destruct (is_active p0) eqn:Ha; [|discriminate].
  injection H as ->. by rewrite Ha.
Qed.

Lemma select_active_insert_ne (tbl : gmap uuid ProductStock) pid pid' p :
  pid <> pid' ->
  select_active (<[pid := p]> tbl) pid' = select_active tbl pid'.
Proof. intros Hne. unfold select_active. by rewrite lookup_insert_ne. Qed.

Lemma short_line_after_reserve tbl item product it :
  select_active tbl (product_id item) = Some product ->
  1 <= odc_quantity item ->
  short_line tbl it ->
  short_line
    (<[product_id item :=
         set_quantity_available product
           (quantity_available product - odc_quantity item)]> tbl) it.
Proof.
  intros Hsel Hq [p [Hp Hlt]].
  destruct (decide (product_id item = product_id it)) as [Heq|Hne].
  - unfold short_line. rewrite <- Heq in *.
    rewrite Hsel in Hp. injection Hp as <-.
    eexists. split; [by apply select_active_insert_eq|]. simpl. lia.
  - exists p. split; [|done]. by rewrite select_active_insert_ne.
Qed.

Lemma reserve_short_fails env items :
  forall i tbl acc,
    quantities_valid items ->
    (exists it, it ∈ items /\ short_line tbl it) ->
    exists r, reserve env i items tbl acc = Raise r.
Proof.
  induction items as [|item rest IH]; intros i tbl acc Hval [it [Hin Hshort]].
  - by apply elem_of_nil in Hin.
  - simpl. destruct (execute_fault env i); simpl; [eauto|].
    destruct (select_active tbl (product_id item)) as [product|] eqn:Hsel; [|eauto].
    destruct (quantity_available product <? odc_quantity item) eqn:Hlt; [eauto|].
    apply Z.ltb_ge in Hlt.
    apply Forall_cons in Hval as [Hq Hval].
    apply IH; [done|].
    apply elem_of_cons in Hin as [->|Hin].
    + destruct Hshort as [p [Hp Hp']]. rewrite Hsel in Hp. injection Hp as <-. lia.
    + exists it. split; [done|]. by apply short_line_after_reserve.
Qed.

Lemma reserve_raise_kind env items :
  forall i tbl acc r,
    (forall j, execute_fault env j = None) ->
    (forall it, it ∈ items -> is_Some (select_active tbl (product_id it))) ->
    reserve env i items tbl acc = Raise r ->
    exists n a q, r = RInsufficient n a q.
Proof.
  induction items as [|item rest IH]; intros i tbl acc r Hf Hall; simpl.
  - discriminate.
  - rewrite Hf. simpl.
    destruct (Hall item) as [product Hsel]; [apply elem_of_cons; by left|].
    rewrite Hsel.
    destruct (quantity_available product <? odc_quantity item).
    + intros [= <-]. eauto.
    + apply IH; [done|]. intros it Hit.
      destruct (decide (product_id item = product_id it)) as [Heq|Hne].
      * rewrite <- Heq. erewrite select_active_insert_eq; eauto.
      * rewrite select_active_insert_ne; [|done]. apply Hall, elem_of_cons. by right.
Qed.

Lemma reserve_details_no_discount env items :
  forall i tbl acc tbl' ds,
    Forall (fun d => od_discount_amount d = None) acc ->
    reserve env i items tbl acc = Ret (tbl', ds) ->
    Forall (fun d => od_discount_amount d = None) ds.
Proof.
  induction items as [|item rest IH]; intros i tbl acc tbl' ds Hacc; simpl.
  - by intros [= _ <-].
  - destruct (execute_fault env i); simpl; [discriminate|].
    destruct (select_active tbl (product_id item)) as [product|]; [|discriminate].
    destruct (quantity_available product <? odc_quantity item); [discriminate|].
    apply IH. apply Forall_app. split; [done|]. by repeat constructor.
Qed.

(** An exception inside the transaction leaves the persisted state as it
    was. *)
Lemma create_order_rollback env order_data db e :
  (create_order env order_data db).1 = Raise e ->
  (create_order env order_data db).2 = db.
Proof.
  unfold create_order.
  destruct (transaction env order_data (product_stocks db)) as [[tbl o]|r]; simpl;
    [discriminate|done].
Qed.

End OrderFacts.

Section OrderTheorems.
Import Py Models OrderService OrderSpec Samples.



(** C1 (as amended).  For a well-formed request (every quantity at
    least 1): if some line's product is active with fewer units than
    requested, the call fails; when moreover every line's product is
    found active and the storage layer raises nothing, the failure is
    InsufficientStock.  Whenever the call fails, for any reason, the
    persisted state (every quantity_available, the orders) is exactly
    what it was before the call. *)
Theorem create_order_all_or_nothing env order_data db :
  (quantities_valid (oc_details order_data) ->
   (exists it, it ∈ oc_details order_data /\ short_line (product_stocks db) it) ->
   (exists e, (create_order env order_data db).1 = Raise e)
   /\ (no_fault env ->
       (forall it, it ∈ oc_details order_data ->
                   is_Some (select_active (product_stocks db) (product_id it))) ->
       exists n a q,
         (create_order env order_data db).1 = Raise (InsufficientStockError n a q)))
  /\ (forall e, (create_order env order_data db).1 = Raise e ->
                (create_order env order_data db).2 = db).
Proof.
  split.
  - intros Hval Hshort.
    destruct (reserve_short_fails env (oc_details order_data) 0
                (product_stocks db) [] Hval Hshort) as [r Hr].
    split.
    + unfold create_order, transaction.
      destruct (begin_fault env); simpl; [eauto|]. rewrite Hr. simpl. eauto.
    + intros (Hb & He & _) Hall.
      destruct (reserve_raise_kind env _ _ _ _ _ He Hall Hr) as (n & a & q & ->).
      exists n, a, q. unfold create_order, transaction.
      rewrite Hb. simpl. by rewrite Hr.
  - intros e. apply create_order_rollback.
Qed.


Lemma create_order_all_or_nothing_witness :
  (exists n a q,
      (create_order (healthy id_order) (pedido [linea id_a 5]) tienda).1
      = Raise (InsufficientStockError n a q))
  /\ (create_order (healthy id_order) (pedido [linea id_a 5]) tienda).2 = tienda.
Proof.
  destruct (create_order_all_or_nothing (healthy id_order)
              (pedido [linea id_a 5]) tienda) as [Hfail Hsame].
  assert (Hval : quantities_valid (oc_details (pedido [linea id_a 5]))).
  { repeat constructor. simpl. lia. }
  assert (Hshort : exists it, it ∈ oc_details (pedido [linea id_a 5])
                              /\ short_line (product_stocks tienda) it).
  { exists (linea id_a 5). split; [by constructor|].
    exists nike_a. split; [reflexivity|]. simpl. lia. }
  destruct (Hfail Hval Hshort) as [[e He] Hkind]. split.
  - apply Hkind.
    + unfold no_fault, healthy. simpl. auto.
    + intros it Hit. apply list_elem_of_singleton in Hit as ->.
      exists nike_a. reflexivity.
  - exact (Hsame e He).
Defined.

(** C1 as stated does not hold: a request whose second line is short of
    stock fails with ProductNotFound when its first line names a missing
    product. *)
Lemma create_order_short_line_raises_not_found :
  quantities_valid [linea id_missing 1; linea id_a 5]
  /\ (exists it, it ∈ [linea id_missing 1; linea id_a 5]
                 /\ short_line (product_stocks tienda) it)
  /\ (create_order (healthy id_order)
        (pedido [linea id_missing 1; linea id_a 5]) tienda).1
     = Raise (ProductNotFoundError id_missing).
Proof.
  split; [repeat constructor; simpl; lia|]. split.
  - exists (linea id_a 5). split; [apply elem_of_cons; right; by constructor|].
    exists nike_a. split; [reflexivity|]. simpl. lia.
  - reflexivity.
Qed.


End OrderTheorems.


(** ** Comparator: the promotion rule and the ranking *)

Section ComparatorTheorems.
Import Py Models Comparison RankingSpec Samples.

(** C5 (as amended).  The promotion rule adds exactly 20 points when the
    product is on sale and its promotion has no end date or an end date
    not before today, exactly 15 when it is on sale with an end date
    already past, and 0 when it is not on sale; the product's score is
    the sum of the seven rules' points, clamped to 0..100. *)
Theorem promocion_rule_points lower today p pg prefs :
  points (promocion_rule today p)
  = (if is_on_sale p then
       match promotion_valid_until p with
       | Some d => if today <=? d then 20 else 15
       | None => 20
       end
     else 0)
  /\ total_score (_calculate_product_score lower today p pg prefs)
     = clamp (points (prioridad_rule pg) + points (presupuesto_rule p prefs)
              + points (promocion_rule today p) + points (stock_rule p)
              + points (uso_rule lower p prefs) + points (color_rule lower p prefs)
              + points (talla_rule prefs)).
Proof.
  split; [|reflexivity].
  unfold promocion_rule, has_active_promotion.
  destruct (is_on_sale p); simpl; [|reflexivity].
  destruct (promotion_valid_until p) as [d|]; [|reflexivity].
  destruct (today <=? d); reflexivity.
Qed.

(** C5 as stated does not hold: a product on sale whose promotion has no
    valid-until date gets 20 points from the promotion rule, not 15. *)
Lemma promocion_sin_fecha_20 :
  is_on_sale oferta_sin_fecha = true
  /\ promotion_valid_until oferta_sin_fecha = None
  /\ points (promocion_rule hoy oferta_sin_fecha) = 20.
Proof. repeat split. Qed.

Lemma insert_desc_perm x l : insert_desc x l ≡ₚ x :: l.
Proof.
  induction l as [|y l IH]; simpl; [done|].
  destruct (total_score y <=? total_score x); [done|].
  rewrite IH. apply Permutation_swap.
Qed.

Lemma insert_desc_Forall (P : ProductScore -> Prop) x l :
  P x -> Forall P l -> Forall P (insert_desc x l).
Proof.
  intros Hx Hl. rewrite insert_desc_perm. by constructor.
Qed.

Lemma insert_desc_sorted x l :
  StronglySorted score_ge l -> StronglySorted score_ge (insert_desc x l).
Proof.
  induction 1 as [|y l Hs IH Hy]; simpl; [repeat constructor|].
  destruct (total_score y <=? total_score x) eqn:Hle.
  - apply Z.leb_le in Hle. constructor; [by constructor|].
    constructor; [exact Hle|].
    eapply Forall_impl; [exact Hy|]. unfold score_ge. simpl. intros z Hz. lia.
  - apply Z.leb_gt in Hle. constructor; [exact IH|].
    apply insert_desc_Forall; [unfold score_ge; lia|exact Hy].
Qed.

Lemma sort_desc_sorted l : StronglySorted score_ge (sort_desc l).
Proof.
  induction l as [|x l IH]; simpl; [constructor|]. by apply insert_desc_sorted.
Qed.

Lemma sort_desc_perm l : sort_desc l ≡ₚ l.
Proof.
  induction l as [|x l IH]; simpl; [done|].
  rewrite insert_desc_perm. by rewrite IH.
Qed.

Lemma insert_desc_stable s x l :
  with_score s (insert_desc x l) = with_score s (x :: l).
Proof.
  unfold with_score. induction l as [|y l IH]; simpl; [done|].
  destruct (total_score y <=? total_score x) eqn:Hle; [done|].
  apply Z.leb_gt in Hle.
  rewrite (filter_cons _ y), IH, !filter_cons.
  destruct (decide (total_score x = s)), (decide (total_score y = s)); try done; lia.
Qed.

Lemma sort_desc_stable s l : with_score s (sort_desc l) = with_score s l.
Proof.
  induction l as [|x l IH]; simpl; [done|].
  rewrite insert_desc_stable. unfold with_score in *.
  rewrite !filter_cons, IH. done.
Qed.

(** C6 (as amended).  The ranked list is sorted by recommendation score,
    highest first, and candidates with equal scores keep the order in
    which the script lists them: the sort key is the score alone, there
    is no tie-break on price or name.  The best option is the head of the
    list. *)
Theorem ranking_sorted_by_score_stable lower today products guion r :
  compare_and_recommend lower today products guion = Ret r ->
  StronglySorted score_ge (rr_products r)
  /\ rr_products r ≡ₚ scored_products lower today products guion
  /\ (forall s, with_score s (rr_products r)
                = with_score s (scored_products lower today products guion))
  /\ exists best others,
      rr_products r = best :: others /\ best_option_id r = ps_id (product best).
Proof.
  unfold compare_and_recommend. destruct products as [|p0 ps]; [discriminate|].
  destruct (sort_desc (scored_products lower today (p0 :: ps) guion))
    as [|best others] eqn:Hs; [discriminate|].
  intros [= <-]. simpl. rewrite <- Hs.
  split; [apply sort_desc_sorted|]. split; [apply sort_desc_perm|].
  split; [intros s; apply sort_desc_stable|].
  exists best, others. by rewrite Hs.
Qed.

Lemma ranking_zeta_alfa :
  exists r, compare_and_recommend ascii_lower hoy [zeta; alfa] guion_zeta_alfa = Ret r
            /\ map (fun x => (product_name (product x), total_score x)) (rr_products r)
               = [("Zeta Runner", 45); ("Alfa Runner", 45)].
Proof. eexists. split; reflexivity. Qed.

Lemma ranking_sorted_by_score_stable_witness :
  exists r, compare_and_recommend ascii_lower hoy [zeta; alfa] guion_zeta_alfa = Ret r
            /\ StronglySorted score_ge (rr_products r)
            /\ forall s, with_score s (rr_products r)
                         = with_score s (scored_products ascii_lower hoy
                                           [zeta; alfa] guion_zeta_alfa).
Proof.
  destruct ranking_zeta_alfa as [r [Hr _]]. exists r. split; [exact Hr|].
  destruct (ranking_sorted_by_score_stable _ _ _ _ _ Hr) as (Hs & _ & Hst & _).
  split; [exact Hs|exact Hst].
Defined.

(** C6 as stated does not hold: of two candidates with the same score the
    dearer one, listed first in the script, stays first; its name is also
    the later one in alphabetical order. *)
Lemma ranking_tie_keeps_script_order :
  exists r a b,
    compare_and_recommend ascii_lower hoy [zeta; alfa] guion_zeta_alfa = Ret r
    /\ rr_products r = [a; b]
    /\ total_score a = total_score b
    /\ (final_price (product b) < final_price (product a))%Q
    /\ product_name (product a) = "Zeta Runner"
    /\ product_name (product b) = "Alfa Runner".
Proof.
  eexists _, _, _. split; [reflexivity|]. split; [reflexivity|].
  split; [reflexivity|]. split; [reflexivity|]. split; reflexivity.
Qed.

End ComparatorTheorems.


(** ** Orchestrator: the transfer loop, the emergency handler, the keyword classifier *)

Section OrchestratorTheorems.
Import Py Orchestrator TransferSpec Samples.

Lemma count_key_app k h key :
  count_key k (h ++ [key])
  = count_key k h + (if decide (key = k) then 1 else 0).
Proof.
  unfold count_key. rewrite filter_app, length_app, filter_cons, filter_nil.
  destruct (decide (key = k)); simpl; lia.
Qed.

Lemma count_edge_app e l x :
  count_edge e (l ++ [x])
  = (count_edge e l + (if decide (x = e) then 1 else 0))%nat.
Proof.
  unfold count_edge. rewrite filter_app, length_app, filter_cons, filter_nil.
  destruct (decide (x = e)); simpl; lia.
Qed.

Lemma count_key_nonneg k h : 0 <= count_key k h.
Proof. unfold count_key. lia. Qed.

Lemma loop_entry_inv r name : loop_inv (loop_entry r name).
Proof.
  split; simpl; try (unfold max_transfers; lia);
    intros; unfold count_key, count_edge; simpl; lia.
Qed.

Lemma history_append_keys h key :
  (forall k, count_key k h <= 2) ->
  (2 <=? count_key key h) = false ->
  forall k, count_key k (h ++ [key]) <= 2.
Proof.
  intros Hk Hlt k. apply Z.leb_gt in Hlt. rewrite count_key_app.
  destruct (decide (key = k)) as [<-|]; [lia|]. specialize (Hk k). lia.
Qed.

Lemma history_append_edges h key l :
  (forall e, Z.of_nat (count_edge e l) <= count_key (edge_key e) h) ->
  forall e, Z.of_nat (count_edge e l) <= count_key (edge_key e) (h ++ [key]).
Proof.
  intros He e. rewrite count_key_app. specialize (He e).
  destruct (decide (key = edge_key e)); lia.
Qed.

Lemma followed_append_edges h l from next :
  (forall e, Z.of_nat (count_edge e l) <= count_key (edge_key e) h) ->
  forall e, Z.of_nat (count_edge e (l ++ [(from, next)]))
            <= count_key (edge_key e) (h ++ [transfer_key from (Some next)]).
Proof.
  intros He e. rewrite count_key_app, count_edge_app. specialize (He e).
  destruct (decide ((from, next) = e)) as [<-|].
  - unfold edge_key in *. simpl in *. rewrite decide_True by done. lia.
  - destruct (decide (transfer_key from (Some next) = edge_key e)); lia.
Qed.

(** One pass of the loop body keeps the invariant and counts one more
    transfer. *)
Lemma transfer_step_inv agent_process ls :
  loop_inv ls -> transfer_count ls < max_transfers ->
  loop_inv (transfer_step agent_process ls).1
  /\ transfer_count (transfer_step agent_process ls).1 = transfer_count ls + 1.
Proof.
  intros [Hc Hh Hf Hk He] Hlt. unfold transfer_step.
  destruct (2 <=? count_key _ (transfer_history ls)) eqn:Hloop; simpl.
  { split; [|done]. split; simpl; try lia; done. }
  pose proof (history_append_keys _ _ Hk Hloop) as Hk'.
  destruct (transfer_to (response ls)) as [next|] eqn:Hto; simpl.
  - destruct (in_agents next); simpl.
    + destruct (agent_process next _ _); simpl; (split; [|done]);
        split; simpl; rewrite ?length_app; simpl; try lia; try done;
        by apply followed_append_edges.
    + split; [|done]. split; simpl; rewrite ?length_app; simpl; try lia; try done.
      by apply history_append_edges.
  - split; [|done]. split; simpl; rewrite ?length_app; simpl; try lia; try done.
    by apply history_append_edges.
Qed.

Lemma transfer_loop_inv agent_process fuel :
  forall ls,
    loop_inv ls ->
    (Z.to_nat (max_transfers - transfer_count ls) <= fuel)%nat ->
    exists ls', transfer_loop agent_process fuel ls = Some ls' /\ loop_inv ls'.
Proof.
  induction fuel as [|fuel IH]; intros ls Hinv Hfuel; simpl.
  - destruct (should_transfer (response ls) && (transfer_count ls <? max_transfers))
      eqn:Hg; [|eauto].
    apply andb_true_iff in Hg as [_ Hlt]. apply Z.ltb_lt in Hlt. lia.
  - destruct (should_transfer (response ls) && (transfer_count ls <? max_transfers))
      eqn:Hg; [|eauto].
    apply andb_true_iff in Hg as [_ Hlt]. apply Z.ltb_lt in Hlt.
    destruct (transfer_step_inv agent_process ls Hinv Hlt) as [Hinv' Hcount].
    destruct (transfer_step agent_process ls) as [ls' continue]. simpl in *.
    destruct continue; [|eauto]. apply IH; [done|]. lia.
Qed.

(** C4.  Whatever the agents answer, the transfer loop of a turn ends;
    when it ends at most 3 transfers were counted and performed, no
    transfer key appears in the history more than twice and no
    from->to edge was followed more than twice; and process_query itself
    produces its result. *)
Theorem transfer_loop_terminates_bounded
    lower strip use_llm_detection llm_intent_reply detect_user_style
    agent_process fuel r name query session_state uid :
  (3 <= fuel)%nat ->
  (exists ls, transfer_loop agent_process fuel (loop_entry r name) = Some ls
              /\ transfer_count ls <= 3
              /\ (length (followed ls) <= 3)%nat
              /\ (forall k, count_key k (transfer_history ls) <= 2)
              /\ (forall e, (count_edge e (followed ls) <= 2)%nat))
  /\ is_Some (process_query lower strip use_llm_detection llm_intent_reply
                detect_user_style agent_process fuel query session_state uid).
Proof.
  intros Hfuel.
  assert (Hloop : forall r name, exists ls,
             transfer_loop agent_process fuel (loop_entry r name) = Some ls
             /\ loop_inv ls).
  { intros r0 n0. apply transfer_loop_inv; [apply loop_entry_inv|].
    simpl. unfold max_transfers. lia. }
  split.
  - destruct (Hloop r name) as [ls [Hls [Hc Hh Hf Hk He]]].
    exists ls. unfold max_transfers in Hc.
    split; [done|]. split; [lia|]. split; [lia|]. split; [done|].
    intros e. specialize (He e). specialize (Hk (edge_key e)). lia.
  - unfold process_query, process_query_try.
    destruct (first_response _ _ _ _ _ _ _ _ _) as [[r0 [n0|]]|e]; simpl; [|done|done].
    destruct (Hloop r0 n0) as [ls [-> _]]. done.
Qed.

Lemma transfer_loop_terminates_bounded_witness :
  exists ls,
    transfer_loop ping_pong 3
      (loop_entry (match ping_pong "sales" 0 en_checkout with
                   | Done r => r
                   | Failed _ _ => {| agent_name := ""; message := "";
                                      state := en_checkout;
                                      should_transfer := false;
                                      transfer_to := None; metadata := [] |}
                   end) "sales") = Some ls
    /\ transfer_count ls <= 3
    /\ (forall e, (count_edge e (followed ls) <= 2)%nat).
Proof.
  destruct (transfer_loop_terminates_bounded ascii_lower ascii_strip false sin_llm
              estilo_neutral ping_pong 3
              (match ping_pong "sales" 0 en_checkout with
               | Done r => r
               | Failed _ _ => {| agent_name := ""; message := "";
                                  state := en_checkout;
                                  should_transfer := false;
                                  transfer_to := None; metadata := [] |}
               end) "sales" "hola" None None (Nat.le_refl 3))
    as [[ls (Hls & Hc & _ & _ & He)] _].
  exists ls. split; [exact Hls|]. split; [exact Hc|exact He].
Defined.

(** Spec scenario 6: sales and retriever hand the turn to each other for
    ever; the loop stops after three transfers. *)
Example ping_pong_three_transfers :
  (fun o => match o with
            | Some ls => Some (transfer_count ls, transfer_history ls)
            | None => None
            end)
    (transfer_loop ping_pong 3
       (loop_entry (match ping_pong "sales" 0 en_checkout with
                    | Done r => r
                    | Failed _ _ => {| agent_name := ""; message := "";
                                       state := en_checkout;
                                       should_transfer := false;
                                       transfer_to := None; metadata := [] |}
                    end) "sales"))
  = Some (3, ["sales->retriever"; "retriever->sales"; "sales->retriever"]).
Proof. reflexivity. Qed.

Lemma max_key_four s c i p :
  max_key ("search", s) [("checkout", c); ("info", i); ("persuasion", p)]
  = let m := Z.max (Z.max s c) (Z.max i p) in
    (if s =? m then "search"
     else if c =? m then "checkout"
     else if i =? m then "info"
     else "persuasion", m).
Proof.
  cbv zeta. unfold max_key. cbn [snd].
  destruct (Z.ltb_spec s c); cbn [snd];
    match goal with |- context [?a <? i] => destruct (Z.ltb_spec a i) end; cbn [snd];
    match goal with |- context [?a <? p] => destruct (Z.ltb_spec a p) end; cbn [snd];
    repeat match goal with
           | |- context [?a =? ?b] => destruct (Z.eqb_spec a b)
           end; try (f_equal; lia); try lia.
Qed.

(** C7 (as amended).  With no prior search results the keyword classifier
    returns the label with the highest keyword count, and among labels
    tied for the highest non-zero count the first one in the order
    search, checkout, info, persuasion; an utterance that matches no
    keyword of any label gives persuasion with confidence 1/3. *)
Theorem keyword_classifier_first_label_wins lower st :
  has_search_results st = false ->
  let q := lower (user_query st) in
  let s := count_in search_keywords q in
  let c := count_in checkout_keywords q in
  let i := count_in info_keywords q in
  let p := count_in persuasion_keywords q in
  let m := Z.max (Z.max s c) (Z.max i p) in
  intent (_classify_intent_keywords lower st)
  = (if m =? 0 then "persuasion"
     else if s =? m then "search"
     else if c =? m then "checkout"
     else if i =? m then "info"
     else "persuasion")
  /\ (m = 0 ->
      (confidence (_classify_intent_keywords lower st) == 1 # 3)%Q
      /\ suggested_agent (_classify_intent_keywords lower st) = "sales").
Proof.
  intros Hno q s c i p m. unfold _classify_intent_keywords.
  rewrite Hno. fold q. fold s c i p. rewrite max_key_four. fold m. simpl.
  destruct (Z.eqb_spec m 0) as [Hm|Hm]; simpl; [|split; [done|lia]].
  split; [done|]. intros _. split; reflexivity.
Qed.

Lemma keyword_classifier_first_label_wins_witness :
  intent (_classify_intent_keywords ascii_lower (new_state "hola")) = "persuasion"
  /\ (confidence (_classify_intent_keywords ascii_lower (new_state "hola")) == 1 # 3)%Q.
Proof.
  destruct (keyword_classifier_first_label_wins ascii_lower (new_state "hola")
              eq_refl) as [Hi Hc].
  split; [exact Hi|]. exact (proj1 (Hc eq_refl)).
Defined.

(** C7 as stated does not hold: "quiero ver" matches one search keyword
    and one checkout keyword, the two labels tie for the highest count,
    there are no prior search results, and the intent is search. *)
Lemma keyword_tie_returns_search :
  has_search_results (new_state "quiero ver") = false
  /\ count_in search_keywords (ascii_lower "quiero ver") = 1
  /\ count_in checkout_keywords (ascii_lower "quiero ver") = 1
  /\ count_in info_keywords (ascii_lower "quiero ver") = 0
  /\ count_in persuasion_keywords (ascii_lower "quiero ver") = 0
  /\ intent (_classify_intent_keywords ascii_lower (new_state "quiero ver")) = "search".
Proof. repeat split. Qed.

Lemma initial_state_query query session_state uid :
  user_query (initial_state query session_state uid) = query.
Proof. unfold initial_state. destruct uid as [[|a u]|]; reflexivity. Qed.

Lemma initial_state_stage query st uid :
  checkout_stage (initial_state query (Some st) uid) = checkout_stage st.
Proof. unfold initial_state. destruct uid as [[|a u]|]; reflexivity. Qed.

Lemma initial_state_fresh_stage query uid :
  checkout_stage (initial_state query None uid) = None.
Proof. unfold initial_state. destruct uid as [[|a u]|]; reflexivity. Qed.

Lemma with_detected_style_stage detect_user_style st :
  checkout_stage (with_detected_style detect_user_style st) = checkout_stage st.
Proof.
  unfold with_detected_style.
  destruct (match user_style st with Some _ => _ | None => _ end); [|done].
  destruct (detect_user_style st); reflexivity.
Qed.

Lemma first_response_in_checkout
    lower strip use_llm_detection llm_intent_reply detect_user_style
    agent_process query st uid stage :
  checkout_stage st = Some stage ->
  any_in stop_patterns (strip (lower query)) = false ->
  first_response lower strip use_llm_detection llm_intent_reply
    detect_user_style agent_process query (Some st) uid
  = Raise (UnboundLocalError "current_agent_name").
Proof.
  intros Hstage Hstop. unfold first_response, _detect_stop_intent.
  rewrite initial_state_query, Hstop.
  rewrite with_detected_style_stage, initial_state_stage, Hstage.
  reflexivity.
Qed.

(** C3 (the code departs from it).  In a session whose checkout_stage is
    set, an utterance that is not a stop phrase makes process_query
    raise: the agent name is read before it was assigned, and the
    emergency handler itself fails on [self.self] before it can build its
    response. *)
Theorem process_query_raises_in_checkout
    lower strip use_llm_detection llm_intent_reply detect_user_style
    agent_process fuel query st uid stage :
  checkout_stage st = Some stage ->
  any_in stop_patterns (strip (lower query)) = false ->
  process_query lower strip use_llm_detection llm_intent_reply
    detect_user_style agent_process fuel query (Some st) uid
  = Some (Raise (AttributeError "self")).
Proof.
  intros Hstage Hstop. unfold process_query, process_query_try.
  by rewrite (first_response_in_checkout _ _ _ _ _ _ _ _ _ _ Hstage Hstop).
Qed.

Lemma process_query_raises_in_checkout_witness :
  process_query ascii_lower ascii_strip false sin_llm estilo_neutral ping_pong
    3 "hola" (Some en_checkout) None
  = Some (Raise (AttributeError "self")).
Proof.
  exact (process_query_raises_in_checkout ascii_lower ascii_strip false sin_llm
           estilo_neutral ping_pong 3 "hola" en_checkout None "confirm"
           eq_refl eq_refl).
Defined.

(** Outside a checkout the turn does come back with a response, also
    when agents raise. *)
Lemma process_query_returns_outside_checkout
    lower strip use_llm_detection llm_intent_reply detect_user_style
    agent_process fuel query uid :
  (3 <= fuel)%nat ->
  exists r,
    process_query lower strip use_llm_detection llm_intent_reply
      detect_user_style agent_process fuel query None uid = Some (Ret r).
Proof.
  intros Hfuel. unfold process_query, process_query_try.
  destruct (first_response lower strip use_llm_detection llm_intent_reply
              detect_user_style agent_process query None uid)
    as [[r0 [n0|]]|e] eqn:Hf.
  - destruct (transfer_loop_inv agent_process fuel (loop_entry r0 n0)
                (loop_entry_inv r0 n0)) as [ls [-> _]];
      [simpl; unfold max_transfers; lia|eauto].
  - eauto.
  - exfalso. revert Hf. unfold first_response, _detect_stop_intent.
    destruct (any_in stop_patterns _); [discriminate|].
    rewrite with_detected_style_stage, initial_state_fresh_stage. simpl.
    destruct (agent_process _ 0%nat _); discriminate.
Qed.

End OrchestratorTheorems.


(** ** Script continuation: the three arms and the order they create *)

Section ContinuationTheorems.
Import Py Models OrderService Mutations Samples.

Lemma contains_any_in w words text :
  w ∈ words -> contains w text = true -> any_in words text = true.
Proof.
  intros Hin Hc. unfold any_in. apply existsb_exists.
  exists w. split; [by apply list_elem_of_In|done].
Qed.

Lemma no_order_outside_datos_envio lower strip search_talla UUID env sid text db :
  rama (strip (lower text)) <> DatosEnvio ->
  base (continuar_conversacion lower strip search_talla UUID env sid text db) = db.
Proof.
  intros Hr. unfold continuar_conversacion.
  destruct (current_user env) as [user|]; [|reflexivity].
  destruct (redis_get env) as [[sd|]|]; simpl; try reflexivity.
  destruct (rama (strip (lower text))); [| |done].
  - unfold rama_aprobacion. destruct (redis_setex_ok env); reflexivity.
  - unfold rama_rechazo.
    destruct (default [] (sd_productos sd) !! _); [|reflexivity].
    destruct (redis_setex_ok env); reflexivity.
Qed.

(** C10 (as amended).  Approval and rejection are substring tests on the
    lowercased reply, approval first: a reply that contains "si"
    anywhere takes the approval arm; a reply that contains none of the
    approval words (si, sí, yes, ok, dale, va, claro, perfecto, bueno)
    and contains "no" anywhere takes the rejection arm; and a reply that
    contains "si" or "no" never reaches the arm that creates the order:
    the persisted state is unchanged. *)
Theorem substring_arms lower strip search_talla UUID env sid text db :
  let t := strip (lower text) in
  (contains "si" t = true -> rama t = Aprobacion)
  /\ (any_in palabras_aprobacion t = false -> contains "no" t = true ->
      rama t = Rechazo)
  /\ (contains "si" t = true \/ contains "no" t = true ->
      rama t <> DatosEnvio
      /\ base (continuar_conversacion lower strip search_talla UUID env sid text db)
         = db).
Proof.
  intros t.
  assert (Hsi : contains "si" t = true -> rama t = Aprobacion).
  { intros H. unfold rama.
    rewrite (contains_any_in "si" palabras_aprobacion t); [done| |done].
    unfold palabras_aprobacion. set_solver. }
  assert (Hno : contains "no" t = true -> rama t <> DatosEnvio).
  { intros H. unfold rama.
    rewrite (contains_any_in "no" palabras_rechazo t); [| |done].
    - by destruct (any_in palabras_aprobacion t).
    - unfold palabras_rechazo. set_solver. }
  split; [exact Hsi|]. split.
  - intros Ha Hn. unfold rama. rewrite Ha.
    rewrite (contains_any_in "no" palabras_rechazo t); [done| |done].
    unfold palabras_rechazo. set_solver.
  - intros H.
    assert (Hr : rama t <> DatosEnvio).
    { destruct H as [H|H]; [rewrite (Hsi H); discriminate|by apply Hno]. }
    split; [exact Hr|]. by apply no_order_outside_datos_envio.
Qed.

Lemma substring_arms_witness :
  rama (ascii_strip (ascii_lower "siguiente")) = Aprobacion
  /\ rama (ascii_strip (ascii_lower "Avenida Norte 123")) = Rechazo
  /\ base (continuar id_b "Avenida Norte 123" tienda) = tienda.
Proof.
  split; [|split].
  - exact (proj1 (substring_arms ascii_lower ascii_strip ascii_search_talla
                    canonical_uuid (entorno id_b) "s-1" "siguiente" tienda)
             eq_refl).
  - exact (proj1 (proj2 (substring_arms ascii_lower ascii_strip ascii_search_talla
                           canonical_uuid (entorno id_b) "s-1"
                           "Avenida Norte 123" tienda))
             eq_refl eq_refl).
  - exact (proj2 (proj2 (proj2 (substring_arms ascii_lower ascii_strip
                                  ascii_search_talla canonical_uuid (entorno id_b)
                                  "s-1" "Avenida Norte 123" tienda))
                    (or_intror eq_refl))).
Defined.

(** C10 as stated does not hold: "ok no" has no "si" and has "no", and it
    is taken as an approval. *)
Lemma ok_no_is_approval :
  contains "si" (ascii_strip (ascii_lower "ok no")) = false
  /\ contains "no" (ascii_strip (ascii_lower "ok no")) = true
  /\ rama (ascii_strip (ascii_lower "ok no")) = Aprobacion
  /\ siguiente_paso (respuesta (continuar id_b "ok no" tienda))
     = "solicitar_datos_envio".
Proof. repeat split. Qed.

(** The request reaches [create_order] with [order_data]: a user is
    logged in, the session is found and names a product that exists,
    the reply is neither an approval nor a rejection, and the order
    request is well formed. *)
Lemma reaches_create_order lower strip search_talla UUID env sid text db
    user sd a mejor pid product_obj order_data :
  current_user env = Some user ->
  redis_get env = Ret (Some sd) ->
  any_in palabras_aprobacion (strip (lower text)) = false ->
  any_in palabras_rechazo (strip (lower text)) = false ->
  mejor_opcion_id sd = Some (String a mejor) ->
  product_query_ok env = true ->
  UUID (String a mejor) = Some pid ->
  product_stocks db !! pid = Some product_obj ->
  order_data_de UUID user (String a mejor) (strip text)
    (default "Sin especificar" (search_talla (strip text))) sid = Some order_data ->
  continuar_conversacion lower strip search_talla UUID env sid text db
  = match create_order (db_env env) order_data db with
    | (Ret (order, _), db') =>
        let talla := default "Sin especificar" (search_talla (strip text)) in
        let id_text := default "None" (o_id order) in
        let number := "ORD-" +:+ ascii_upper (substring 0 8 id_text) in
        if redis_setex_ok env then
          {| respuesta :=
               {| success := true;
                  mensaje := OrdenCreada number (product_name product_obj)
                               talla (strip text) (total_amount order)
                               (status order);
                  r_mejor_opcion_id := Some pid;
                  siguiente_paso := "orden_completada";
                  order_id := o_id order;
                  order_number := Some number;
                  order_total := total_amount order;
                  order_status := Some (status order);
                  audio_url := tts_audio env |};
             guardada :=
               Some (set_order_created
                       (set_shipping_info sd (talla, strip text, text))
                       id_text number);
             base := db' |}
        else fallo ProblemaAlProcesarOrden "reintentar" db'
    | (Raise (InsufficientStockError n av q), db') =>
        fallo (StockInsuficiente (InsufficientStockError n av q))
          "nueva_conversacion" db'
    | (Raise (ProductNotFoundError _), db') =>
        fallo ProductoNoEncontradoAlCrear "nueva_conversacion" db'
    | (Raise (OrderServiceError msg), db') =>
        fallo (ProblemaAlCrearOrden (OrderServiceError msg)) "reintentar" db'
    end.
Proof.
  intros Hu Hs Ha Hr Hm Hq Hid Hp Hd.
  unfold continuar_conversacion. rewrite Hu, Hs. simpl.
  unfold rama. rewrite Ha, Hr. unfold rama_envio. simpl.
  rewrite Hm, Hq. simpl. rewrite Hid, Hp, Hd.
  destruct (create_order (db_env env) order_data db) as [[[order msg]|[]] db'];
    reflexivity.
Qed.

Lemma order_data_de_shape UUID user mejor direccion talla sid order_data :
  order_data_de UUID user mejor direccion talla sid = Some order_data ->
  exists pid,
    UUID mejor = Some pid
    /\ oc_details order_data = [ {| product_id := pid; odc_quantity := 1 |} ]
    /\ oc_shipping_address order_data = direccion
    /\ oc_notes order_data = Some ("Talla solicitada: " +:+ talla).
Proof.
  unfold order_data_de.
  destruct (UUID (usuario_id user)) as [uid|]; [|discriminate].
  destruct (UUID mejor) as [pid|]; [|discriminate].
  destruct (valid_order_create _); [|discriminate].
  intros [= <-]. exists pid. repeat split.
Qed.

(** C8 (as amended).  The continuation has three arms only.  A reply that
    is neither an approval nor a rejection, whether or not it carries a
    size, is taken as shipping data: the size is the number found in it
    or "Sin especificar", the whole text is the address, and
    create_order is called for one unit of the session's product; when
    that call succeeds the order is committed and the reply is
    orden_completada. *)
Theorem unclassified_reply_creates_order lower strip search_talla UUID env sid
    text db user sd a mejor pid product_obj order_data order msg db' :
  current_user env = Some user ->
  redis_get env = Ret (Some sd) ->
  any_in palabras_aprobacion (strip (lower text)) = false ->
  any_in palabras_rechazo (strip (lower text)) = false ->
  mejor_opcion_id sd = Some (String a mejor) ->
  product_query_ok env = true ->
  UUID (String a mejor) = Some pid ->
  product_stocks db !! pid = Some product_obj ->
  order_data_de UUID user (String a mejor) (strip text)
    (default "Sin especificar" (search_talla (strip text))) sid = Some order_data ->
  redis_setex_ok env = true ->
  create_order (db_env env) order_data db = (Ret (order, msg), db') ->
  let r := continuar_conversacion lower strip search_talla UUID env sid text db in
  rama (strip (lower text)) = DatosEnvio
  /\ oc_details order_data = [ {| product_id := pid; odc_quantity := 1 |} ]
  /\ oc_shipping_address order_data = strip text
  /\ oc_notes order_data
     = Some ("Talla solicitada: "
             +:+ default "Sin especificar" (search_talla (strip text)))
  /\ success (respuesta r) = true
  /\ siguiente_paso (respuesta r) = "orden_completada"
  /\ order_id (respuesta r) = o_id order
  /\ base r = db'
  /\ order ∈ orders db'.
Proof.
  intros Hu Hs Ha Hr Hm Hq Hid Hp Hd Hset Hc r. subst r.
  rewrite (reaches_create_order _ _ _ _ _ _ _ _ _ _ _ _ _ _ _
             Hu Hs Ha Hr Hm Hq Hid Hp Hd).
  rewrite Hc, Hset. simpl.
  destruct (order_data_de_shape _ _ _ _ _ _ _ Hd) as (pid' & Hid' & Hdet & Haddr & Hnotes).
  rewrite Hid in Hid'. injection Hid' as <-.
  split; [unfold rama; by rewrite Ha, Hr|].
  repeat (split; [done|]).
  unfold create_order in Hc.
  destruct (transaction (db_env env) order_data (product_stocks db)) as [[tbl o]|e];
    [|discriminate].
  injection Hc as <- _ <-. simpl. apply elem_of_app. right. by constructor.
Qed.

Lemma unclassified_reply_creates_order_witness :
  siguiente_paso (respuesta (continuar id_b "cuanto cuesta el flete" tienda))
  = "orden_completada"
  /\ base (continuar id_b "cuanto cuesta el flete" tienda)
     = (create_order (healthy id_order) pedido_flete tienda).2.
Proof.
  destruct (create_order (healthy id_order) pedido_flete tienda)
    as [[[order msg]|e] db'] eqn:Hc; [|discriminate Hc].
  destruct (unclassified_reply_creates_order ascii_lower ascii_strip
              ascii_search_talla canonical_uuid (entorno id_b) "s-1"
              "cuanto cuesta el flete" tienda cliente (sesion id_b)
              "0" "000000b-0000-0000-0000-000000000000" id_b adidas_b
              pedido_flete order msg db'
              eq_refl eq_refl eq_refl eq_refl eq_refl eq_refl eq_refl eq_refl
              eq_refl eq_refl Hc)
    as (_ & _ & _ & _ & _ & Hpaso & _ & Hbase & _).
  split; [exact Hpaso|exact Hbase].
Defined.

(** C8 as stated does not hold: "cuanto cuesta el flete" is no approval,
    no rejection and carries no size, and the turn calls create_order and
    commits an order, taking one unit of stock. *)
Lemma question_creates_order :
  any_in palabras_aprobacion (ascii_strip (ascii_lower "cuanto cuesta el flete")) = false
  /\ any_in palabras_rechazo (ascii_strip (ascii_lower "cuanto cuesta el flete")) = false
  /\ ascii_search_talla (ascii_strip "cuanto cuesta el flete") = None
  /\ orders tienda = []
  /\ siguiente_paso (respuesta (continuar id_b "cuanto cuesta el flete" tienda))
     = "orden_completada"
  /\ length (orders (base (continuar id_b "cuanto cuesta el flete" tienda))) = 1%nat
  /\ quantity_available <$> (product_stocks tienda !! id_b) = Some 8
  /\ quantity_available
       <$> (product_stocks (base (continuar id_b "cuanto cuesta el flete" tienda))
              !! id_b) = Some 7.
Proof. repeat split. Qed.

(** C9 (as amended).  When create_order, called from the continuation,
    fails with InsufficientStock, the reply is the stock apology with
    success false and next step nueva_conversacion, and nothing was
    written. *)
Theorem insufficient_stock_reply lower strip search_talla UUID env sid
    text db user sd a mejor pid product_obj order_data n av q :
  current_user env = Some user ->
  redis_get env = Ret (Some sd) ->
  any_in palabras_aprobacion (strip (lower text)) = false ->
  any_in palabras_rechazo (strip (lower text)) = false ->
  mejor_opcion_id sd = Some (String a mejor) ->
  product_query_ok env = true ->
  UUID (String a mejor) = Some pid ->
  product_stocks db !! pid = Some product_obj ->
  order_data_de UUID user (String a mejor) (strip text)
    (default "Sin especificar" (search_talla (strip text))) sid = Some order_data ->
  (create_order (db_env env) order_data db).1
  = Raise (InsufficientStockError n av q) ->
  let r := continuar_conversacion lower strip search_talla UUID env sid text db in
  success (respuesta r) = false
  /\ mensaje (respuesta r) = StockInsuficiente (InsufficientStockError n av q)
  /\ siguiente_paso (respuesta r) = "nueva_conversacion"
  /\ base r = db.
Proof.
  intros Hu Hs Ha Hr Hm Hq Hid Hp Hd Hc r. subst r.
  rewrite (reaches_create_order _ _ _ _ _ _ _ _ _ _ _ _ _ _ _
             Hu Hs Ha Hr Hm Hq Hid Hp Hd).
  pose proof (create_order_rollback (db_env env) order_data db) as Hsame.
  destruct (create_order (db_env env) order_data db) as [[[order msg]|e] db'];
    simpl in *; [discriminate|].
  injection Hc as ->. rewrite (Hsame _ eq_refl). repeat split.
Qed.

Lemma insufficient_stock_reply_witness :
  mensaje (respuesta (continuar id_c "Av Loja 456 Cuenca talla 42" tienda_agotada))
  = StockInsuficiente (InsufficientStockError "Puma Velocity" 0 1)
  /\ siguiente_paso
       (respuesta (continuar id_c "Av Loja 456 Cuenca talla 42" tienda_agotada))
     = "nueva_conversacion"
  /\ base (continuar id_c "Av Loja 456 Cuenca talla 42" tienda_agotada)
     = tienda_agotada.
Proof.
  destruct (insufficient_stock_reply ascii_lower ascii_strip ascii_search_talla
              canonical_uuid (entorno id_c) "s-1" "Av Loja 456 Cuenca talla 42"
              tienda_agotada cliente (sesion id_c)
              "0" "000000c-0000-0000-0000-000000000000" id_c agotado
              pedido_agotado "Puma Velocity" 0 1
              eq_refl eq_refl eq_refl eq_refl eq_refl eq_refl eq_refl eq_refl
              eq_refl eq_refl)
    as (_ & Hm & Hp & Hb).
  split; [exact Hm|]. split; [exact Hp|exact Hb].
Defined.

(** C9 as stated does not hold: the product of the session is out of
    stock, create_order fails with InsufficientStock, and the next step
    of the reply is nueva_conversacion, not reintentar. *)
Lemma insufficient_stock_next_step_not_retry :
  (create_order (healthy id_order) pedido_agotado tienda_agotada).1
  = Raise (InsufficientStockError "Puma Velocity" 0 1)
  /\ mensaje (respuesta (continuar id_c "Av Loja 456 Cuenca talla 42" tienda_agotada))
     = StockInsuficiente (InsufficientStockError "Puma Velocity" 0 1)
  /\ siguiente_paso
       (respuesta (continuar id_c "Av Loja 456 Cuenca talla 42" tienda_agotada))
     = "nueva_conversacion"
  /\ String.eqb
       (siguiente_paso
          (respuesta (continuar id_c "Av Loja 456 Cuenca talla 42" tienda_agotada)))
       "reintentar" = false.
Proof. repeat split. Qed.

End ContinuationTheorems.


(** ** Further properties: prices, order statuses and totals *)

Section ModelProperties.
Import Py Models OrderService OrderLifecycle ExtraSpec Samples ExtraSamples.

Lemma Qltb_true x y : Qltb x y = true -> (x < y)%Q.
Proof.
  unfold Qltb. intros H. apply Qnot_le_lt. intros Hle.
  apply Qle_bool_iff in Hle. rewrite Hle in H. discriminate.
Qed.

Lemma discounted_le (price d : Q) :
  (0 <= price)%Q -> (0 < d)%Q -> (price - price * (d / 100) <= price)%Q.
Proof.
  intros Hp Hd.
  assert (0 <= price * (d / 100))%Q; [|lra].
  apply Qmult_le_0_compat; [done|].
  apply Qle_shift_div_l; [reflexivity|]. lra.
Qed.

(** X1.  The final price and the savings always add up to the unit
    cost; for a unit cost that is not negative the final price lies
    between 0 and the unit cost and the savings are not negative,
    whatever the discount columns hold. *)
Theorem final_price_within_unit_cost p :
  (final_price p + savings_amount p == unit_cost p)%Q
  /\ ((0 <= unit_cost p)%Q ->
      (0 <= final_price p)%Q /\ (final_price p <= unit_cost p)%Q
      /\ (0 <= savings_amount p)%Q).
Proof.
  unfold savings_amount.
  assert (Hb : (0 <= unit_cost p)%Q ->
               (0 <= final_price p)%Q /\ (final_price p <= unit_cost p)%Q).
  { intros Hc. unfold final_price. destruct (is_on_sale p); simpl; [|lra].
    set (p1 := match discount_percent p with Some d => _ | None => _ end).
    assert (H1 : (p1 <= unit_cost p)%Q).
    { subst p1. destruct (discount_percent p) as [d|]; [|lra].
      destruct (Qltb 0 d) eqn:Hd; [|lra].
      apply discounted_le; [done|by apply Qltb_true]. }
    set (p2 := match ps_discount_amount p with Some a => _ | None => _ end).
    assert (H2 : (p2 <= unit_cost p)%Q).
    { subst p2. destruct (ps_discount_amount p) as [a|]; [|done].
      destruct (Qltb 0 a) eqn:Ha; [|done]. apply Qltb_true in Ha. lra. }
    split; [apply Q.le_max_r|]. apply Q.max_lub; done. }
  split.
  - destruct (is_on_sale p) eqn:Hs; simpl; [ring|].
    unfold final_price. rewrite Hs. simpl. ring.
  - intros Hc. destruct (Hb Hc) as [H0 H1]. repeat split; try done.
    destruct (is_on_sale p); simpl; lra.
Qed.

Lemma final_price_within_unit_cost_witness :
  (0 <= final_price rebajado)%Q /\ (final_price rebajado <= unit_cost rebajado)%Q
  /\ (final_price rebajado == 80 # 1)%Q.
Proof.
  destruct (final_price_within_unit_cost rebajado) as [_ H].
  destruct H as (H0 & H1 & _); [vm_compute; discriminate|].
  split; [exact H0|]. split; [exact H1|]. reflexivity.
Defined.

(** X2.  Only a product on sale has an active promotion, and a promotion
    that is active on some day was active on every earlier day. *)
Theorem promotion_active_until_expiry today earlier p :
  has_active_promotion today p = true ->
  earlier <= today ->
  is_on_sale p = true /\ has_active_promotion earlier p = true.
Proof.
  unfold has_active_promotion. destruct (is_on_sale p); simpl; [|discriminate].
  destruct (promotion_valid_until p) as [d|]; [|done].
  intros H Hle. apply Z.leb_le in H. split; [done|]. apply Z.leb_le. lia.
Qed.

Lemma promotion_active_until_expiry_witness :
  is_on_sale rebajado = true /\ has_active_promotion 739000 rebajado = true.
Proof.
  apply (promotion_active_until_expiry 739010 739000 rebajado); [reflexivity|lia].
Defined.

Lemma can_transition_to_elem o new_status :
  can_transition_to o new_status = true ->
  exists s, s ∈ valid_transitions (status o) /\ new_status = status_name s.
Proof.
  unfold can_transition_to. intros H. apply existsb_exists in H as (s & Hin & Heq).
  exists s. split; [by apply list_elem_of_In|]. by apply String.eqb_eq.
Qed.

(** X3.  A permitted status change always names one of the eight
    statuses and moves the order forward: never to the status it has,
    never back, never to DRAFT; from CANCELLED and REFUNDED nothing is
    permitted. *)
Theorem transitions_move_forward o new_status :
  can_transition_to o new_status = true ->
  exists s, new_status = status_name s
            /\ rank (status o) < rank s
            /\ s <> DRAFT
            /\ status o <> CANCELLED /\ status o <> REFUNDED.
Proof.
  intros H. apply can_transition_to_elem in H as (s & Hin & ->).
  exists s. split; [done|].
  destruct (status o); simpl in Hin; each_member Hin;
    simpl; repeat split; (lia || discriminate).
Qed.

Lemma transitions_move_forward_witness :
  exists s, "PAID" = status_name s
            /\ rank (status (orden_en CONFIRMED)) < rank s
            /\ s <> DRAFT
            /\ status (orden_en CONFIRMED) <> CANCELLED
            /\ status (orden_en CONFIRMED) <> REFUNDED.
Proof.
  exact (transitions_move_forward (orden_en CONFIRMED) "PAID" eq_refl).
Defined.

Lemma valid_history_rank l :
  forall o, valid_history o l -> Z.of_nat (length l) <= 6 - rank (status o).
Proof.
  induction l as [|s l IH]; intros o H; simpl in *.
  - destruct (status o); simpl; lia.
  - destruct H as [Ht Hrest]. apply IH in Hrest. simpl in Hrest.
    apply can_transition_to_elem in Ht as (s' & Hin & Heq).
    assert (s' = s) as -> by (destruct s', s; simpl in Heq; congruence).
    assert (rank (status o) < rank s);
      [destruct (status o); simpl in Hin; each_member Hin; simpl; lia|lia].
Qed.

(** X4.  An order goes through at most six permitted status changes in
    its whole life, from whatever status it starts. *)
Theorem valid_history_at_most_six o l :
  valid_history o l -> (length l <= 6)%nat.
Proof.
  intros H. apply valid_history_rank in H.
  assert (0 <= rank (status o)) by (destruct (status o); simpl; lia). lia.
Qed.

Lemma valid_history_at_most_six_witness :
  (length [CONFIRMED; PAID; PROCESSING; SHIPPED; DELIVERED; REFUNDED] <= 6)%nat.
Proof.
  apply (valid_history_at_most_six (orden_en DRAFT)). simpl. repeat split.
Defined.

(** X5.  An editable order is never a finalized one and may always be
    cancelled; the only change a finalized order still permits is from
    DELIVERED to REFUNDED. *)
Theorem editable_and_finalized o :
  (is_editable o = true ->
   is_finalized o = false /\ can_transition_to o "CANCELLED" = true)
  /\ (is_finalized o = true ->
      forall new_status, can_transition_to o new_status = true ->
                         status o = DELIVERED /\ new_status = "REFUNDED").
Proof.
  unfold is_editable, is_finalized, can_transition_to. split.
  - destruct (status o); try discriminate; intros _; split; reflexivity.
  - destruct (status o); try discriminate; intros _ new_status; simpl;
      try discriminate.
    rewrite orb_false_r. intros H. apply String.eqb_eq in H. done.
Qed.

Lemma editable_and_finalized_witness :
  is_finalized (orden_en CONFIRMED) = false
  /\ can_transition_to (orden_en CONFIRMED) "CANCELLED" = true.
Proof.
  exact (proj1 (editable_and_finalized (orden_en CONFIRMED)) eq_refl).
Defined.

(** X6.  Whatever the lines, tax, shipping and discount of an order,
    calculate_totals leaves a total that is not negative, and calling it
    again changes nothing. *)
Theorem calculate_totals_floor_idempotent o :
  (exists t, total_amount (calculate_totals o) = Some t /\ (0 <= t)%Q)
  /\ calculate_totals (calculate_totals o) = calculate_totals o.
Proof.
  split; [|reflexivity].
  eexists. split; [reflexivity|]. simpl.
  match goal with |- context [Qltb ?t 0] => destruct (Qltb t 0) eqn:H end; [lra|].
  unfold Qltb in H. apply negb_false_iff, Qle_bool_iff in H. exact H.
Qed.

End ModelProperties.


(** ** Further properties: creating and cancelling orders *)

Section OrderServiceProperties.
Import Py Models OrderService OrderLifecycle OrderCancel ExtraSpec Samples ExtraSamples.

Lemma set_quantity_same p :
  set_quantity_available p (quantity_available p) = p.
Proof. by destruct p. Qed.

Lemma set_quantity_eq p a b :
  a = b -> set_quantity_available p a = set_quantity_available p b.
Proof. by intros ->. Qed.

Lemma select_active_Some (tbl : gmap uuid ProductStock) k p :
  select_active tbl k = Some p <-> tbl !! k = Some p /\ is_active p = true.
Proof.
  unfold select_active. destruct (tbl !! k) as [p0|].
  - destruct (is_active p0) eqn:Ha; split.
    + by intros [= <-].
    + by intros [Hp _].
    + discriminate.
    + intros [[= <-] Hp]. congruence.
  - split; [discriminate|]. by intros [? _].
Qed.

(** What a successful pass over the lines does to every row. *)
Lemma reserve_lookup env items :
  forall i tbl acc tbl' ds,
    reserve env i items tbl acc = Ret (tbl', ds) ->
    forall k,
      tbl' !! k
      = (fun p => set_quantity_available p
                    (quantity_available p - requested k items)) <$> tbl !! k.
Proof.
  induction items as [|item rest IH]; intros i tbl acc tbl' ds; simpl.
  - intros [= <- _] k. destruct (tbl !! k); simpl; [|done].
    f_equal. rewrite Z.sub_0_r. symmetry. apply set_quantity_same.
  - destruct (execute_fault env i); simpl; [discriminate|].
    destruct (select_active tbl (product_id item)) as [product|] eqn:Hsel;
      [|discriminate].
    destruct (quantity_available product <? odc_quantity item); [discriminate|].
    intros Hr k. rewrite (IH _ _ _ _ _ Hr k).
    apply select_active_Some in Hsel as [Hsel _].
    destruct (decide (product_id item = k)) as [<-|Hne].
    + rewrite lookup_insert_eq, Hsel, bool_decide_eq_true_2 by done. simpl.
      f_equal. unfold set_quantity_available. simpl. f_equal. lia.
    + rewrite lookup_insert_ne, bool_decide_eq_false_2 by done.
      destruct (tbl !! k); simpl; [|done]. f_equal.
Qed.

Lemma reserve_keeps_available env items :
  forall i tbl acc tbl' ds k p,
    reserve env i items tbl acc = Ret (tbl', ds) ->
    tbl !! k = Some p -> 0 <= quantity_available p -> is_active p = true ->
    exists p', tbl' !! k = Some p' /\ 0 <= quantity_available p'
               /\ is_active p' = true.
Proof.
  induction items as [|item rest IH]; intros i tbl acc tbl' ds k p; simpl.
  - intros [= <- _]. eauto.
  - destruct (execute_fault env i); simpl; [discriminate|].
    destruct (select_active tbl (product_id item)) as [product|] eqn:Hsel;
      [|discriminate].
    destruct (quantity_available product <? odc_quantity item) eqn:Hlt;
      [discriminate|].
    apply Z.ltb_ge in Hlt. apply select_active_Some in Hsel as [Hsel Hact].
    intros Hr Hk Hq Ha.
    destruct (decide (product_id item = k)) as [<-|Hne].
    + eapply (IH _ _ _ _ _ _ _ Hr); [apply lookup_insert_eq| |]; simpl; [lia|done].
    + eapply (IH _ _ _ _ _ _ _ Hr); [by rewrite lookup_insert_ne|done|done].
Qed.

Lemma reserve_named_available env items :
  forall i tbl acc tbl' ds,
    reserve env i items tbl acc = Ret (tbl', ds) ->
    forall it, it ∈ items ->
      exists p', tbl' !! product_id it = Some p' /\ 0 <= quantity_available p'
                 /\ is_active p' = true.
Proof.
  induction items as [|item rest IH]; intros i tbl acc tbl' ds; simpl.
  - intros _ it Hin. by apply elem_of_nil in Hin.
  - destruct (execute_fault env i); simpl; [discriminate|].
    destruct (select_active tbl (product_id item)) as [product|] eqn:Hsel;
      [|discriminate].
    destruct (quantity_available product <? odc_quantity item) eqn:Hlt;
      [discriminate|].
    apply Z.ltb_ge in Hlt. apply select_active_Some in Hsel as [Hsel Hact].
    intros Hr it Hin. apply elem_of_cons in Hin as [->|Hin].
    + eapply (reserve_keeps_available _ _ _ _ _ _ _ _ _ Hr);
        [apply lookup_insert_eq| |]; simpl; [lia|done].
    + by apply (IH _ _ _ _ _ Hr).
Qed.

Lemma reserve_details env items :
  forall i tbl acc tbl' ds,
    reserve env i items tbl acc = Ret (tbl', ds) ->
    exists new, ds = acc ++ new
                /\ map quantity new = map odc_quantity items
                /\ (well_keyed tbl ->
                    map od_product_id new = map product_id items).
Proof.
  induction items as [|item rest IH]; intros i tbl acc tbl' ds; simpl.
  - intros [= _ <-]. exists []. by rewrite app_nil_r.
  - destruct (execute_fault env i); simpl; [discriminate|].
    destruct (select_active tbl (product_id item)) as [product|] eqn:Hsel;
      [|discriminate].
    destruct (quantity_available product <? odc_quantity item); [discriminate|].
    apply select_active_Some in Hsel as [Hsel _].
    intros Hr. destruct (IH _ _ _ _ _ Hr) as (new & -> & Hq & Hid).
    eexists (_ :: new). rewrite <- app_assoc. split; [reflexivity|]. simpl.
    split; [by rewrite Hq|]. intros Hwk. rewrite (Hwk _ _ Hsel). f_equal.
    apply Hid. intros k p Hk.
    destruct (decide (product_id item = k)) as [<-|Hne].
    + rewrite lookup_insert_eq in Hk. injection Hk as <-. simpl. by apply Hwk.
    + rewrite lookup_insert_ne in Hk by done. by apply Hwk.
Qed.

Lemma transaction_Ret env order_data tbl tbl' o :
  transaction env order_data tbl = Ret (tbl', o) ->
  exists ds, reserve env 0 (oc_details order_data) tbl [] = Ret (tbl', ds)
             /\ details o = ds /\ o_id o = Some (new_order_id env)
             /\ status o = CONFIRMED /\ payment_status o = "PENDING"
             /\ user_id o = oc_user_id order_data
             /\ shipping_address o = oc_shipping_address order_data.
Proof.
  unfold transaction. destruct (begin_fault env); simpl; [discriminate|].
  destruct (reserve env 0 (oc_details order_data) tbl []) as [[t ds]|];
    simpl; [|discriminate].
  destruct (flush_fault env); simpl; [discriminate|].
  destruct (refresh_fault env); simpl; [discriminate|].
  destruct (commit_fault env); simpl; [discriminate|].
  intros [= <- <-]. exists ds. repeat split.
Qed.

(** X7.  When create_order succeeds, every product row has lost exactly
    the units the request's lines ask of it and nothing else about it
    changed; every product named in the request is still active with a
    stock that is not negative; and exactly one order was added,
    CONFIRMED with payment PENDING, whose lines carry the requested
    quantities in the requested order. *)
Theorem create_order_stock_accounting env order_data db o msg db' :
  create_order env order_data db = (Ret (o, msg), db') ->
  (forall k,
      product_stocks db' !! k
      = (fun p => set_quantity_available p
                    (quantity_available p - requested k (oc_details order_data)))
          <$> product_stocks db !! k)
  /\ (forall it, it ∈ oc_details order_data ->
        exists p', product_stocks db' !! product_id it = Some p'
                   /\ 0 <= quantity_available p' /\ is_active p' = true)
  /\ orders db' = orders db ++ [o]
  /\ status o = CONFIRMED /\ payment_status o = "PENDING"
  /\ map quantity (details o) = map odc_quantity (oc_details order_data).
Proof.
  unfold create_order.
  destruct (transaction env order_data (product_stocks db)) as [[tbl o']|r] eqn:Ht;
    [|discriminate].
  intros [= -> _ <-]. simpl.
  destruct (transaction_Ret _ _ _ _ _ Ht) as (ds & Hr & Hd & _ & Hs & Hp & _).
  split; [exact (reserve_lookup _ _ _ _ _ _ _ Hr)|].
  split; [exact (reserve_named_available _ _ _ _ _ _ _ Hr)|].
  split; [done|]. split; [done|]. split; [done|].
  destruct (reserve_details _ _ _ _ _ _ _ Hr) as (new & Hn & Hq & _).
  simpl in Hn. by rewrite Hd, Hn.
Qed.

Lemma create_order_stock_accounting_witness :
  exists p', product_stocks
               (create_order (healthy id_order)
                  (pedido [linea id_b 2; linea id_b 3]) tienda).2 !! id_b = Some p'
             /\ quantity_available p' = 3.
Proof.
  destruct (create_order (healthy id_order) (pedido [linea id_b 2; linea id_b 3])
              tienda) as [[[o msg]|e] db'] eqn:Hc; [|discriminate Hc].
  destruct (create_order_stock_accounting _ _ _ _ _ _ Hc) as (Hk & _).
  simpl. rewrite (Hk id_b). eexists. split; reflexivity.
Defined.

Lemma restore_lookup env ds :
  forall i tbl tbl',
    restore env i ds tbl = Ret tbl' ->
    forall k,
      tbl' !! k
      = (fun p => set_quantity_available p
                    (quantity_available p + returned k ds)) <$> tbl !! k.
Proof.
  induction ds as [|d ds IH]; intros i tbl tbl'; simpl.
  - intros [= <-] k. destruct (tbl !! k); simpl; [|done].
    f_equal. rewrite Z.add_0_r. symmetry. apply set_quantity_same.
  - destruct (get_product_fault env i); simpl; [discriminate|].
    intros Hr k. rewrite (IH _ _ _ Hr k).
    destruct (decide (od_product_id d = k)) as [<-|Hne].
    + rewrite bool_decide_eq_true_2 by done.
      destruct (tbl !! od_product_id d) as [product|] eqn:Hp.
      * rewrite lookup_insert_eq. simpl. f_equal.
        unfold set_quantity_available. simpl. f_equal. lia.
      * by rewrite Hp.
    + rewrite bool_decide_eq_false_2 by done.
      destruct (tbl !! od_product_id d) as [product|] eqn:Hp.
      * rewrite lookup_insert_ne by done. destruct (tbl !! k); simpl; [|done].
        f_equal.
      * destruct (tbl !! k); simpl; [|done]. f_equal.
Qed.

Lemma restore_total env ds :
  (forall i, get_product_fault env i = None) ->
  forall i tbl, exists tbl', restore env i ds tbl = Ret tbl'.
Proof.
  intros Hf. induction ds as [|d ds IH]; intros i tbl; simpl; [eauto|].
  rewrite Hf. simpl. apply IH.
Qed.

Lemma returned_requested k ds :
  forall items,
    map od_product_id ds = map product_id items ->
    map quantity ds = map odc_quantity items ->
    returned k ds = requested k items.
Proof.
  induction ds as [|d ds IH]; intros [|it items]; simpl; try discriminate; [done|].
  intros [= Hid Hids] [= Hq Hqs]. rewrite Hid, Hq. f_equal. by apply IH.
Qed.

Lemma get_order_id oid os o :
  get_order oid os = Some o -> o_id o = Some oid.
Proof.
  induction os as [|o0 os IH]; simpl; [discriminate|].
  destruct (bool_decide (o_id o0 = Some oid)) eqn:Hb; [|exact IH].
  intros [= <-]. by apply bool_decide_eq_true in Hb.
Qed.

Lemma get_order_new oid os o :
  get_order oid os = None -> o_id o = Some oid ->
  get_order oid (os ++ [o]) = Some o
  /\ forall o', put_order oid o' (os ++ [o]) = os ++ [o'].
Proof.
  intros Hnone Hid. induction os as [|o0 os IH]; simpl in *.
  - rewrite bool_decide_eq_true_2 by done. done.
  - destruct (bool_decide (o_id o0 = Some oid)); [discriminate|].
    destruct (IH Hnone) as [Hg Hp]. split; [done|]. intros o'. by rewrite Hp.
Qed.

Lemma get_put_order oid os o o' :
  get_order oid os = Some o -> o_id o' = Some oid ->
  get_order oid (put_order oid o' os) = Some o'
  /\ length (put_order oid o' os) = length os.
Proof.
  intros Hg Hid. induction os as [|o0 os IH]; simpl in *; [discriminate|].
  destruct (bool_decide (o_id o0 = Some oid)) eqn:Hb; simpl.
  - by rewrite bool_decide_eq_true_2.
  - rewrite Hb. destruct (IH Hg) as [-> ->]. done.
Qed.

(** What a cancellation that went through did. *)
Lemma cancel_order_success env oid reason db msg db' :
  cancel_order env oid reason db = ((true, msg), db') ->
  exists o tbl,
    get_order oid (orders db) = Some o
    /\ status o <> DELIVERED /\ status o <> CANCELLED
    /\ restore env 0 (details o) (product_stocks db) = Ret tbl
    /\ msg = "Pedido cancelado exitosamente"
    /\ db' = {| product_stocks := tbl;
                orders := put_order oid (cancelled o reason) (orders db) |}.
Proof.
  unfold cancel_order, cancel_transaction.
  destruct (cancel_begin_fault env); simpl; [discriminate|].
  destruct (get_order_fault env); simpl; [discriminate|].
  destruct (get_order oid (orders db)) as [o|];
    [|destruct (cancel_commit_fault env); simpl; discriminate].
  destruct (status o) eqn:Hs;
    try (destruct (cancel_commit_fault env); simpl; discriminate);
    (destruct (restore env 0 (details o) (product_stocks db)) as [tbl|] eqn:Hr;
     simpl; [|discriminate];
     destruct (cancel_commit_fault env); simpl; [discriminate|];
     intros [= <- <-]; exists o, tbl; repeat split; try done;
     rewrite Hs; discriminate).
Qed.

Lemma cancel_order_no_fault env oid reason db o :
  cancel_no_fault env ->
  get_order oid (orders db) = Some o ->
  status o <> DELIVERED -> status o <> CANCELLED ->
  exists tbl,
    restore env 0 (details o) (product_stocks db) = Ret tbl
    /\ cancel_order env oid reason db
       = ((true, "Pedido cancelado exitosamente"),
          {| product_stocks := tbl;
             orders := put_order oid (cancelled o reason) (orders db) |}).
Proof.
  intros (Hb & Hg & Hp & Hc) Ho Hd Hcan.
  destruct (restore_total env (details o) Hp 0%nat (product_stocks db)) as [tbl Hr].
  exists tbl. split; [done|].
  unfold cancel_order, cancel_transaction. rewrite Hb, Hg, Ho. simpl.
  destruct (status o); try done; rewrite Hr; simpl; by rewrite Hc.
Qed.

(** X8.  Creating an order and then cancelling it puts every product row
    back exactly as it was before the order, and leaves the order in the
    table as CANCELLED with payment REFUNDED. *)
Theorem create_then_cancel_restores_stock env cenv order_data db o msg db' reason :
  well_keyed (product_stocks db) ->
  get_order (new_order_id env) (orders db) = None ->
  cancel_no_fault cenv ->
  create_order env order_data db = (Ret (o, msg), db') ->
  exists db'',
    cancel_order cenv (new_order_id env) reason db'
    = ((true, "Pedido cancelado exitosamente"), db'')
    /\ product_stocks db'' = product_stocks db
    /\ orders db'' = orders db ++ [cancelled o reason]
    /\ status (cancelled o reason) = CANCELLED
    /\ payment_status (cancelled o reason) = "REFUNDED".
Proof.
  intros Hwk Hfresh Hnf Hc. unfold create_order in Hc.
  destruct (transaction env order_data (product_stocks db)) as [[tbl o']|r] eqn:Ht;
    [|discriminate].
  injection Hc as -> _ <-.
  destruct (transaction_Ret _ _ _ _ _ Ht) as (ds & Hr & Hd & Hid & Hs & _).
  destruct (get_order_new _ _ _ Hfresh Hid) as [Hget Hput].
  destruct (cancel_order_no_fault cenv (new_order_id env) reason
              {| product_stocks := tbl; orders := orders db ++ [o] |} o Hnf Hget)
    as (tbl'' & Hres & Hcancel); [by rewrite Hs|by rewrite Hs|].
  eexists. split; [exact Hcancel|]. simpl. split; [|by rewrite Hput].
  destruct (reserve_details _ _ _ _ _ _ _ Hr) as (new & Hn & Hq & Hp).
  simpl in Hn. subst new. specialize (Hp Hwk).
  apply map_eq. intros k. simpl in Hres.
  rewrite (restore_lookup _ _ _ _ _ Hres k), (reserve_lookup _ _ _ _ _ _ _ Hr k).
  rewrite Hd, (returned_requested k ds _ Hp Hq).
  destruct (product_stocks db !! k) as [p|]; simpl; [|done]. f_equal.
  unfold set_quantity_available. simpl. destruct p. simpl. f_equal. lia.
Qed.

Lemma tienda_well_keyed : well_keyed (product_stocks tienda).
Proof.
  intros k p H. unfold tienda in H. simpl in H.
  apply lookup_insert_Some in H as [[<- <-]|[_ H]]; [reflexivity|].
  apply lookup_insert_Some in H as [[<- <-]|[_ H]]; [reflexivity|].
  by rewrite lookup_empty in H.
Defined.

Lemma create_then_cancel_restores_stock_witness :
  product_stocks
    (cancel_order cancel_healthy id_order (Some "cliente desiste")
       (create_order (healthy id_order) (pedido [linea id_b 2; linea id_a 1])
          tienda).2).2
  = product_stocks tienda.
Proof.
  destruct (create_order (healthy id_order) (pedido [linea id_b 2; linea id_a 1])
              tienda) as [[[o msg]|e] db'] eqn:Hc; [|discriminate Hc].
  destruct (create_then_cancel_restores_stock (healthy id_order) cancel_healthy
              _ _ _ _ _ (Some "cliente desiste") tienda_well_keyed eq_refl
              (conj eq_refl (conj eq_refl (conj (fun _ => eq_refl) eq_refl))) Hc)
    as (db'' & Hcancel & Hstock & _).
  simpl in *. rewrite Hcancel. exact Hstock.
Defined.

(** X9.  cancel_order changes nothing whenever it answers False; when the
    storage layer raises nothing it answers True exactly for an order
    that exists and is neither DELIVERED nor CANCELLED. *)
Theorem cancel_order_refusal env oid reason db :
  ((cancel_order env oid reason db).1.1 = false ->
   (cancel_order env oid reason db).2 = db)
  /\ (cancel_no_fault env ->
      ((cancel_order env oid reason db).1.1 = true
       <-> exists o, get_order oid (orders db) = Some o
                     /\ status o <> DELIVERED /\ status o <> CANCELLED)).
Proof.
  split.
  - destruct (cancel_order env oid reason db) as [[[|] msg] db'] eqn:Hc;
      [discriminate|]. intros _. simpl.
    revert Hc. unfold cancel_order, cancel_transaction.
    destruct (cancel_begin_fault env); simpl; [by intros [= _ <-]|].
    destruct (get_order_fault env); simpl; [by intros [= _ <-]|].
    destruct (get_order oid (orders db)) as [o|];
      [|destruct (cancel_commit_fault env); simpl; by intros [= _ <-]].
    destruct (status o);
      try (destruct (cancel_commit_fault env); simpl; by intros [= _ <-]);
      (destruct (restore env 0 (details o) (product_stocks db)); simpl;
       [|by intros [= _ <-]];
       destruct (cancel_commit_fault env); simpl;
       [by intros [= _ <-]|discriminate]).
  - intros Hnf. split.
    + destruct (cancel_order env oid reason db) as [[b msg] db'] eqn:Hc.
      simpl. intros ->.
      destruct (cancel_order_success _ _ _ _ _ _ Hc) as (o & _ & Ho & Hd & Hcan & _).
      eauto.
    + intros (o & Ho & Hd & Hcan).
      destruct (cancel_order_no_fault env oid reason db o Hnf Ho Hd Hcan)
        as (tbl & _ & ->). reflexivity.
Qed.

Lemma cancel_order_refusal_witness :
  (cancel_order cancel_healthy id_missing None tienda).2 = tienda.
Proof.
  exact (proj1 (cancel_order_refusal cancel_healthy id_missing None tienda) eq_refl).
Defined.

(** X10.  After a cancellation that went through, the order is in the
    table as CANCELLED with payment REFUNDED, no order was added or
    removed, and a second cancellation of the same order is refused and
    changes nothing. *)
Theorem cancel_twice_refused env env2 oid reason reason2 db msg db' :
  cancel_order env oid reason db = ((true, msg), db') ->
  (exists o, get_order oid (orders db') = Some o
             /\ status o = CANCELLED /\ payment_status o = "REFUNDED")
  /\ length (orders db') = length (orders db)
  /\ (cancel_order env2 oid reason2 db').1.1 = false
  /\ (cancel_order env2 oid reason2 db').2 = db'
  /\ (cancel_no_fault env2 ->
      (cancel_order env2 oid reason2 db').1.2
      = "No se puede cancelar un pedido CANCELLED").
Proof.
  intros Hc.
  destruct (cancel_order_success _ _ _ _ _ _ Hc) as (o & tbl & Ho & _ & _ & _ & _ & ->).
  assert (Hid : o_id (cancelled o reason) = Some oid)
    by (simpl; by apply (get_order_id _ (orders db))).
  destruct (get_put_order _ _ _ _ Ho Hid) as [Hget Hlen]. simpl.
  split; [exists (cancelled o reason); by repeat split|]. split; [done|].
  assert (Hshape : forall e, cancel_transaction e oid reason2
             {| product_stocks := tbl;
                orders := put_order oid (cancelled o reason) (orders db) |}
           = (let* _ := storage_call (cancel_begin_fault e) in
              let* _ := storage_call (get_order_fault e) in
              let* _ := storage_call (cancel_commit_fault e) in
              Ret ((false, "No se puede cancelar un pedido CANCELLED"),
                   {| product_stocks := tbl;
                      orders := put_order oid (cancelled o reason) (orders db) |}))).
  { intros e. unfold cancel_transaction. simpl. by rewrite Hget. }
  unfold cancel_order. rewrite Hshape.
  split; [|split].
  - destruct (cancel_begin_fault env2), (get_order_fault env2),
      (cancel_commit_fault env2); reflexivity.
  - destruct (cancel_begin_fault env2), (get_order_fault env2),
      (cancel_commit_fault env2); reflexivity.
  - intros (-> & -> & _ & ->). reflexivity.
Qed.

Lemma cancel_twice_refused_witness :
  (cancel_order cancel_healthy id_order None
     (cancel_order cancel_healthy id_order None
        (create_order (healthy id_order) (pedido [linea id_b 2]) tienda).2).2).1
  = (false, "No se puede cancelar un pedido CANCELLED").
Proof.
  destruct (cancel_order cancel_healthy id_order None
              (create_order (healthy id_order) (pedido [linea id_b 2]) tienda).2)
    as [[[|] msg] db'] eqn:Hc; [|discriminate Hc].
  destruct (cancel_twice_refused _ cancel_healthy _ _ None _ _ _ Hc)
    as (_ & _ & Hb & _ & Hm).
  simpl. specialize (Hm (conj eq_refl (conj eq_refl (conj (fun _ => eq_refl) eq_refl)))).
  destruct (cancel_order cancel_healthy id_order None db') as [[b m] d].
  simpl in *. by rewrite Hb, Hm.
Defined.

End OrderServiceProperties.


(** ** Further properties: the comparator *)

Section ComparatorProperties.
Import Py Models Comparison RankingSpec Samples ExtraSamples.

Lemma prioridad_points pg : 5 <= points (prioridad_rule pg) <= 25.
Proof.
  unfold prioridad_rule, points.
  destruct (String.eqb (prioridad pg) "alta"); simpl; [lia|].
  destruct (String.eqb (prioridad pg) "media"); simpl; [lia|].
  destruct (String.eqb (prioridad pg) "baja"); simpl; lia.
Qed.

Lemma presupuesto_points p prefs : 5 <= points (presupuesto_rule p prefs) <= 25.
Proof.
  unfold presupuesto_rule, points.
  destruct (presupuesto_maximo prefs) as [b|]; simpl; [|lia].
  destruct (Qeq_bool b 0); simpl; [lia|].
  destruct (Qle_bool (final_price p) b); simpl; [lia|].
  destruct (Qle_bool (final_price p) (b * (11 # 10))); simpl; lia.
Qed.

Lemma promocion_points today p : 0 <= points (promocion_rule today p) <= 20.
Proof.
  unfold promocion_rule, points.
  destruct (is_on_sale p && has_active_promotion today p); simpl; [lia|].
  destruct (is_on_sale p); simpl; lia.
Qed.

Lemma stock_points p :
  (0 < quantity_available p -> 5 <= points (stock_rule p) <= 15)
  /\ (quantity_available p <= 0 -> points (stock_rule p) = -20).
Proof.
  unfold stock_rule, points.
  destruct (Z.ltb_spec 10 (quantity_available p)); simpl; [lia|].
  destruct (Z.ltb_spec 5 (quantity_available p)); simpl; [lia|].
  destruct (Z.ltb_spec 0 (quantity_available p)); simpl; lia.
Qed.

Lemma uso_points lower p prefs : 0 <= points (uso_rule lower p prefs) <= 15.
Proof.
  unfold uso_rule, points.
  destruct (truthy (uso_previsto prefs)) as [uso|]; simpl; [|lia].
  destruct (truthy (category p)) as [cat|]; simpl; [|lia].
  repeat match goal with
         | |- context [if ?b then _ else _] => destruct b; simpl
         end; lia.
Qed.

Lemma color_points lower p prefs : 0 <= points (color_rule lower p prefs) <= 5.
Proof.
  unfold color_rule, points.
  destruct (truthy (color_preferido prefs)) as [c|]; simpl; [|lia].
  destruct (contains _ _); simpl; lia.
Qed.

Lemma talla_points prefs : 0 <= points (talla_rule prefs) <= 5.
Proof.
  unfold talla_rule, points.
  destruct (truthy (talla_preferida prefs)); simpl; lia.
Qed.

(** X11.  A product's recommendation score always lies in 0..100; a
    product with stock scores at least 15 whatever the preferences, and a
    product without stock scores at most 75. *)
Theorem score_bounds lower today p pg prefs :
  0 <= total_score (_calculate_product_score lower today p pg prefs) <= 100
  /\ (0 < quantity_available p ->
      15 <= total_score (_calculate_product_score lower today p pg prefs))
  /\ (quantity_available p <= 0 ->
      total_score (_calculate_product_score lower today p pg prefs) <= 75).
Proof.
  unfold _calculate_product_score, rules, clamp. simpl.
  pose proof (prioridad_points pg). pose proof (presupuesto_points p prefs).
  pose proof (promocion_points today p). pose proof (stock_points p) as [Hs1 Hs0].
  pose proof (uso_points lower p prefs). pose proof (color_points lower p prefs).
  pose proof (talla_points prefs).
  split; [lia|]. split; intros Hq; [specialize (Hs1 Hq)|specialize (Hs0 Hq)]; lia.
Qed.

Lemma score_bounds_witness :
  15 <= total_score (_calculate_product_score ascii_lower hoy zeta
                       (en_guion "7501234567890" "Zeta Runner") sin_preferencias).
Proof.
  apply (proj1 (proj2 (score_bounds ascii_lower hoy zeta
                         (en_guion "7501234567890" "Zeta Runner")
                         sin_preferencias))).
  simpl. lia.
Defined.

(** X12.  For a fixed budget a cheaper product never gets fewer budget
    points than a dearer one, and a product with more stock never gets
    fewer stock points than one with less. *)
Theorem budget_and_stock_rules_monotone p1 p2 prefs :
  ((final_price p1 <= final_price p2)%Q ->
   points (presupuesto_rule p2 prefs) <= points (presupuesto_rule p1 prefs))
  /\ (quantity_available p1 <= quantity_available p2 ->
      points (stock_rule p1) <= points (stock_rule p2)).
Proof.
  split.
  - intros Hle. unfold presupuesto_rule, points.
    destruct (presupuesto_maximo prefs) as [b|]; simpl; [|lia].
    destruct (Qeq_bool b 0); simpl; [lia|].
    destruct (Qle_bool (final_price p2) b) eqn:H2; simpl.
    + apply Qle_bool_iff in H2.
      assert (H1 : Qle_bool (final_price p1) b = true)
        by (apply Qle_bool_iff; lra).
      rewrite H1. simpl. lia.
    + destruct (Qle_bool (final_price p2) (b * (11 # 10))) eqn:H3; simpl.
      * apply Qle_bool_iff in H3.
        assert (H1 : Qle_bool (final_price p1) (b * (11 # 10)) = true)
          by (apply Qle_bool_iff; lra).
        destruct (Qle_bool (final_price p1) b); simpl; [lia|].
        rewrite H1. simpl. lia.
      * destruct (Qle_bool (final_price p1) b); simpl; [lia|].
        destruct (Qle_bool (final_price p1) (b * (11 # 10))); simpl; lia.
  - intros Hle. unfold stock_rule, points.
    destruct (Z.ltb_spec 10 (quantity_available p1)),
      (Z.ltb_spec 10 (quantity_available p2)); simpl; try lia;
      destruct (Z.ltb_spec 5 (quantity_available p1)),
        (Z.ltb_spec 5 (quantity_available p2)); simpl; try lia;
      destruct (Z.ltb_spec 0 (quantity_available p1)),
        (Z.ltb_spec 0 (quantity_available p2)); simpl; lia.
Qed.

Lemma budget_and_stock_rules_monotone_witness :
  points (stock_rule Samples.nike_a) <= points (stock_rule alfa).
Proof.
  apply (proj2 (budget_and_stock_rules_monotone Samples.nike_a alfa sin_preferencias)).
  simpl. lia.
Defined.

Lemma products_by_barcode_from_list products :
  forall b p,
    products_by_barcode products !! b = Some p ->
    p ∈ products /\ barcode p = Some b.
Proof.
  unfold products_by_barcode.
  assert (H : forall (l : list ProductStock) (m : gmap string ProductStock),
             (forall b p, m !! b = Some p -> p ∈ products /\ barcode p = Some b) ->
             (forall p, p ∈ l -> p ∈ products) ->
             forall b p,
               fold_left (fun m p => match truthy (barcode p) with
                                     | Some b => <[b := p]> m
                                     | None => m
                                     end) l m !! b = Some p ->
               p ∈ products /\ barcode p = Some b).
  { induction l as [|x l IH]; intros m Hm Hl b p; simpl; [apply Hm|].
    apply IH.
    - intros b' p'. destruct (truthy (barcode x)) as [bx|] eqn:Hx; [|apply Hm].
      intros Hlk. apply lookup_insert_Some in Hlk as [[<- <-]|[_ Hlk]]; [|by apply Hm].
      split; [apply Hl; by left|].
      unfold truthy in Hx. destruct (barcode x) as [[|a s']|]; congruence.
    - intros p' Hp'. apply Hl. by right. }
  intros b p. apply H; [intros b' p'; by rewrite lookup_empty|done].
Qed.

Lemma scored_products_origin lower today products guion x :
  x ∈ scored_products lower today products guion ->
  exists pg, pg ∈ productos guion
             /\ product x ∈ products
             /\ barcode (product x) = Some (codigo_barras pg)
             /\ x = _calculate_product_score lower today (product x) pg
                      (preferencias guion).
Proof.
  unfold scored_products. intros Hx. apply list_elem_of_omap in Hx as (pg & Hpg & Hsome).
  destruct (products_by_barcode products !! codigo_barras pg) as [p|] eqn:Hlk;
    [|discriminate].
  injection Hsome as <-. simpl.
  destruct (products_by_barcode_from_list _ _ _ Hlk) as [Hin Hb]. eauto.
Qed.

(** X13.  compare_and_recommend raises for an empty catalog list and
    when no product of the script is found by barcode, and only then;
    otherwise every ranked entry is a catalog product found under a
    barcode the script lists, scored against the script's preferences,
    and the best option has the highest score of all. *)
Theorem compare_and_recommend_outcomes lower today products guion :
  match compare_and_recommend lower today products guion with
  | Raise NoHayProductos => products = []
  | Raise NingunProductoEncontrado =>
      products <> []
      /\ forall pg, pg ∈ productos guion ->
                    products_by_barcode products !! codigo_barras pg = None
  | Ret r =>
      products <> []
      /\ (forall x, x ∈ rr_products r ->
            exists pg, pg ∈ productos guion
                       /\ product x ∈ products
                       /\ barcode (product x) = Some (codigo_barras pg)
                       /\ x = _calculate_product_score lower today (product x) pg
                                (preferencias guion))
      /\ exists best, head (rr_products r) = Some best
                      /\ best_option_id r = ps_id (product best)
                      /\ forall x, x ∈ rr_products r ->
                                   total_score x <= total_score best
  end.
Proof.
  unfold compare_and_recommend. destruct products as [|p0 ps]; [done|].
  destruct (sort_desc (scored_products lower today (p0 :: ps) guion))
    as [|best others] eqn:Hs.
  - split; [done|]. intros pg Hpg.
    assert (Hnil : scored_products lower today (p0 :: ps) guion = []).
    { apply Permutation_nil_r. rewrite <- Hs. symmetry. apply sort_desc_perm. }
    unfold scored_products in Hnil.
    destruct (products_by_barcode (p0 :: ps) !! codigo_barras pg) as [p|] eqn:Hlk;
      [|done].
    assert (Hin : _calculate_product_score lower today p pg (preferencias guion)
                  ∈ omap (fun pg =>
                            match products_by_barcode (p0 :: ps) !! codigo_barras pg with
                            | Some p => Some (_calculate_product_score lower today p pg
                                                (preferencias guion))
                            | None => None
                            end) (productos guion)).
    { apply list_elem_of_omap. exists pg. split; [done|]. by rewrite Hlk. }
    rewrite Hnil in Hin. by apply elem_of_nil in Hin.
  - simpl. split; [done|]. split.
    + intros x Hx. apply (scored_products_origin lower today (p0 :: ps) guion).
      rewrite <- (sort_desc_perm (scored_products lower today (p0 :: ps) guion)).
      by rewrite Hs.
    + exists best. split; [done|]. split; [done|].
      pose proof (sort_desc_sorted (scored_products lower today (p0 :: ps) guion)) as Hsorted.
      rewrite Hs in Hsorted. apply StronglySorted_inv in Hsorted as [_ Hall].
      intros x Hx. apply elem_of_cons in Hx as [->|Hx]; [lia|].
      rewrite Forall_forall in Hall. by apply Hall.
Qed.

End ComparatorProperties.


(** ** Further properties: the orchestrator *)

Section OrchestratorProperties.
Import Py Orchestrator Samples.

Lemma starts_with_spec n h :
  starts_with n h = true <-> exists post, h = n +:+ post.
Proof.
  revert h. induction n as [|a n IH]; intros h; simpl.
  - split; [eauto|done].
  - destruct h as [|b h]; [split; [discriminate|intros [? [=]]]|].
    destruct (Ascii.eqb_spec a b) as [<-|Hne].
    + rewrite IH. split; intros [post Hp]; exists post; [by rewrite Hp|].
      by injection Hp.
    + split; [discriminate|]. intros [post [= ? _]]. done.
Qed.

(** [needle in haystack] holds exactly when the needle occurs in the
    haystack. *)
Lemma contains_spec n h :
  contains n h = true <-> exists pre post, h = pre +:+ n +:+ post.
Proof.
  induction h as [|b h IH]; simpl.
  - destruct (starts_with n "") eqn:Hs.
    + split; [intros _|done]. apply starts_with_spec in Hs as [post Hp].
      by exists "", post.
    + split; [discriminate|]. intros (pre & post & Hp).
      destruct pre as [|? ?]; [|discriminate].
      assert (starts_with n "" = true) by (apply starts_with_spec; eauto).
      congruence.
  - destruct (starts_with n (String b h)) eqn:Hs.
    + split; [intros _|done]. apply starts_with_spec in Hs as [post Hp].
      by exists "", post.
    + rewrite IH. split.
      * intros (pre & post & ->). by exists (String b pre), post.
      * intros (pre & post & Hp). destruct pre as [|c pre].
        -- assert (starts_with n (String b h) = true)
             by (apply starts_with_spec; eauto). congruence.
        -- injection Hp as _ ->. eauto.
Qed.

(** X14.  When one of the stop phrases occurs anywhere in the stripped,
    lowercased utterance, the turn ends at once: whatever the session
    (also in the middle of a checkout), the classifier and the agents,
    process_query returns the farewell of the session's style from
    "orchestrator", marked stop_intent, with no transfer requested and no
    agent involved. *)
Theorem stop_intent_short_circuit
    lower strip use_llm_detection llm_intent_reply detect_user_style
    agent_process fuel query session_state uid pattern pre post :
  pattern ∈ stop_patterns ->
  strip (lower query) = pre +:+ pattern +:+ post ->
  process_query lower strip use_llm_detection llm_intent_reply
    detect_user_style agent_process fuel query session_state uid
  = Some (Ret {| agent_name := "orchestrator";
                 message :=
                   farewell (default "neutral"
                               (user_style (initial_state query session_state uid)));
                 state := initial_state query session_state uid;
                 should_transfer := false; transfer_to := None;
                 metadata := [("stop_intent", "True")] |}).
Proof.
  intros Hin Hq.
  assert (Hany : any_in stop_patterns (strip (lower query)) = true).
  { unfold any_in. apply existsb_exists. exists pattern.
    split; [by apply list_elem_of_In|]. apply contains_spec. eauto. }
  unfold process_query, process_query_try, first_response, _detect_stop_intent.
  rewrite initial_state_query, Hany. reflexivity.
Qed.

Lemma stop_intent_short_circuit_witness :
  process_query ascii_lower ascii_strip false sin_llm estilo_neutral ping_pong
    0 "Mejor no, gracias" (Some en_checkout) None
  = Some (Ret {| agent_name := "orchestrator";
                 message := "Entendido. Quedo a su disposición. ¡Que tenga un buen día!";
                 state := initial_state "Mejor no, gracias" (Some en_checkout) None;
                 should_transfer := false; transfer_to := None;
                 metadata := [("stop_intent", "True")] |}).
Proof.
  apply (stop_intent_short_circuit ascii_lower ascii_strip false sin_llm
           estilo_neutral ping_pong 0 "Mejor no, gracias" (Some en_checkout) None
           "mejor no" "" ", gracias").
  - unfold stop_patterns. by left.
  - reflexivity.
Defined.

Lemma count_in_nonneg words text : 0 <= count_in words text.
Proof. unfold count_in. lia. Qed.

Lemma confidence_bounds (n : Z) :
  1 <= n -> (1 # 3 <= Qmin (inject_Z n / 3) 1)%Q /\ (Qmin (inject_Z n / 3) 1 <= 1)%Q.
Proof.
  intros Hn. split; [|apply Q.le_min_r].
  apply Q.min_glb; [|done].
  unfold Qle, Qdiv, Qmult, Qinv, inject_Z. simpl. lia.
Qed.

Lemma intent_to_agent_registered i :
  intent_to_agent i ∈ ["retriever"; "sales"; "checkout"].
Proof.
  unfold intent_to_agent.
  destruct (String.eqb i "search"); [in_written_list|].
  destruct (String.eqb i "persuasion"); [in_written_list|].
  destruct (String.eqb i "checkout"); in_written_list.
Qed.

Lemma max_key_four_label s c i p :
  (max_key ("search", s) [("checkout", c); ("info", i); ("persuasion", p)]).1
    ∈ ["search"; "checkout"; "info"; "persuasion"]
  /\ (0 <= s -> 0 <= (max_key ("search", s)
                        [("checkout", c); ("info", i); ("persuasion", p)]).2).
Proof.
  rewrite max_key_four. cbv zeta. cbn [fst snd]. split; [|lia].
  destruct (s =? _); [in_written_list|].
  destruct (c =? _); [in_written_list|].
  destruct (i =? _); in_written_list.
Qed.

Lemma keyword_classifier_closed lower st :
  intent (_classify_intent_keywords lower st)
    ∈ ["search"; "checkout"; "info"; "persuasion"]
  /\ suggested_agent (_classify_intent_keywords lower st)
     = intent_to_agent (intent (_classify_intent_keywords lower st))
  /\ (1 # 3 <= confidence (_classify_intent_keywords lower st))%Q
  /\ (confidence (_classify_intent_keywords lower st) <= 1)%Q.
Proof.
  unfold _classify_intent_keywords. cbv zeta.
  set (q := lower (user_query st)).
  pose proof (max_key_four_label (count_in search_keywords q)
                (count_in checkout_keywords q) (count_in info_keywords q)
                (count_in persuasion_keywords q)) as [Hl Hn].
  specialize (Hn (count_in_nonneg _ _)).
  set (m0 := max_key _ _) in *.
  set (A := (0 <? count_in checkout_keywords q) || _).
  set (B := (0 <? count_in persuasion_keywords q) || _).
  set (m1 := if has_search_results st then _ else m0).
  assert (H1 : m1.1 ∈ ["search"; "checkout"; "info"; "persuasion"] /\ 0 <= m1.2).
  { subst m1. destruct (has_search_results st); [|done].
    destruct A; [split; [in_written_list|simpl; lia]|].
    destruct B; [split; [in_written_list|simpl; lia]|done]. }
  clearbody m1. clear - H1. destruct H1 as [Hl Hn].
  set (m2 := if m1.2 =? 0 then _ else m1).
  assert (H2 : m2.1 ∈ ["search"; "checkout"; "info"; "persuasion"] /\ 1 <= m2.2).
  { subst m2. destruct (Z.eqb_spec m1.2 0); [|split; [done|lia]].
    split; [in_written_list|simpl; lia]. }
  clearbody m2. destruct H2 as [Hl2 Hn2]. cbn [intent confidence suggested_agent].
  split; [done|]. split; [done|]. by apply confidence_bounds.
Qed.

(** X15.  Both classifiers always answer inside the closed sets: the
    intent is one of search, persuasion, checkout, info, whatever the
    utterance and whatever the LLM replied, and the suggested agent is
    the one mapped from that intent; the keyword classifier's confidence
    lies between 1/3 and 1. *)
Theorem classifiers_answer_in_closed_sets lower llm_intent_reply st :
  intent (_classify_intent_keywords lower st)
    ∈ ["search"; "checkout"; "info"; "persuasion"]
  /\ suggested_agent (_classify_intent_keywords lower st)
     = intent_to_agent (intent (_classify_intent_keywords lower st))
  /\ (1 # 3 <= confidence (_classify_intent_keywords lower st))%Q
  /\ (confidence (_classify_intent_keywords lower st) <= 1)%Q
  /\ intent (_classify_intent_llm lower llm_intent_reply st)
     ∈ ["search"; "checkout"; "info"; "persuasion"]
  /\ suggested_agent (_classify_intent_llm lower llm_intent_reply st)
     = intent_to_agent (intent (_classify_intent_llm lower llm_intent_reply st))
  /\ suggested_agent (_classify_intent_llm lower llm_intent_reply st)
     ∈ ["retriever"; "sales"; "checkout"].
Proof.
  destruct (keyword_classifier_closed lower st) as (H1 & H2 & H3 & H4).
  repeat (split; [assumption|]).
  unfold _classify_intent_llm. destruct (llm_intent_reply st) as [[[i c] r]|].
  - cbn [intent suggested_agent].
    destruct (existsb (String.eqb i) ["search"; "persuasion"; "checkout"; "info"])
      eqn:He.
    + split; [|split; [reflexivity|apply intent_to_agent_registered]].
      apply existsb_exists in He as (x & Hx & Heq). apply String.eqb_eq in Heq as ->.
      simpl in Hx. apply list_elem_of_In. simpl. tauto.
    + split; [in_written_list|].
      split; [reflexivity|apply intent_to_agent_registered].
  - split; [assumption|]. split; [assumption|]. rewrite H2.
    apply intent_to_agent_registered.
Qed.

(** X16.  Once the session holds search results, a checkout keyword or
    one of the words sí, si, ok, dale, bueno anywhere in the utterance
    makes the intent checkout with confidence 1, whatever else matches;
    the agent suggested for it, checkout, is not a registered agent.
    Without such a word, a persuasion keyword or an utterance that
    matches nothing gives persuasion with confidence 2/3. *)
Theorem prior_results_favor_checkout lower st :
  has_search_results st = true ->
  let q := lower (user_query st) in
  let c := _classify_intent_keywords lower st in
  ((0 <? count_in checkout_keywords q)
   || any_in ["sí"; "si"; "ok"; "dale"; "bueno"] q = true ->
   intent c = "checkout" /\ (confidence c == 1)%Q
   /\ suggested_agent c = "checkout" /\ in_agents (suggested_agent c) = false)
  /\ ((0 <? count_in checkout_keywords q)
      || any_in ["sí"; "si"; "ok"; "dale"; "bueno"] q = false ->
      (0 < count_in persuasion_keywords q
       \/ (count_in search_keywords q = 0 /\ count_in info_keywords q = 0
           /\ count_in persuasion_keywords q = 0)) ->
      intent c = "persuasion" /\ (confidence c == 2 # 3)%Q
      /\ suggested_agent c = "sales").
Proof.
  intros Hres q c. subst c. unfold _classify_intent_keywords. cbv zeta.
  fold q. rewrite Hres. split.
  - intros ->. repeat split.
  - intros HA HB. rewrite HA.
    set (m0 := max_key _ _).
    assert (Hor : (0 <? count_in persuasion_keywords q) || (m0.2 =? 0) = true).
    { destruct HB as [Hp|(Hs & Hi & Hp)].
      - apply orb_true_iff. left. by apply Z.ltb_lt.
      - apply orb_true_iff. right. subst m0. rewrite max_key_four. cbv zeta.
        cbn [snd]. apply orb_false_iff in HA as [Hc _]. apply Z.ltb_ge in Hc.
        pose proof (count_in_nonneg checkout_keywords q). apply Z.eqb_eq. lia. }
    rewrite Hor. repeat split.
Qed.

Lemma prior_results_favor_checkout_witness :
  intent (_classify_intent_keywords ascii_lower
            (set_user_query
               {| user_query := ""; user_style := None; detected_intent := None;
                  search_results := Some ["Nike Air Zoom"]; checkout_stage := None;
                  user_id := None; session_id := None; current_agent := None |}
               "ok, me gusta el precio")) = "checkout".
Proof.
  exact (proj1 (proj1 (prior_results_favor_checkout ascii_lower
                         (set_user_query
                            {| user_query := ""; user_style := None;
                               detected_intent := None;
                               search_results := Some ["Nike Air Zoom"];
                               checkout_stage := None; user_id := None;
                               session_id := None; current_agent := None |}
                            "ok, me gusta el precio") eq_refl) eq_refl)).
Defined.

Lemma fallback_registered name :
  in_agents (if in_agents name then name else "sales") = true.
Proof. by destruct (in_agents name) eqn:E. Qed.

Lemma transfer_step_ext ap1 ap2 ls :
  (forall name n st, in_agents name = true -> ap1 name n st = ap2 name n st) ->
  transfer_step ap1 ls = transfer_step ap2 ls.
Proof.
  intros H. unfold transfer_step.
  destruct (2 <=? _); [done|].
  destruct (transfer_to (response ls)) as [next|]; [|done].
  destruct (in_agents next) eqn:Hn; [|done]. by rewrite (H _ _ _ Hn).
Qed.

Lemma transfer_loop_ext ap1 ap2 fuel :
  (forall name n st, in_agents name = true -> ap1 name n st = ap2 name n st) ->
  forall ls, transfer_loop ap1 fuel ls = transfer_loop ap2 fuel ls.
Proof.
  intros H. induction fuel as [|fuel IH]; intros ls; simpl; [done|].
  destruct (should_transfer (response ls) && _); [|done].
  rewrite (transfer_step_ext ap1 ap2 ls H).
  destruct (transfer_step ap2 ls) as [ls' continue]. destruct continue; [apply IH|done].
Qed.

(** X17.  A turn only ever runs the registered agents, retriever and
    sales: what any other name would answer, as first agent or as
    transfer target, has no effect on the result of process_query. *)
Theorem only_registered_agents_run
    lower strip use_llm_detection llm_intent_reply detect_user_style
    ap1 ap2 fuel query session_state uid :
  (forall name n st, in_agents name = true -> ap1 name n st = ap2 name n st) ->
  process_query lower strip use_llm_detection llm_intent_reply
    detect_user_style ap1 fuel query session_state uid
  = process_query lower strip use_llm_detection llm_intent_reply
      detect_user_style ap2 fuel query session_state uid.
Proof.
  intros H. unfold process_query, process_query_try.
  assert (Hf : first_response lower strip use_llm_detection llm_intent_reply
                 detect_user_style ap1 query session_state uid
               = first_response lower strip use_llm_detection llm_intent_reply
                   detect_user_style ap2 query session_state uid).
  { unfold first_response.
    destruct (_detect_stop_intent lower strip _) as [[|] msg]; [done|].
    destruct (checkout_stage _); [done|]. simpl.
    match goal with
    | |- context [ap1 ?n 0%nat ?s] =>
        assert (Hn : in_agents n = true) by apply fallback_registered;
        rewrite (H n 0%nat s Hn)
    end. done. }
  rewrite Hf.
  destruct (first_response _ _ _ _ _ ap2 _ _ _) as [[r [name|]]|e]; [|done|done].
  by rewrite (transfer_loop_ext ap1 ap2 fuel H).
Qed.

Lemma only_registered_agents_run_witness :
  process_query ascii_lower ascii_strip false sin_llm estilo_neutral ping_pong
    3 "quiero comprar" None None
  = process_query ascii_lower ascii_strip false sin_llm estilo_neutral
      (fun name n st =>
         if in_agents name then ping_pong name n st
         else Failed (OtherError "no such agent") st)
      3 "quiero comprar" None None.
Proof.
  apply only_registered_agents_run. intros name n st Hn. by rewrite Hn.
Defined.

(** X18.  When the agent chosen for the turn raises, the turn still
    answers: outside a checkout and without a stop phrase, process_query
    returns the apology in the name of a registered agent, asks for no
    transfer and records the exception text under "error". *)
Theorem first_agent_failure_is_answered
    lower strip use_llm_detection llm_intent_reply detect_user_style
    agent_process fuel query session_state uid e :
  (forall name st, exists st', agent_process name 0%nat st = Failed e st') ->
  match session_state with
  | Some st => checkout_stage st = None
  | None => True
  end ->
  any_in stop_patterns (strip (lower query)) = false ->
  exists r,
    process_query lower strip use_llm_detection llm_intent_reply
      detect_user_style agent_process fuel query session_state uid
    = Some (Ret r)
    /\ message r = "Disculpa, tuve un problema técnico. ¿Puedes reformular tu pregunta?"
    /\ should_transfer r = false
    /\ metadata r = [("error", exn_text e)]
    /\ in_agents (agent_name r) = true.
Proof.
  intros Hfail Hsess Hstop.
  unfold process_query, process_query_try, first_response, _detect_stop_intent.
  rewrite initial_state_query, Hstop.
  assert (Hc : checkout_stage (with_detected_style detect_user_style
                                 (initial_state query session_state uid)) = None).
  { rewrite with_detected_style_stage. destruct session_state as [st|].
    - by rewrite initial_state_stage.
    - apply initial_state_fresh_stage. }
  rewrite Hc. simpl.
  match goal with
  | |- context [agent_process ?n 0%nat ?s] =>
      destruct (Hfail n s) as [st' ->];
      assert (Hn : in_agents n = true) by apply fallback_registered
  end.
  destruct fuel; simpl; eexists; (split; [reflexivity|]); simpl; by repeat split.
Qed.

Lemma first_agent_failure_is_answered_witness :
  exists r,
    process_query ascii_lower ascii_strip false sin_llm estilo_neutral
      (fun _ _ st => Failed (OtherError "timeout") st) 3 "busco Nike" None None
    = Some (Ret r)
    /\ should_transfer r = false
    /\ metadata r = [("error", "timeout")].
Proof.
  destruct (first_agent_failure_is_answered ascii_lower ascii_strip false sin_llm
              estilo_neutral (fun _ _ st => Failed (OtherError "timeout") st)
              3 "busco Nike" None None (OtherError "timeout")
              (fun _ st => ex_intro _ st eq_refl) I eq_refl)
    as (r & Hr & _ & Ht & Hm & _).
  exists r. split; [exact Hr|]. split; [exact Ht|exact Hm].
Defined.

End OrchestratorProperties.

(** ** The script session and its continuation *)

Section SessionProperties.
Import Py Models OrderService Comparison Mutations GuionSession ExtraSpec.
Import Samples ExtraSamples.

(** X19.  The session stored for a recommendation starts at the best
    option: its index is 0, the product it names is the first of its
    list and is the recommendation's best option, and the list holds the
    ranked products in ranking order. *)
Theorem recommendation_session_starts_at_best lower today products guion r :
  compare_and_recommend lower today products guion = Ret r ->
  let sd := guion_session r in
  session_consistent sd
  /\ current_index sd = Some 0%nat
  /\ mejor_opcion_id sd = Some (best_option_id r)
  /\ sp_id <$> default [] (sd_productos sd)
     = (fun p => Some (ps_id (product p))) <$> rr_products r.
Proof.
  unfold compare_and_recommend. destruct products as [|p0 ps]; [discriminate|].
  destruct (sort_desc _) as [|best others]; [discriminate|].
  intros [= <-]. cbv zeta. simpl. split.
  - exists (producto_de_sesion best). by split.
  - repeat split. f_equal. rewrite <- list_fmap_compose. done.
Qed.

Lemma recommendation_session_starts_at_best_witness :
  session_consistent
    (guion_session
       {| rr_products :=
            sort_desc (scored_products ascii_lower hoy [zeta; alfa] guion_zeta_alfa);
          best_option_id := id_a; user_preferences_matched := [] |}).
Proof.
  destruct (compare_and_recommend ascii_lower hoy [zeta; alfa] guion_zeta_alfa)
    as [r|e] eqn:Hc; [|discriminate Hc].
  pose proof (recommendation_session_starts_at_best _ _ _ _ _ Hc) as H.
  injection Hc as <-. exact (proj1 H).
Defined.

(** X20.  Whatever the user answers, a session that names the product
    at its index still does so when it is written back; its product
    list is the same and its index moved forward by at most one. *)
Theorem continuation_keeps_session_consistent lower strip search_talla UUID
    env sid text db sd sd' :
  redis_get env = Ret (Some sd) ->
  session_consistent sd ->
  guardada (continuar_conversacion lower strip search_talla UUID env sid text db)
  = Some sd' ->
  session_consistent sd'
  /\ sd_productos sd' = sd_productos sd
  /\ (default 0 (current_index sd) <= default 0 (current_index sd')
      <= default 0 (current_index sd) + 1)%nat.
Proof.
  intros Hs Hcons. unfold continuar_conversacion.
  destruct (current_user env) as [user|]; [|discriminate].
  rewrite Hs. simpl. destruct (rama _).
  - unfold rama_aprobacion. destruct (redis_setex_ok env); [|discriminate].
    intros [= <-]. simpl. split; [exact Hcons|]. split; [done|lia].
  - unfold rama_rechazo.
    destruct (default [] (sd_productos sd) !! _) as [p|] eqn:Hp; [|discriminate].
    destruct (redis_setex_ok env); [|discriminate].
    intros [= <-]. simpl. split; [|split; [done|lia]].
    exists p. by split.
  - unfold rama_envio. simpl.
    destruct (mejor_opcion_id sd) as [[|a mejor]|]; try discriminate.
    destruct (product_query_ok env); simpl; [|discriminate].
    destruct (UUID (String a mejor)) as [pid|]; [|discriminate].
    destruct (product_stocks db !! pid) as [product_obj|]; [|discriminate].
    destruct (order_data_de _ _ _ _ _ _) as [order_data|]; [|discriminate].
    destruct (create_order _ _ _) as [[[order msg]|[]] db']; try discriminate.
    destruct (redis_setex_ok env); [|discriminate].
    intros [= <-]. simpl. split; [exact Hcons|]. split; [done|lia].
Qed.

Lemma continuation_keeps_session_consistent_witness :
  exists sd',
    guardada (continuar_en (entorno_de sesion_dos true) "otra opcion" tienda)
    = Some sd'
    /\ session_consistent sd'
    /\ mejor_opcion_id sd' = Some id_a.
Proof.
  eexists. split; [reflexivity|]. split; [|reflexivity].
  refine (proj1 (continuation_keeps_session_consistent ascii_lower ascii_strip
                   ascii_search_talla canonical_uuid (entorno_de sesion_dos true)
                   "s-1" "otra opcion" tienda sesion_dos _ eq_refl _ eq_refl)).
  eexists. split; reflexivity.
Defined.

Lemma order_data_de_short UUID user mejor direccion talla sid :
  len direccion < 10 ->
  order_data_de UUID user mejor direccion talla sid = None.
Proof.
  intros Hlen. unfold order_data_de.
  destruct (UUID (usuario_id user)); [|done]. destruct (UUID mejor); [|done].
  unfold valid_order_create. simpl.
  by rewrite (proj2 (Z.leb_gt 10 (len direccion)) Hlen).
Qed.

(** X21.  A reply shorter than ten characters never creates an order:
    whatever the session and the stock, the persisted state is
    unchanged and the reply carries no order and is not
    orden_completada. *)
Theorem short_reply_creates_no_order lower strip search_talla UUID env sid
    text db :
  len (strip text) < 10 ->
  let r := continuar_conversacion lower strip search_talla UUID env sid text db in
  base r = db
  /\ order_id (respuesta r) = None
  /\ siguiente_paso (respuesta r) <> "orden_completada".
Proof.
  intros Hlen. cbv zeta. unfold continuar_conversacion.
  destruct (current_user env) as [user|]; [|done].
  destruct (redis_get env) as [[sd|]|]; simpl; try done.
  destruct (rama _).
  - unfold rama_aprobacion. by destruct (redis_setex_ok env).
  - unfold rama_rechazo.
    destruct (default [] (sd_productos sd) !! _); [|done].
    by destruct (redis_setex_ok env).
  - unfold rama_envio. simpl.
    destruct (mejor_opcion_id sd) as [[|a mejor]|]; try done.
    destruct (product_query_ok env); simpl; [|done].
    destruct (UUID (String a mejor)) as [pid|]; [|done].
    destruct (product_stocks db !! pid) as [product_obj|]; [|done].
    by rewrite order_data_de_short.
Qed.

Lemma short_reply_creates_no_order_witness :
  base (continuar id_b "talla 42" tienda) = tienda
  /\ siguiente_paso (respuesta (continuar id_b "talla 42" tienda)) = "reintentar".
Proof.
  split; [|reflexivity].
  refine (proj1 (short_reply_creates_no_order ascii_lower ascii_strip
                   ascii_search_talla canonical_uuid (entorno id_b) "s-1"
                   "talla 42" tienda _)).
  vm_compute. reflexivity.
Defined.

(** X22.  When the order is committed and the session cannot be written
    back afterwards, the user is told that the order failed and to try
    again, although the order is stored and its stock is taken: the
    reply has success false and next step reintentar, carries no order
    id, and the persisted state is the one create_order committed. *)
Theorem order_kept_when_session_write_fails lower strip search_talla UUID env sid
    text db user sd a mejor pid product_obj order_data order msg db' :
  current_user env = Some user ->
  redis_get env = Ret (Some sd) ->
  any_in palabras_aprobacion (strip (lower text)) = false ->
  any_in palabras_rechazo (strip (lower text)) = false ->
  mejor_opcion_id sd = Some (String a mejor) ->
  product_query_ok env = true ->
  UUID (String a mejor) = Some pid ->
  product_stocks db !! pid = Some product_obj ->
  order_data_de UUID user (String a mejor) (strip text)
    (default "Sin especificar" (search_talla (strip text))) sid = Some order_data ->
  redis_setex_ok env = false ->
  create_order (db_env env) order_data db = (Ret (order, msg), db') ->
  let r := continuar_conversacion lower strip search_talla UUID env sid text db in
  success (respuesta r) = false
  /\ siguiente_paso (respuesta r) = "reintentar"
  /\ order_id (respuesta r) = None
  /\ guardada r = None
  /\ base r = db'
  /\ orders db' = orders db ++ [order].
Proof.
  intros Hu Hs Ha Hr Hm Hq Hid Hp Hd Hset Hc r. subst r.
  rewrite (reaches_create_order _ _ _ _ _ _ _ _ _ _ _ _ _ _ _
             Hu Hs Ha Hr Hm Hq Hid Hp Hd).
  rewrite Hc, Hset. simpl. repeat (split; [done|]).
  unfold create_order in Hc.
  destruct (transaction (db_env env) order_data (product_stocks db)) as [[tbl o]|e];
    [|discriminate].
  by injection Hc as <- _ <-.
Qed.

Lemma order_kept_when_session_write_fails_witness :
  siguiente_paso
    (respuesta (continuar_en (entorno_de (sesion id_b) false)
                  "cuanto cuesta el flete" tienda)) = "reintentar"
  /\ length (orders (base (continuar_en (entorno_de (sesion id_b) false)
                             "cuanto cuesta el flete" tienda))) = 1%nat.
Proof.
  destruct (create_order (healthy id_order) pedido_flete tienda)
    as [[[order msg]|e] db'] eqn:Hc; [|discriminate Hc].
  destruct (order_kept_when_session_write_fails ascii_lower ascii_strip
              ascii_search_talla canonical_uuid (entorno_de (sesion id_b) false)
              "s-1" "cuanto cuesta el flete" tienda cliente (sesion id_b)
              "0" "000000b-0000-0000-0000-000000000000" id_b adidas_b
              pedido_flete order msg db'
              eq_refl eq_refl eq_refl eq_refl eq_refl eq_refl eq_refl eq_refl
              eq_refl eq_refl Hc)
    as (_ & Hpaso & _ & _ & Hbase & Ho).
  split; [exact Hpaso|]. unfold continuar_en. rewrite Hbase, Ho. reflexivity.
Defined.

End SessionProperties.

(** ** What the continuation reads from and writes into its texts *)

Section TextProperties.
Import Py Models OrderService Mutations ExtraSpec Samples ExtraSamples.

Lemma hex_upper a :
  is_hex a = true -> is_upper_hex (ascii_upper_char a) = true.
Proof.
  destruct a as [[] [] [] [] [] [] [] []]; vm_compute; congruence.
Qed.

Lemma canonical_from_length s :
  forall i, canonical_from i s = true -> (i + String.length s = 36)%nat.
Proof.
  induction s as [|a s IH]; intros i; simpl.
  - intros H%Nat.eqb_eq. lia.
  - intros [_ H]%andb_true_iff. apply IH in H. lia.
Qed.

Lemma canonical_order_number s :
  canonical_from 0 s = true ->
  order_number_ok ("ORD-" +:+ ascii_upper (substring 0 8 s)) = true.
Proof.
  intros H. pose proof (canonical_from_length s 0%nat H) as Hl.
  destruct s as [|a1 [|a2 [|a3 [|a4 [|a5 [|a6 [|a7 [|a8 rest]]]]]]]];
    try (simpl in Hl; lia).
  cbn [canonical_from existsb Nat.eqb orb] in H.
  repeat (apply andb_true_iff in H as [?%hex_upper H]).
  assert (Hz : substring 0 0 rest = EmptyString) by (by destruct rest).
  cbn. rewrite Hz. cbn. unfold order_number_ok. cbn.
  repeat (apply andb_true_iff; split); done.
Qed.

(** X23.  Whenever the continuation answers with an order number and the
    id given to the new order is a UUID in canonical form, the number is
    ORD- followed by exactly eight characters out of 0-9 and A-F. *)
Theorem order_number_format lower strip search_talla UUID env sid text db n :
  canonical_from 0 (new_order_id (db_env env)) = true ->
  order_number
    (respuesta (continuar_conversacion lower strip search_talla UUID env sid text db))
  = Some n ->
  order_number_ok n = true.
Proof.
  intros Hcan. unfold continuar_conversacion.
  destruct (current_user env) as [user|]; [|discriminate].
  destruct (redis_get env) as [[sd|]|]; simpl; try discriminate.
  destruct (rama _).
  - unfold rama_aprobacion. by destruct (redis_setex_ok env).
  - unfold rama_rechazo.
    destruct (default [] (sd_productos sd) !! _); [|discriminate].
    by destruct (redis_setex_ok env).
  - unfold rama_envio. simpl.
    destruct (mejor_opcion_id sd) as [[|a mejor]|]; try discriminate.
    destruct (product_query_ok env); simpl; [|discriminate].
    destruct (UUID (String a mejor)) as [pid|]; [|discriminate].
    destruct (product_stocks db !! pid) as [product_obj|]; [|discriminate].
    destruct (order_data_de _ _ _ _ _ _) as [order_data|]; [|discriminate].
    unfold create_order.
    destruct (transaction (db_env env) order_data (product_stocks db))
      as [[tbl o]|e] eqn:Ht.
    + destruct (redis_setex_ok env); [|discriminate]. simpl. intros [= <-].
      unfold transaction in Ht.
      destruct (db_call (begin_fault _)); simpl in Ht; [|discriminate].
      destruct (reserve _ _ _ _ _) as [[t ds]|]; simpl in Ht; [|discriminate].
      destruct (db_call (flush_fault _)); simpl in Ht; [|discriminate].
      destruct (db_call (refresh_fault _)); simpl in Ht; [|discriminate].
      destruct (db_call (commit_fault _)); simpl in Ht; [|discriminate].
      injection Ht as _ <-. simpl. by apply canonical_order_number.
    + by destruct (translate e).
Qed.

Lemma order_number_format_witness :
  order_number (respuesta (continuar id_b "cuanto cuesta el flete" tienda))
  = Some "ORD-0000C0DE"
  /\ order_number_ok "ORD-0000C0DE" = true.
Proof.
  split; [reflexivity|].
  exact (order_number_format ascii_lower ascii_strip ascii_search_talla
           canonical_uuid (entorno id_b) "s-1" "cuanto cuesta el flete" tienda
           "ORD-0000C0DE" eq_refl eq_refl).
Defined.

Lemma talla_digits_value a b :
  talla_digits a b = true ->
  two_digit_value (String a (String b EmptyString))
  = Some (10 * (Z.of_N (N_of_ascii a) - 48) + (Z.of_N (N_of_ascii b) - 48))
  /\ 35 <= 10 * (Z.of_N (N_of_ascii a) - 48) + (Z.of_N (N_of_ascii b) - 48) <= 50.
Proof.
  unfold talla_digits, two_digit_value, is_digit. cbv zeta.
  generalize (N_of_ascii a) (N_of_ascii b). intros x y H.
  assert (Hxy : ((x = 51 /\ 53 <= y <= 57) \/ (x = 52 /\ 48 <= y <= 57)
                 \/ (x = 53 /\ y = 48))%N).
  { repeat match goal with
           | H : _ || _ = true |- _ => apply orb_true_iff in H as [H|H]
           | H : _ && _ = true |- _ => apply andb_true_iff in H as [H ?]
           | H : (_ =? _)%N = true |- _ => apply N.eqb_eq in H
           | H : (_ <=? _)%N = true |- _ => apply N.leb_le in H
           end; lia. }
  assert (Hd : (48 <=? x)%N && (x <=? 57)%N && ((48 <=? y)%N && (y <=? 57)%N) = true).
  { repeat (apply andb_true_iff; split); apply N.leb_le; lia. }
  rewrite Hd. split; [done|lia].
Qed.

Lemma search_talla_from_sound s :
  forall prev t,
    search_talla_from prev s = Some t ->
    contains t s = true
    /\ exists n, two_digit_value t = Some n /\ 35 <= n <= 50.
Proof.
  induction s as [|a s1 IH]; intros prev t; [discriminate|].
  cbn [search_talla_from]. destruct s1 as [|b rest]; [discriminate|].
  destruct (negb prev && talla_digits a b && _) eqn:Hm.
  - intros [= <-]. apply andb_true_iff in Hm as [Hm _].
    apply andb_true_iff in Hm as [_ Hm].
    destruct (talla_digits_value a b Hm) as [Hv Hr]. split.
    + cbn. by rewrite !Ascii.eqb_refl.
    + eauto.
  - intros Hs. destruct (IH _ _ Hs) as [Hc Hn]. split; [|exact Hn].
    cbn [contains]. destruct (starts_with t _); [done|exact Hc].
Qed.

(** X24.  The size the continuation reads from a reply is always a piece
    of that reply, two digits long, that stands for a number from 35 to
    50. *)
Theorem talla_found_is_a_size s t :
  ascii_search_talla s = Some t ->
  contains t s = true
  /\ exists n, two_digit_value t = Some n /\ 35 <= n <= 50.
Proof. apply search_talla_from_sound. Qed.

Lemma talla_found_is_a_size_witness :
  ascii_search_talla "Av Loja 456 Cuenca talla 42" = Some "42"
  /\ contains "42" "Av Loja 456 Cuenca talla 42" = true.
Proof.
  split; [reflexivity|].
  exact (proj1 (talla_found_is_a_size "Av Loja 456 Cuenca talla 42" "42" eq_refl)).
Defined.

End TextProperties.

(** ** Status changes through the controller *)

Section ControllerProperties.
Import Py Models OrderService OrderLifecycle OrderCancel OrderController ExtraSpec.
Import Samples ExtraSamples.

Lemma status_of_name_name s : status_of_name (status_name s) = Some s.
Proof. by destruct s. Qed.

(** What a [change_status] that returned did. *)
Lemma change_status_Ret strip timestamp env oid new_status notes db ok msg db' :
  change_status strip timestamp env oid new_status notes db = Ret ((ok, msg), db') ->
  (ok = false /\ db' = db)
  \/ (ok = true
      /\ exists o o' s,
          get_order oid (orders db) = Some o
          /\ s ∈ valid_transitions (status o) /\ new_status = status_name s
          /\ status o' = s /\ o_id o' = Some oid /\ details o' = details o
          /\ payment_status o' = payment_status o
          /\ product_stocks db' = product_stocks db
          /\ orders db' = put_order oid o' (orders db)).
Proof.
  unfold change_status, get_by_id.
  destruct (ctl_execute_fault env); simpl; [discriminate|].
  destruct (get_order oid (orders db)) as [o|] eqn:Hg;
    [|intros [= <- _ <-]; by left].
  destruct (can_transition_to o new_status) eqn:Hc; simpl;
    [|intros [= <- _ <-]; by left].
  destruct (ctl_flush_fault env); simpl; [discriminate|].
  intros [= <- _ <-]. right. split; [done|].
  apply can_transition_to_elem in Hc as (s & Hin & ->).
  rewrite status_of_name_name. simpl.
  pose proof (get_order_id _ _ _ Hg) as Hid.
  destruct notes as [[|a n]|]; simpl;
    match goal with
    | |- context [put_order oid ?x (orders db)] => exists o, x, s
    end; by repeat split.
Qed.

Lemma changes_bound strip timestamp env oid requests :
  forall db k db',
    changes strip timestamp env oid requests db = Some (k, db') ->
    match get_order oid (orders db) with
    | Some o => Z.of_nat k <= 6 - rank (status o)
    | None => k = 0%nat
    end.
Proof.
  induction requests as [|[new_status notes] rest IH]; intros db k db'; simpl.
  - intros [= <- _]. destruct (get_order oid (orders db)) as [o|]; [|done].
    destruct (status o); simpl; lia.
  - destruct (change_status _ _ _ _ _ _ _) as [[[ok msg] db1]|] eqn:Hc;
      [|discriminate].
    destruct (changes _ _ _ _ rest db1) as [[k1 db2]|] eqn:Hr; [|discriminate].
    intros [= <- _]. apply IH in Hr.
    apply change_status_Ret in Hc as [[-> ->]|(-> & o & o' & s & Hg & Hin & _ & Hs
                                              & Hid & _ & _ & _ & Ho)].
    + destruct (get_order oid (orders db)); simpl; lia.
    + rewrite Ho in Hr. rewrite (proj1 (get_put_order _ _ _ _ Hg Hid)) in Hr.
      rewrite Hg. rewrite Hs in Hr.
      assert (rank (status o) < rank s);
        [destruct (status o); simpl in Hin; each_member Hin; simpl; lia|lia].
Qed.

(** X25.  However many change_status requests are made on an order, and
    whatever statuses they ask for, at most six of them go through; on
    an order that does not exist none does. *)
Theorem change_status_at_most_six strip timestamp env oid requests db k db' :
  changes strip timestamp env oid requests db = Some (k, db') ->
  (k <= 6)%nat /\ (get_order oid (orders db) = None -> k = 0%nat).
Proof.
  intros H. apply changes_bound in H.
  destruct (get_order oid (orders db)) as [o|]; [|split; [lia|done]].
  split; [|discriminate].
  assert (0 <= rank (status o)) by (destruct (status o); simpl; lia). lia.
Qed.

Lemma change_status_at_most_six_witness :
  exists db',
    changes ascii_strip "2026-01-01 10:00:00" ctl_healthy id_order
      [("PAID", None); ("DRAFT", None); ("PROCESSING", Some "en bodega");
       ("PAID", None); ("SHIPPED", None)]
      {| product_stocks := ∅; orders := [orden_en CONFIRMED] |}
    = Some (3%nat, db')
    /\ (3 <= 6)%nat.
Proof.
  eexists. split; [reflexivity|].
  exact (proj1 (change_status_at_most_six ascii_strip "2026-01-01 10:00:00"
                  ctl_healthy id_order
                  [("PAID", None); ("DRAFT", None); ("PROCESSING", Some "en bodega");
                   ("PAID", None); ("SHIPPED", None)]
                  {| product_stocks := ∅; orders := [orden_en CONFIRMED] |}
                  3%nat _ eq_refl)).
Defined.

(** X26.  The two ways of cancelling disagree.  The controller cancels
    exactly when the transition table allows CANCELLED, and touches no
    stock; the service cancels every order that is not DELIVERED or
    CANCELLED.  So a PAID, SHIPPED or REFUNDED order, which the table
    does not let become CANCELLED, is refused by the controller and
    cancelled by the service. *)
Theorem cancel_paths_disagree strip timestamp cenv senv oid reason db o :
  ctl_execute_fault cenv = None -> ctl_flush_fault cenv = None ->
  cancel_no_fault senv ->
  get_order oid (orders db) = Some o ->
  (exists msg db1,
      OrderController.cancel_order strip timestamp cenv oid reason db
      = Ret ((can_transition_to o "CANCELLED", msg), db1)
      /\ product_stocks db1 = product_stocks db)
  /\ ((OrderCancel.cancel_order senv oid reason db).1.1 = true
      <-> status o <> DELIVERED /\ status o <> CANCELLED)
  /\ (status o ∈ [PAID; SHIPPED; REFUNDED] ->
      can_transition_to o "CANCELLED" = false
      /\ (OrderCancel.cancel_order senv oid reason db).1.1 = true).
Proof.
  intros He Hf Hno Hg.
  assert (Hyes : status o <> DELIVERED -> status o <> CANCELLED ->
                 (OrderCancel.cancel_order senv oid reason db).1.1 = true).
  { intros Hd Hc.
    by destruct (cancel_order_no_fault senv oid reason db o Hno Hg Hd Hc)
      as (tbl & _ & ->). }
  split; [|split; [split|]].
  - unfold OrderController.cancel_order, change_status, get_by_id.
    rewrite He, Hg. simpl.
    destruct (can_transition_to o "CANCELLED"); simpl; [|by eexists _, _].
    rewrite Hf. simpl. by eexists _, _.
  - destruct Hno as (Hb & Hgo & _ & Hc).
    unfold OrderCancel.cancel_order, cancel_transaction.
    rewrite Hb, Hgo, Hg. simpl.
    destruct (status o); simpl; rewrite ?Hc; simpl; try discriminate; by split.
  - intros [Hd Hc]. by apply Hyes.
  - intros Hin.
    assert (Hs : status o = PAID \/ status o = SHIPPED \/ status o = REFUNDED).
    { rewrite !elem_of_cons, elem_of_nil in Hin. tauto. }
    destruct Hs as [Hs|[Hs|Hs]];
      (split; [unfold can_transition_to; by rewrite Hs
              |apply Hyes; rewrite Hs; discriminate]).
Qed.

Lemma cancel_paths_disagree_witness :
  can_transition_to (orden_en PAID) "CANCELLED" = false
  /\ (OrderCancel.cancel_order cancel_healthy id_order None
        {| product_stocks := ∅; orders := [orden_en PAID] |}).1.1 = true.
Proof.
  refine (proj2 (proj2 (cancel_paths_disagree ascii_strip "2026-01-01 10:00:00"
                          ctl_healthy cancel_healthy id_order None
                          {| product_stocks := ∅; orders := [orden_en PAID] |}
                          (orden_en PAID) eq_refl eq_refl _ eq_refl)) _).
  - by repeat split.
  - apply elem_of_cons. by left.
Defined.

(** X27.  An order whose status was just changed cannot be deleted:
    after a change_status that went through, whatever the status asked
    for, delete_order answers that only drafts can be deleted and
    removes nothing. *)
Theorem changed_order_cannot_be_deleted strip timestamp env oid new_status notes
    db msg db' :
  change_status strip timestamp env oid new_status notes db
  = Ret ((true, msg), db') ->
  delete_order env oid db' = Ret ((false, SoloBorrador), db').
Proof.
  intros Hc. unfold delete_order, get_by_id.
  assert (He : ctl_execute_fault env = None).
  { unfold change_status, get_by_id in Hc.
    by destruct (ctl_execute_fault env). }
  rewrite He. simpl.
  apply change_status_Ret in Hc as [[? _]|(_ & o & o' & s & Hg & Hin & _ & Hs
                                          & Hid & _ & _ & _ & Ho)]; [discriminate|].
  rewrite Ho, (proj1 (get_put_order _ _ _ _ Hg Hid)), Hs.
  destruct (status o); simpl in Hin; each_member Hin; done.
Qed.

Lemma changed_order_cannot_be_deleted_witness :
  exists db',
    change_status ascii_strip "2026-01-01 10:00:00" ctl_healthy id_order
      "CONFIRMED" None {| product_stocks := ∅; orders := [orden_en DRAFT] |}
    = Ret ((true, EstadoCambiado "CONFIRMED"), db')
    /\ delete_order ctl_healthy id_order db' = Ret ((false, SoloBorrador), db').
Proof.
  eexists. split; [reflexivity|].
  exact (changed_order_cannot_be_deleted ascii_strip "2026-01-01 10:00:00"
           ctl_healthy id_order "CONFIRMED" None
           {| product_stocks := ∅; orders := [orden_en DRAFT] |} _ _ eq_refl).
Defined.

End ControllerProperties.

(** ** The order mutations of the GraphQL API *)

Section OrderMutationProperties.
Import Py Models OrderService OrderLifecycle OrderCancel Mutations OrderMutations.
Import ExtraSpec Samples ExtraSamples.

(** X28.  In the mutation create_order of a logged-in user, a request
    that breaks a field constraint (an address shorter than ten
    characters, no lines, a quantity below one) is answered
    internal_error without calling the service; and when the service
    raises, the answer carries the text of the exception under the code
    of its class (product_not_found, insufficient_stock, order_error).
    In both cases nothing was written. *)
Theorem create_order_mutation_failures UUID user uid env input db :
  UUID (usuario_id user) = Some uid ->
  let order_data :=
    {| oc_user_id := uid;
       oc_details :=
         map (fun d => {| product_id := di_product_id d;
                          odc_quantity := di_quantity d |}) (in_details input);
       oc_shipping_address := in_shipping_address input;
       oc_notes := in_notes input;
       oc_session_id := in_session_id input |} in
  let out := create_order_mutation UUID (Some user) env input db in
  (valid_order_create order_data = false ->
   out = (Ret (rechazada ErrorInterno "internal_error"), db))
  /\ (forall e,
        valid_order_create order_data = true ->
        (create_order env order_data db).1 = Raise e ->
        out = (Ret (rechazada (DelError e) (error_code e)), db)).
Proof.
  intros Hu order_data out. subst out. unfold create_order_mutation.
  rewrite Hu. fold order_data. split.
  - by intros ->.
  - intros e -> He. simpl.
    pose proof (create_order_rollback env order_data db) as Hsame.
    destruct (create_order env order_data db) as [[[order msg]|e'] db'];
      simpl in *; [discriminate|].
    injection He as ->. rewrite (Hsame _ eq_refl). by destruct e.
Qed.

Lemma create_order_mutation_failures_witness :
  create_order_mutation canonical_uuid (Some cliente) (healthy id_order)
    (entrada [ {| di_product_id := id_b; di_quantity := 0 |} ] "Av Loja 456 Cuenca")
    tienda
  = (Ret (rechazada ErrorInterno "internal_error"), tienda)
  /\ create_order_mutation canonical_uuid (Some cliente) (healthy id_order)
       (entrada [ {| di_product_id := id_b; di_quantity := 9 |} ] "Av Loja 456 Cuenca")
       tienda
     = (Ret (rechazada (DelError (InsufficientStockError "Adidas Ultraboost" 8 9))
               "insufficient_stock"), tienda).
Proof.
  split.
  - exact (proj1 (create_order_mutation_failures canonical_uuid cliente id_user
                    (healthy id_order)
                    (entrada [ {| di_product_id := id_b; di_quantity := 0 |} ]
                       "Av Loja 456 Cuenca") tienda eq_refl) eq_refl).
  - exact (proj2 (create_order_mutation_failures canonical_uuid cliente id_user
                    (healthy id_order)
                    (entrada [ {| di_product_id := id_b; di_quantity := 9 |} ]
                       "Av Loja 456 Cuenca") tienda eq_refl)
             (InsufficientStockError "Adidas Ultraboost" 8 9) eq_refl eq_refl).
Defined.

(** X29.  The mutation cancel_order asks only that somebody is logged
    in: whoever the user is, and whoever placed the order, an order that
    is not DELIVERED or CANCELLED is cancelled, and the answer carries
    the order as stored, CANCELLED with payment REFUNDED, still under
    the name of the user who placed it. *)
Theorem cancel_order_mutation_any_user user env oid reason db o :
  cancel_no_fault env ->
  get_order oid (orders db) = Some o ->
  status o <> DELIVERED -> status o <> CANCELLED ->
  exists db',
    cancel_order_mutation (Some user) env None oid reason db
    = ({| cr_success := true; cr_order := Some (cancelled o reason);
          cr_message := DeCancelacion "Pedido cancelado exitosamente";
          cr_error := None |}, db')
    /\ get_order oid (orders db') = Some (cancelled o reason)
    /\ status (cancelled o reason) = CANCELLED
    /\ payment_status (cancelled o reason) = "REFUNDED"
    /\ Models.user_id (cancelled o reason) = Models.user_id o.
Proof.
  intros Hno Hg Hd Hc.
  destruct (cancel_order_no_fault env oid reason db o Hno Hg Hd Hc) as (tbl & _ & Hco).
  assert (Hid : o_id (cancelled o reason) = Some oid)
    by (simpl; by apply (get_order_id _ _ _ Hg)).
  pose proof (proj1 (get_put_order oid (orders db) o _ Hg Hid)) as Hget.
  eexists. unfold cancel_order_mutation. rewrite Hco. simpl. rewrite Hget.
  by repeat split.
Qed.

Lemma cancel_order_mutation_any_user_witness :
  exists db',
    cancel_order_mutation (Some otro_usuario) cancel_healthy None id_order None
      {| product_stocks := ∅; orders := [orden_en CONFIRMED] |}
    = ({| cr_success := true; cr_order := Some (cancelled (orden_en CONFIRMED) None);
          cr_message := DeCancelacion "Pedido cancelado exitosamente";
          cr_error := None |}, db')
    /\ String.eqb (usuario_id otro_usuario) (Models.user_id (orden_en CONFIRMED))
       = false.
Proof.
  destruct (cancel_order_mutation_any_user otro_usuario cancel_healthy id_order
              None {| product_stocks := ∅; orders := [orden_en CONFIRMED] |}
              (orden_en CONFIRMED))
    as (db' & H & _); [by repeat split|reflexivity|discriminate|discriminate|].
  exists db'. split; [exact H|reflexivity].
Defined.

End OrderMutationProperties.

(** ** The lines of a committed order *)

Section CommittedLines.
Import Py Models OrderService OrderLifecycle OrderSpec ExtraSpec Samples ExtraSamples.

Lemma paired_lines (new : list OrderDetail) :
  forall items : list OrderDetailCreate,
    map quantity new = map odc_quantity items ->
    map od_product_id new = map product_id items ->
    forall d, d ∈ new ->
      exists it, it ∈ items /\ product_id it = od_product_id d
                 /\ odc_quantity it = quantity d.
Proof.
  induction new as [|d0 new IH]; intros [|it0 items]; simpl; try discriminate.
  - intros _ _ d Hd. by apply elem_of_nil in Hd.
  - intros [= Hq Hqs] [= Hp Hps] d Hd. apply elem_of_cons in Hd as [->|Hd].
    + exists it0. split; [apply elem_of_cons; by left|done].
    + destruct (IH items Hqs Hps d Hd) as (it & Hin & H1 & H2).
      exists it. split; [apply elem_of_cons; by right|done].
Qed.

Lemma requested_nonneg k items :
  quantities_valid items -> 0 <= requested k items.
Proof.
  induction 1 as [|it items Hit _ IH]; simpl; [lia|].
  destruct (bool_decide _); lia.
Qed.

Lemma requested_ge k items it :
  quantities_valid items -> it ∈ items -> product_id it = k ->
  odc_quantity it <= requested k items.
Proof.
  induction 1 as [|it0 items Hit Hv IH]; intros Hin Hk.
  - by apply elem_of_nil in Hin.
  - simpl. apply elem_of_cons in Hin as [->|Hin].
    + rewrite bool_decide_eq_true_2 by done.
      pose proof (requested_nonneg k items Hv). lia.
    + specialize (IH Hin Hk). destruct (bool_decide _); lia.
Qed.

Lemma fold_left_quantities (ds : list OrderDetail) :
  forall acc,
    fold_left (fun acc d => acc + quantity d) ds acc
    = acc + foldr Z.add 0 (map quantity ds).
Proof.
  induction ds as [|d ds IH]; intros acc; simpl; [lia|]. rewrite IH. lia.
Qed.

(** X30.  The lines of an order that create_order committed for a
    well-formed request agree with the checks of the order model: every
    line passes its own validate_quantity against the stock its product
    had before the order, every line's subtotal is its quantity times
    its unit price, with nothing taken off, and item_count is the number
    of units requested. *)
Theorem committed_lines_pass_model_checks env order_data db o msg db' :
  well_keyed (product_stocks db) ->
  quantities_valid (oc_details order_data) ->
  create_order env order_data db = (Ret (o, msg), db') ->
  (forall d, d ∈ details o ->
     exists p, product_stocks db !! od_product_id d = Some p
               /\ validate_quantity d (quantity_available p) = (true, None)
               /\ (od_subtotal d == total_without_discount d)%Q)
  /\ item_count o = foldr Z.add 0 (map odc_quantity (oc_details order_data)).
Proof.
  intros Hwk Hv. unfold create_order.
  destruct (transaction env order_data (product_stocks db)) as [[tbl o']|r] eqn:Ht;
    [|discriminate].
  intros [= -> _ _].
  destruct (transaction_Ret _ _ _ _ _ Ht) as (ds & Hr & Hd & _).
  destruct (reserve_details _ _ _ _ _ _ _ Hr) as (new & Hn & Hq & Hid).
  simpl in Hn. subst new. specialize (Hid Hwk). rewrite Hd. split.
  - intros d Hin.
    destruct (paired_lines ds _ Hq Hid d Hin) as (it & Hit & Hp & Hqty).
    destruct (reserve_named_available _ _ _ _ _ _ _ Hr it Hit)
      as (p' & Hp' & Hpos & _).
    rewrite (reserve_lookup _ _ _ _ _ _ _ Hr) in Hp'.
    destruct (product_stocks db !! product_id it) as [p|] eqn:Hlook;
      [|discriminate].
    injection Hp' as <-. simpl in Hpos.
    pose proof (requested_ge (product_id it) _ it Hv Hit eq_refl) as Hge.
    assert (H1 : 1 <= odc_quantity it).
    { unfold quantities_valid in Hv. rewrite Forall_forall in Hv. by apply Hv. }
    exists p. rewrite <- Hp. split; [done|]. split.
    + unfold validate_quantity. rewrite <- Hqty.
      rewrite (proj2 (Z.leb_gt _ _)) by lia.
      by rewrite (proj2 (Z.ltb_ge _ _)) by lia.
    + pose proof (reserve_details_no_discount env _ _ _ _ _ _
                    (Forall_nil_2 _) Hr) as Hnone.
      rewrite Forall_forall in Hnone. unfold od_subtotal, total_without_discount.
      rewrite (Hnone d Hin). simpl. ring.
  - unfold item_count. rewrite Hd, <- Hq.
    destruct ds as [|d ds]; [done|]. by rewrite fold_left_quantities.
Qed.

Lemma committed_lines_pass_model_checks_witness :
  item_count (orden_en CONFIRMED) = 0
  /\ exists o msg db',
      create_order (healthy id_order) (pedido [linea id_b 2; linea id_b 3]) tienda
      = (Ret (o, msg), db')
      /\ item_count o = 5.
Proof.
  split; [reflexivity|].
  destruct (create_order (healthy id_order) (pedido [linea id_b 2; linea id_b 3])
              tienda) as [[[o msg]|e] db'] eqn:Hc; [|discriminate Hc].
  exists o, msg, db'. split; [reflexivity|].
  refine (proj2 (committed_lines_pass_model_checks _ _ _ _ _ _ tienda_well_keyed
                   _ Hc)).
  repeat (apply Forall_cons_2; [simpl; lia|]). apply Forall_nil_2.
Defined.

End CommittedLines.
